(** * Long-term-diseases dashboard: the data preparation pipeline

    A shallow embedding of [src/utils/io.py], [src/utils/prep.py] and of the
    department normaliser of [src/sections/map_section.py], with the
    properties of the pipeline stated and proved over it.

    Conventions of the embedding.
    - Text is a [string] of 8-bit characters. The text operations
      ([strip], [zfill], [upper], the regular expressions) are the ASCII
      fragment of Python's; decoded file content is kept as its UTF-8
      bytes.
    - Numbers are exact rationals ([Q]). Binary rounding and the IEEE
      infinities are outside the model; NaN is the null cell.
    - A data frame is a list of column names, the categorical columns with
      their categories, and a list of rows; a row maps column names to
      cells.
    - A Python exception is a value of [result]; [try]/[except] is
      [try_except]. *)

From Stdlib Require Import ZArith QArith Qround Qabs List Ascii String DecimalString Bool Lia Permutation.
From stdpp Require Import base decidable option list gmap strings sorting.

Local Open Scope string_scope.
Local Open Scope Z_scope.

(** ** Python text primitives *)

Module Py.

(** [str.isspace] on one ASCII character: TAB..CR, FS..US and the space. *)
Definition is_space (c : ascii) : bool :=
  let n := N_of_ascii c in
  (((9 <=? n) && (n <=? 13)) || ((28 <=? n) && (n <=? 32)))%N.

Definition is_digit (c : ascii) : bool :=
  let n := N_of_ascii c in ((48 <=? n) && (n <=? 57))%N.

Definition digit_val (c : ascii) : Z := Z.of_N (N_of_ascii c) - 48.

Fixpoint lstrip (s : string) : string :=
  match s with
  | EmptyString => EmptyString
  | String c s' => if is_space c then lstrip s' else s
  end.

Fixpoint rstrip (s : string) : string :=
  match s with
  | EmptyString => EmptyString
  | String c s' =>
      match rstrip s' with
      | EmptyString => if is_space c then EmptyString else String c EmptyString
      | r => String c r
      end
  end.

(** [s.strip()] *)
Definition strip (s : string) : string := rstrip (lstrip s).

Fixpoint zeros (n : nat) : string :=
  match n with O => EmptyString | S n' => String "0" (zeros n') end.

(** [s.zfill(width)]: left-pad with ["0"], after a leading sign if any. *)
Definition zfill (width : nat) (s : string) : string :=
  let n := String.length s in
  if (width <=? n)%nat then s
  else
    match s with
    | String c s' =>
        if (Ascii.eqb c "+" || Ascii.eqb c "-")%bool
        then String c (zeros (width - n) ++ s')
        else zeros (width - n) ++ s
    | EmptyString => zeros (width - n)
    end.

(** [s.count(c)] for a one-character needle. *)
Fixpoint count (c : ascii) (s : string) : nat :=
  match s with
  | EmptyString => O
  | String d s' => ((if Ascii.eqb d c then 1 else 0) + count c s')%nat
  end.

(** [c in s] for a one-character needle. *)
Fixpoint contains (c : ascii) (s : string) : bool :=
  match s with
  | EmptyString => false
  | String d s' => Ascii.eqb d c || contains c s'
  end.


Definition upper_char (c : ascii) : ascii :=
  let n := N_of_ascii c in
  if ((97 <=? n) && (n <=? 122))%N then ascii_of_N (n - 32) else c.

Definition lower_char (c : ascii) : ascii :=
  let n := N_of_ascii c in
  if ((65 <=? n) && (n <=? 90))%N then ascii_of_N (n + 32) else c.

(** [s.upper()] *)
Fixpoint upper (s : string) : string :=
  match s with
  | EmptyString => EmptyString
  | String c s' => String (upper_char c) (upper s')
  end.

(** [s.lower()] *)
Fixpoint lower (s : string) : string :=
  match s with
  | EmptyString => EmptyString
  | String c s' => String (lower_char c) (lower s')
  end.

Fixpoint of_list (l : list ascii) : string :=
  match l with
  | [] => EmptyString
  | c :: l' => String c (of_list l')
  end.

Fixpoint to_list (s : string) : list ascii :=
  match s with
  | EmptyString => []
  | String c s' => c :: to_list s'
  end.

(** *** Numerals *)

(** The tail of a [digitpart]: [(["_"] digit)*]. Returns the digit values
    read and the unread rest. *)
Fixpoint digits_tail (s : list ascii) : list Z * list ascii :=
  match s with
  | c :: s' =>
      if is_digit c then
        let '(ds, r) := digits_tail s' in (digit_val c :: ds, r)
      else if Ascii.eqb c "_" then
        match s' with
        | d :: s'' =>
            if is_digit d then
              let '(ds, r) := digits_tail s'' in (digit_val d :: ds, r)
            else ([], s)
        | [] => ([], s)
        end
      else ([], s)
  | [] => ([], s)
  end.

(** [digitpart ::= digit (["_"] digit)*] *)
Definition digitpart (s : list ascii) : option (list Z * list ascii) :=
  match s with
  | c :: s' =>
      if is_digit c then
        let '(ds, r) := digits_tail s' in Some (digit_val c :: ds, r)
      else None
  | [] => None
  end.

Definition digits_value (ds : list Z) : Z :=
  fold_left (fun a d => 10 * a + d) ds 0.

(** An optional sign: [true] for ["-"]. *)
Definition opt_sign (s : list ascii) : bool * list ascii :=
  match s with
  | c :: s' =>
      if Ascii.eqb c "-" then (true, s')
      else if Ascii.eqb c "+" then (false, s')
      else (false, s)
  | [] => (false, s)
  end.

(** [int(s)] for a text [s] in base 10: surrounding whitespace, an optional
    sign, one [digitpart]; anything else is a [ValueError]. *)
Definition int_of_string (s : string) : option Z :=
  let '(neg, r) := opt_sign (to_list (strip s)) in
  match digitpart r with
  | Some (ds, []) => Some (if neg then - digits_value ds else digits_value ds)
  | _ => None
  end.

(** What [float(s)] returns. The finite case is the exact decimal value the
    text denotes. *)
Inductive pyfloat :=
| PFin (q : Q)
| PInf (negative : bool)
| PNan.

(** [mantissa * 10^e] *)
Definition scale10 (mantissa e : Z) : Q :=
  if 0 <=? e then inject_Z (mantissa * 10 ^ e)
  else Qmake mantissa (Z.to_pos (10 ^ (- e))).

(** [number ::= [digitpart] "." digitpart | digitpart ["."]]: the digits
    before and after the point, and the unread rest. *)
Definition number (s : list ascii) : option (list Z * list Z * list ascii) :=
  match digitpart s with
  | Some (ip, r) =>
      match r with
      | c :: r' =>
          if Ascii.eqb c "." then
            match digitpart r' with
            | Some (fp, r'') => Some (ip, fp, r'')
            | None => Some (ip, [], r')
            end
          else Some (ip, [], r)
      | [] => Some (ip, [], r)
      end
  | None =>
      match s with
      | c :: r' =>
          if Ascii.eqb c "." then
            match digitpart r' with
            | Some (fp, r'') => Some ([], fp, r'')
            | None => None
            end
          else None
      | [] => None
      end
  end.

(** [exponent ::= ("e" | "E") [sign] digitpart], or nothing, up to the end
    of the text. *)
Definition exponent (s : list ascii) : option Z :=
  match s with
  | [] => Some 0
  | c :: r =>
      if Ascii.eqb (lower_char c) "e" then
        let '(neg, r') := opt_sign r in
        match digitpart r' with
        | Some (ds, []) => Some (if neg then - digits_value ds else digits_value ds)
        | _ => None
        end
      else None
  end.

Definition floatnumber (s : list ascii) : option Q :=
  match number s with
  | Some (ip, fp, r) =>
      match exponent r with
      | Some e =>
          Some (scale10 (digits_value (ip ++ fp)) (e - Z.of_nat (length fp)))
      | None => None
      end
  | None => None
  end.

(** [float(s)] for a text [s]: [floatvalue ::= [sign] (floatnumber |
    "inf" | "infinity" | "nan")], letters in either case, surrounded by
    whitespace; [None] is the [ValueError]. *)
Definition float_of_string (s : string) : option pyfloat :=
  let '(neg, r) := opt_sign (to_list (strip s)) in
  let word := lower (of_list r) in
  if (String.eqb word "inf" || String.eqb word "infinity")%bool then Some (PInf neg)
  else if String.eqb word "nan" then Some PNan
  else
    match floatnumber r with
    | Some q => Some (PFin (if neg then Qopp q else q))
    | None => None
    end.

(** Decimal numeral of a natural number, [str(n)]. *)
Definition decimal (n : N) : string :=
  DecimalString.NilZero.string_of_uint (N.to_uint n).

(** [f"{n:0{width}d}"] for [n >= 0]. *)
Definition format_0d (width : nat) (n : N) : string := zfill width (decimal n).

(** *** Regular expressions ([re]), by derivatives *)

Inductive regex :=
| Void
| Eps
| Cls (p : ascii -> bool)
| Seq (a b : regex)
| Alt (a b : regex)
| Star (a : regex).

Fixpoint nullable (r : regex) : bool :=
  match r with
  | Void => false
  | Eps => true
  | Cls _ => false
  | Seq a b => nullable a && nullable b
  | Alt a b => nullable a || nullable b
  | Star _ => true
  end.

Fixpoint deriv (c : ascii) (r : regex) : regex :=
  match r with
  | Void => Void
  | Eps => Void
  | Cls p => if p c then Eps else Void
  | Seq a b =>
      if nullable a then Alt (Seq (deriv c a) b) (deriv c b)
      else Seq (deriv c a) b
  | Alt a b => Alt (deriv c a) (deriv c b)
  | Star a => Seq (deriv c a) (Star a)
  end.

(** The whole text is in the language of [r]. *)
Fixpoint fullmatch (r : regex) (s : string) : bool :=
  match s with
  | EmptyString => nullable r
  | String c s' => fullmatch (deriv c r) s'
  end.

Definition opt (r : regex) : regex := Alt Eps r.
(** [\s], [\d], a letter under [re.IGNORECASE], a literal character *)
Definition re_s : regex := Cls is_space.
Definition re_d : regex := Cls is_digit.
Definition re_i (c : ascii) : regex := Cls (fun x => Ascii.eqb (lower_char x) c).
Definition re_c (c : ascii) : regex := Cls (fun x => Ascii.eqb x c).
(** [$] without [re.MULTILINE]: the end, or just before a final newline. *)
Definition re_dollar : regex := opt (re_c "010").

Fixpoint seqs (l : list regex) : regex :=
  match l with
  | [] => Eps
  | r :: l' => Seq r (seqs l')
  end.

(** [re.sub(r"\D", "", s)] *)
Fixpoint sub_nondigits (s : string) : string :=
  match s with
  | EmptyString => EmptyString
  | String c s' => if is_digit c then String c (sub_nondigits s') else sub_nondigits s'
  end.

(** *** Exceptions *)

Inductive exn := ValueError | TypeError | KeyError.

Inductive result (A : Type) : Type :=
| Ok (a : A)
| Raise (e : exn).
Arguments Ok {A} a.
Arguments Raise {A} e.

Definition bind {A B} (m : result A) (k : A -> result B) : result B :=
  match m with
  | Ok a => k a
  | Raise e => Raise e
  end.

(** [try: body  except: handler] with a bare [except]. *)
Definition try_except {A} (body : result A) (handler : A) : A :=
  match body with
  | Ok a => a
  | Raise _ => handler
  end.

Fixpoint traverse {A B} (f : A -> result B) (l : list A) : result (list B) :=
  match l with
  | [] => Ok []
  | a :: l' =>
      bind (f a) (fun b => bind (traverse f l') (fun bs => Ok (b :: bs)))
  end.

End Py.

#[global] Instance result_bind : MBind Py.result := λ A B k m, Py.bind m k.
#[global] Instance result_ret : MRet Py.result := @Py.Ok.

(** ** The pandas fragment the pipeline uses *)

Module Pd.

(** A cell: null ([NaN], [pd.NA], [None]), text, or a number. *)
Inductive value :=
| NA
| Str (s : string)
| Num (q : Q).

#[global] Instance Q_eq_dec : EqDecision Q.
Proof. solve_decision. Defined.
#[global] Instance value_eq_dec : EqDecision value.
Proof. solve_decision. Defined.

(** What the pipeline takes from the pandas and Python runtime without
    fixing it: how [pd.to_numeric] reads a text cell ([None] when
    [errors="coerce"] nulls it), how a number prints under [astype(str)],
    the calendar year [pd.to_datetime] finds in a cell, and the statistics
    [describe()] computes for one group. *)
Class Runtime := {
  parse_numeric : string -> option Q;
  repr_number : Q -> string;
  (** [pd.to_datetime(., errors="coerce").dt.year] on one cell *)
  parse_year : value -> option Z;
  stats : Type;
  describe : list Q -> stats
}.

Record DataFrame := {
  columns : list string;
  (** the columns of dtype [category]: each with categories it declares
      (those of the values present in the column are understood) *)
  categories : gmap string (list string);
  rows : list (gmap string value)
}.

Definition cell (r : gmap string value) (c : string) : value :=
  default NA (r !! c).

Definition isna (v : value) : bool :=
  match v with NA => true | _ => false end.

(** ["c" in df.columns] *)
Definition has_col (df : DataFrame) (c : string) : bool :=
  bool_decide (c ∈ columns df).

(** [set(cs).issubset(df.columns)] *)
Definition issubset (cs : list string) (df : DataFrame) : bool :=
  forallb (has_col df) cs.

(** [df.empty], for a frame that has columns *)
Definition empty (df : DataFrame) : bool :=
  match rows df with [] => true | _ => false end.

(** [df[mask]] for a row-wise mask *)
Definition select (p : gmap string value -> bool) (df : DataFrame) : DataFrame :=
  {| columns := columns df; categories := categories df;
     rows := List.filter p (rows df) |}.

(** [df[c] = f(df[c])] for a cell-wise [f] and an existing column [c]: the
    column keeps its position and becomes a plain (non-categorical) one. *)
Definition assign (c : string) (f : value -> value) (df : DataFrame) : DataFrame :=
  {| columns := columns df; categories := delete c (categories df);
     rows := map (fun r => <[c := f (cell r c)]> r) (rows df) |}.

(** The same for a conversion that may raise. *)
Definition assignM (c : string) (f : value -> Py.result value) (df : DataFrame)
  : Py.result DataFrame :=
  rs ← Py.traverse (fun r => v ← f (cell r c); mret (<[c := v]> r)) (rows df);
  mret {| columns := columns df; categories := delete c (categories df);
          rows := rs |}.

(** [df.dropna(subset=cs)] (how="any") and [df.dropna(subset=cs, how="all")] *)
Definition dropna (cs : list string) (df : DataFrame) : DataFrame :=
  select (fun r => forallb (fun c => negb (isna (cell r c))) cs) df.

Definition dropna_all (cs : list string) (df : DataFrame) : DataFrame :=
  select (fun r => negb (forallb (fun c => isna (cell r c)) cs)) df.

(** [df[cs]] *)
Definition project (cs : list string) (df : DataFrame) : DataFrame :=
  {| columns := cs;
     categories := filter (fun kv => kv.1 ∈ cs) (categories df);
     rows := map (fun r => filter (fun kv => kv.1 ∈ cs) r) (rows df) |}.

Section with_runtime.
Context `{Runtime}.

(** [pd.to_numeric(., errors="coerce")] on one cell *)
Definition to_numeric (v : value) : value :=
  match v with
  | NA => NA
  | Num q => Num q
  | Str s => match parse_numeric s with Some q => Num q | None => NA end
  end.

(** [astype(str)] on one cell *)
Definition astype_str (v : value) : string :=
  match v with
  | NA => "nan"
  | Str s => s
  | Num q => repr_number q
  end.

End with_runtime.

(** *** Ordering and grouping keys *)

(** A cell as a grouping key: nulls are no key ([dropna=True]); equal
    numbers are one key. *)
Definition key_of (v : value) : option value :=
  match v with
  | NA => None
  | Str s => Some (Str s)
  | Num q => Some (Num (Qred q))
  end.

(** The order in which pandas lists group keys: numbers, then text. *)
Definition value_leb (a b : value) : bool :=
  match a, b with
  | NA, _ => true
  | _, NA => false
  | Num p, Num q => Qle_bool p q
  | Num _, Str _ => true
  | Str _, Num _ => false
  | Str s, Str t => String.leb s t
  end.

Fixpoint lex_leb (a b : list value) : bool :=
  match a, b with
  | [], _ => true
  | _ :: _, [] => false
  | x :: a', y :: b' =>
      if bool_decide (x = y) then lex_leb a' b' else value_leb x y
  end.

Section sorting.
Context {A : Type} (leb : A -> A -> bool).

Fixpoint insert_sorted (x : A) (l : list A) : list A :=
  match l with
  | [] => [x]
  | y :: l' => if leb x y then x :: l else y :: insert_sorted x l'
  end.

(** A stable sort. *)
Fixpoint isort (l : list A) : list A :=
  match l with
  | [] => []
  | x :: l' => insert_sorted x (isort l')
  end.

End sorting.

(** [Series.unique()]: distinct values in order of first appearance. *)
Fixpoint unique {A} `{EqDecision A} (l : list A) : list A :=
  match l with
  | [] => []
  | x :: l' => x :: List.filter (fun y => negb (bool_decide (y = x))) (unique l')
  end.

(** The keys one column contributes to a [groupby(..., observed=False)]:
    the values present and, for a categorical column, its other categories
    as well; sorted. *)
Definition levels (df : DataFrame) (c : string) : list value :=
  let observed := omap (fun r => key_of (cell r c)) (rows df) in
  match categories df !! c with
  | Some cats => isort value_leb (unique (map Str cats ++ observed))
  | None => isort value_leb (unique observed)
  end.

Definition row_key (cs : list string) (r : gmap string value) : option (list value) :=
  mapM (fun c => key_of (cell r c)) cs.

Fixpoint product (ls : list (list value)) : list (list value) :=
  match ls with
  | [] => [[]]
  | l :: ls' => flat_map (fun x => map (cons x) (product ls')) l
  end.

(** The group keys of [df.groupby(cs, observed=False)]: with a categorical
    key the full product of the per-column keys, observed or not; else the
    observed combinations, sorted. *)
Definition group_keys (df : DataFrame) (cs : list string) : list (list value) :=
  if existsb (fun c => bool_decide (is_Some (categories df !! c))) cs
  then product (map (levels df) cs)
  else isort lex_leb (unique (omap (row_key cs) (rows df))).

(** The rows of one group, in frame order. *)
Definition group (cs : list string) (k : list value) (df : DataFrame)
  : list (gmap string value) :=
  List.filter (fun r => bool_decide (row_key cs r = Some k)) (rows df).

(** The non-null numbers of column [c] in a list of rows. *)
Definition numbers (c : string) (rs : list (gmap string value)) : list Q :=
  omap (fun r => match cell r c with Num q => Some q | _ => None end) rs.

(** *** Reducers. [None] is NaN. *)

Definition sum (l : list Q) : Q := fold_right Qplus 0%Q l.

Definition mean (l : list Q) : option Q :=
  match l with
  | [] => None
  | _ => Some (sum l / inject_Z (Z.of_nat (length l)))%Q
  end.

Definition median (l : list Q) : option Q :=
  let s := isort Qle_bool l in
  let n := length s in
  match n with
  | O => None
  | _ =>
      if Nat.even n
      then Some ((nth (n / 2 - 1) s 0 + nth (n / 2) s 0) / 2)%Q
      else Some (nth (n / 2) s 0%Q)
  end.

Definition Qmin_list (l : list Q) : option Q :=
  match l with
  | [] => None
  | x :: l' => Some (fold_left (fun a b => if Qle_bool a b then a else b) l' x)
  end.

Definition Qmax_list (l : list Q) : option Q :=
  match l with
  | [] => None
  | x :: l' => Some (fold_left (fun a b => if Qle_bool a b then b else a) l' x)
  end.

Definition first (l : list Q) : option Q := head l.

(** [Series.nunique()] on the non-null numbers of a group: equal numbers
    count once. *)
Definition nunique (l : list Q) : nat := length (unique (map Qred l)).

Definition of_float (o : option Q) : value :=
  match o with Some q => Num q | None => NA end.

(** [df.groupby(cs, observed=False)[c].agg(f).reset_index(name=name)] *)
Definition groupby_agg (cs : list string) (c name : string)
  (f : list Q -> option Q) (df : DataFrame) : DataFrame :=
  {| columns := cs ++ [name];
     categories := filter (fun kv => kv.1 ∈ cs) (categories df);
     rows := map (fun k =>
               <[name := of_float (f (numbers c (group cs k df)))]>
                 (list_to_map (zip cs k)))
               (group_keys df cs) |}.

(** [df.rename(columns={a: b})] for a plain column [a] *)
Definition rename (a b : string) (df : DataFrame) : DataFrame :=
  {| columns := map (fun c => if String.eqb c a then b else c) (columns df);
     categories := categories df;
     rows := map (fun r => match r !! a with
                           | Some v => <[b := v]> (delete a r)
                           | None => r
                           end) (rows df) |}.

(** [df.sort_values(c, ascending=asc)]: nulls last; a column that mixes
    numbers and text cannot be ordered ([TypeError]). *)
Definition sort_values (c : string) (asc : bool) (df : DataFrame)
  : Py.result DataFrame :=
  let present := List.filter (fun r => negb (isna (cell r c))) (rows df) in
  let nulls := List.filter (fun r => isna (cell r c)) (rows df) in
  let is_num r := match cell r c with Num _ => true | _ => false end in
  let is_str r := match cell r c with Str _ => true | _ => false end in
  if existsb is_num present && existsb is_str present then Py.Raise Py.TypeError
  else
    let leb r1 r2 :=
      if asc then value_leb (cell r1 c) (cell r2 c)
      else value_leb (cell r2 c) (cell r1 c) in
    Py.Ok {| columns := columns df; categories := categories df;
             rows := isort leb present ++ nulls |}.

End Pd.

(** ** utils/io.py *)

Module IO.

(** [sniff_sep] (io.py:6-9, and its copy at io.py:19-22). *)
Definition sniff_sep (sample : string) : string :=
  if Py.contains ";" sample
     && (Py.count "," sample <=? Py.count ";" sample)%nat
  then ";" else ",".

Definition byte_in (lo hi : N) (c : ascii) : bool :=
  ((lo <=? N_of_ascii c) && (N_of_ascii c <=? hi))%N.

Definition is_cont : ascii -> bool := byte_in 128 191.

(** Admissible range of the second byte after a three- or four-byte lead. *)
Definition second_ok (lead c1 : ascii) : bool :=
  match N_of_ascii lead with
  | 224%N => byte_in 160 191 c1
  | 237%N => byte_in 128 159 c1
  | 240%N => byte_in 144 191 c1
  | 244%N => byte_in 128 143 c1
  | _ => is_cont c1
  end.

(** [bytes.decode("utf-8", errors="ignore")]: well-formed sequences are
    kept, every ill-formed or truncated one is dropped and decoding resumes
    at the byte that broke it. The decoded text is represented by its UTF-8
    bytes. *)
Fixpoint decode_utf8_ignore (b : list ascii) : list ascii :=
  match b with
  | [] => []
  | c :: rest =>
      if byte_in 0 127 c then c :: decode_utf8_ignore rest
      else if byte_in 194 223 c then
        match rest with
        | [] => []
        | c1 :: r1 =>
            if is_cont c1 then c :: c1 :: decode_utf8_ignore r1
            else decode_utf8_ignore rest
        end
      else if byte_in 224 239 c then
        match rest with
        | [] => []
        | c1 :: r1 =>
            if second_ok c c1 then
              match r1 with
              | [] => []
              | c2 :: r2 =>
                  if is_cont c2 then c :: c1 :: c2 :: decode_utf8_ignore r2
                  else decode_utf8_ignore r1
              end
            else decode_utf8_ignore rest
        end
      else if byte_in 240 244 c then
        match rest with
        | [] => []
        | c1 :: r1 =>
            if second_ok c c1 then
              match r1 with
              | [] => []
              | c2 :: r2 =>
                  if is_cont c2 then
                    match r2 with
                    | [] => []
                    | c3 :: r3 =>
                        if is_cont c3
                        then c :: c1 :: c2 :: c3 :: decode_utf8_ignore r3
                        else decode_utf8_ignore r2
                    end
                  else decode_utf8_ignore r1
              end
            else decode_utf8_ignore rest
        end
      else decode_utf8_ignore rest
  end.

(** The sample both branches of [read_csv_flexible] hand to [sniff_sep]
    (io.py:33-35 and io.py:45-46): [fh.read(4096)] or [buf[:4096]],
    decoded with [errors="ignore"]. *)
Definition head_sample (content : list ascii) : string :=
  Py.of_list (decode_utf8_ignore (firstn 4096 content)).

(** The [sep=] argument [read_csv_flexible] passes to [pd.read_csv]. *)
Definition read_csv_flexible_sep (content : list ascii) : string :=
  sniff_sep (head_sample content).

End IO.

(** ** utils/prep.py *)

Module Prep.
Import Pd.

Section with_runtime.
Context `{Runtime}.






(** The department step of both coercions (prep.py:54-56 and 85-87), on
    one cell: [astype("string").str.strip().str.zfill(3)]; a null stays
    null. *)
Definition dept_cell (v : value) : value :=
  if isna v then NA else Str (Py.zfill 3 (Py.strip (astype_str v))).

Definition normalise_dept (df : DataFrame) : DataFrame :=
  if has_col df "dept" then assign "dept" dept_cell df else df.

(** The year step of both coercions (prep.py:45-46 and 76-77). *)
Definition year_cell (v : value) : value :=
  match parse_year v with
  | Some y => Num (inject_Z y)
  | None => NA
  end.

Definition coerce_year (df : DataFrame) : DataFrame :=
  if has_col df "annee" then assign "annee" year_cell df else df.

(** [Series.between(lo, hi)] on a nullable integer cell: a null compares
    to null. *)
Definition between (lo hi : Z) (v : value) : option bool :=
  match v with
  | Num q => Some (Qle_bool (inject_Z lo) q && Qle_bool q (inject_Z hi))
  | _ => None
  end.

(** [|] on nullable booleans (Kleene) *)
Definition or3 (a b : option bool) : option bool :=
  match a, b with
  | Some true, _ | _, Some true => Some true
  | Some false, Some false => Some false
  | _, _ => None
  end.

(** Indexing with a nullable boolean mask keeps the rows where it is
    [True]. *)
Definition holds (m : option bool) : bool :=
  match m with Some true => true | _ => false end.

(** [s.between(2000, 2100) | s.isna()] on one cell of [annee] *)
Definition year_keep (v : value) : bool :=
  holds (or3 (between 2000 2100 v) (Some (isna v))).

(** The year range filter of [clean_raw] (prep.py:98-99). *)
Definition year_range_filter (df : DataFrame) : DataFrame :=
  if has_col df "annee"
  then select (fun r => year_keep (cell r "annee")) df
  else df.

(** The row clean-up of [clean_raw] (prep.py:101-103). *)
Definition drop_empty_rows (df : DataFrame) : DataFrame :=
  match List.filter (has_col df) ["annee"; "region"; "dept"; "prev"] with
  | [] => df
  | key_cols => dropna_all key_cols df
  end.

(** [_AGE_5Y_PATTERN] (prep.py:112-115), compiled with [re.IGNORECASE] *)
Definition d12 : Py.regex := Py.Seq Py.re_d (Py.opt Py.re_d).
Definition ws : Py.regex := Py.Star Py.re_s.
Definition _AGE_5Y_PATTERN : Py.regex :=
  Py.Alt
    (Py.seqs [ws; d12; ws; Py.re_c "-"; ws; d12; ws; Py.re_dollar])
    (Py.Alt
       (Py.seqs [ws; d12; ws; Py.re_c "+"; ws; Py.re_dollar])
       (Py.seqs [ws; Py.re_d; Py.re_d; ws; Py.re_i "e"; Py.re_i "t"; ws;
                 Py.re_i "p"; Py.re_i "l"; Py.re_i "u"; Py.re_i "s"; ws;
                 Py.re_dollar])).

(** [bool(_AGE_5Y_PATTERN.search(s))]: every alternative is anchored at
    both ends. *)
Definition age_5y_search (s : string) : bool := Py.fullmatch _AGE_5Y_PATTERN s.

(** [_ensure_year] (prep.py:117-120) on one cell of a column that is not
    of a datetime dtype: [astype("Int64")] refuses a number with a
    fractional part. *)
Definition _ensure_year_cell (v : value) : Py.result value :=
  match to_numeric v with
  | Num q =>
      if (Z.pos (Qden (Qred q)) =? 1)%Z
      then Py.Ok (Num (inject_Z (Qnum (Qred q))))
      else Py.Raise Py.TypeError
  | _ => Py.Ok NA
  end.

Definition dept_key (v : value) : value := Str (Py.zfill 3 (astype_str v)).

Definition age_ok (r : gmap string value) : bool :=
  (0 <? String.length (Py.strip (astype_str (cell r "cla_age_5"))))%nat
  && age_5y_search (astype_str (cell r "cla_age_5")).

(** [_filter_population_scope] (prep.py:122-132) *)
Definition _filter_population_scope (df : DataFrame) : Py.result DataFrame :=
  out ← (if has_col df "annee" then assignM "annee" _ensure_year_cell df
         else mret df);
  let out :=
    if has_col out "dept"
    then select (fun r => negb (bool_decide (cell r "dept" = Str "999")))
                (assign "dept" dept_key out)
    else out in
  let out :=
    if has_col out "cla_age_5"
    then select (fun r => age_5y_search (astype_str (cell r "cla_age_5")))
           (select (fun r => (0 <? String.length
                                (Py.strip (astype_str (cell r "cla_age_5"))))%nat)
                   out)
    else out in
  mret out.

(** The reducers [_dedup_npop_per_slice] accepts (prep.py:137). *)
Inductive method := Median | Min | Max | First.

Definition reducer (m : method) : list Q -> option Q :=
  match m with
  | Median => median
  | Min => Qmin_list
  | Max => Qmax_list
  | First => first
  end.

(** [_dedup_npop_per_slice] (prep.py:134-141) *)
Definition _dedup_npop_per_slice (tmp : DataFrame) (m : method) : DataFrame :=
  if has_col tmp "cla_age_5"
  then groupby_agg ["dept"; "cla_age_5"] "npop" "npop" (reducer m) tmp
  else groupby_agg ["dept"] "npop" "npop" (reducer m) tmp.

(** [tmp["annee"] == year] on one cell *)
Definition year_is (year : Z) (v : value) : bool :=
  match v with
  | Num q => Qeq_bool q (inject_Z year)
  | _ => false
  end.

Definition required : list string := ["annee"; "dept"; "npop"].

(** [population_union_for_year] (prep.py:143-157); [None] is
    [float("nan")]. *)
Definition population_union_for_year (df : DataFrame) (year : Z) (m : method)
  : Py.result (option Q) :=
  if negb (issubset required df) then mret None
  else
    tmp ← _filter_population_scope df;
    let tmp := select (fun r => year_is year (cell r "annee")) tmp in
    if empty tmp then mret None
    else
      let tmp := assign "npop" to_numeric tmp in
      let tmp := dropna ["npop"] tmp in
      let dedup := _dedup_npop_per_slice tmp m in
      mret (Some (sum (numbers "npop" (rows dedup)))).

Definition no_union : DataFrame :=
  {| columns := ["annee"; "npop_union"]; categories := ∅; rows := [] |}.

(** [population_union_by_year] (prep.py:159-183) *)
Definition population_union_by_year (df : DataFrame) (m : method)
  : Py.result DataFrame :=
  if negb (issubset required df) then mret no_union
  else
    tmp ← _filter_population_scope df;
    let tmp := assign "npop" to_numeric tmp in
    let tmp := dropna ["annee"; "npop"] tmp in
    if empty tmp then mret no_union
    else
      let dedup :=
        if has_col tmp "cla_age_5"
        then groupby_agg ["annee"; "dept"; "cla_age_5"] "npop" "npop" (reducer m) tmp
        else groupby_agg ["annee"; "dept"] "npop" "npop" (reducer m) tmp in
      sort_values "annee" true
        (groupby_agg ["annee"] "npop" "npop_union" (fun l => Some (sum l)) dedup).

(** What [population_union_audit] returns: the entries ["slices"] and
    ["multi_values"]. *)
Record audit := {
  slices : nat;
  multi_values : nat
}.

(** [population_union_audit] (prep.py:185-206) *)
Definition population_union_audit (df : DataFrame) (year : Z) : Py.result audit :=
  if negb (issubset required df) then mret {| slices := 0; multi_values := 0 |}
  else
    tmp ← _filter_population_scope df;
    let tmp := select (fun r => year_is year (cell r "annee")) tmp in
    let tmp := assign "npop" to_numeric tmp in
    let tmp := dropna ["npop"] tmp in
    if empty tmp then mret {| slices := 0; multi_values := 0 |}
    else
      let cs := if has_col tmp "cla_age_5" then ["dept"; "cla_age_5"] else ["dept"] in
      let counts := map (fun k => nunique (numbers "npop" (group cs k tmp)))
                        (group_keys tmp cs) in
      mret {| slices := length counts;
              multi_values := length (List.filter (fun n => (1 <? n)%nat) counts) |}.

(** *** The table builder *)

(** The value of a float division: a number, an infinity, or NaN. *)
Inductive fval :=
| FNum (q : Q)
| FInf (negative : bool)
| FNaN.

(** [a / b] on floats, for finite [a] and [b] *)
Definition fdiv (a b : Q) : fval :=
  if Qeq_bool b 0 then
    if Qeq_bool a 0 then FNaN else FInf (negb (Qle_bool 0 a))
  else FNum (a / b).

(** One row of [by_region_weighted]: columns [region], [prev_pond], [w]. *)
Record weighted_row := {
  wr_region : list value;
  wr_prev_pond : fval;
  wr_w : Q
}.

(** The ["dq"] summary (prep.py:274-286). *)
Record quality := {
  dq_rows : nat;
  dq_cols : nat;
  dq_regions : nat;
  dq_departments : nat;
  dq_population_union_npop : option Q;
  dq_population_union_npop_2023 : option Q;
  dq_annees : list Z;
  dq_has_weight : bool;
  dq_has_sex : bool;
  dq_cols_list : list string
}.

Inductive derived :=
| Frame (df : DataFrame)
| Weighted (l : list weighted_row)
| Described (l : list (list value * stats))
| Quality (dq : quality).

(** [df[c] = f(row)] for a column computed from the other cells; a new
    column goes last. *)
Definition with_column (c : string) (f : gmap string value -> value)
  (df : DataFrame) : DataFrame :=
  {| columns := if has_col df c then columns df else columns df ++ [c];
     categories := delete c (categories df);
     rows := map (fun r => <[c := f r]> r) (rows df) |}.

(** [a * b] on two cells of numeric columns *)
Definition mul (a b : value) : value :=
  match a, b with
  | Num p, Num q => Num (p * q)
  | _, _ => NA
  end.

(** Descending order on quotients, for [sort_values(ascending=False)];
    NaN goes last. *)
Definition fval_geb (a b : fval) : bool :=
  match a, b with
  | _, FNaN => true
  | FNaN, _ => false
  | FInf false, _ => true
  | _, FInf true => true
  | FInf true, _ => false
  | _, FInf false => false
  | FNum p, FNum q => Qle_bool q p
  end.

(** prep.py:214-216: the measure columns are converted in the caller's
    frame. *)
Definition numeric_step (df : DataFrame) : DataFrame :=
  fold_left (fun d c => if has_col d c then assign c to_numeric d else d)
            ["ntop"; "npop"; "prev"] df.

(** prep.py:244-254 *)
Definition by_region_weighted (df : DataFrame) : list weighted_row :=
  let tmp := dropna ["region"; "prev"; "npop"] df in
  let tmp := with_column "w" (fun r => cell r "npop") tmp in
  let tmp := with_column "wp" (fun r => mul (cell r "prev") (cell r "w")) tmp in
  let by_reg_w :=
    map (fun k =>
           let g := group ["region"] k tmp in
           {| wr_region := k;
              wr_prev_pond := fdiv (sum (numbers "wp" g)) (sum (numbers "w" g));
              wr_w := sum (numbers "w" g) |})
        (group_keys tmp ["region"]) in
  isort (fun a b => fval_geb (wr_prev_pond a) (wr_prev_pond b)) by_reg_w.

(** [int(x)] for a cell value: a number is truncated, a text is parsed. *)
Definition py_int (v : value) : Py.result Z :=
  match v with
  | Num q => Py.Ok (Z.quot (Qnum q) (Z.pos (Qden q)))
  | Str s =>
      match Py.int_of_string s with
      | Some z => Py.Ok z
      | None => Py.Raise Py.ValueError
      end
  | NA => Py.Raise Py.ValueError
  end.

(** [df[c].dropna().unique()] *)
Definition distinct (c : string) (df : DataFrame) : list value :=
  unique (omap (fun r => key_of (cell r c)) (rows df)).

Definition nonempty {A} (l : list A) : bool :=
  match l with [] => false | _ => true end.

(** 0) the narrow table (prep.py:218-222) *)
Definition add_fine (df : DataFrame) (out : gmap string derived)
  : gmap string derived :=
  let fine_dims :=
    List.filter (has_col df) ["annee"; "region"; "dept"; "sexe"; "cla_age_5"] in
  let keep_cols := List.filter (has_col df) ["ntop"; "npop"; "prev"] in
  if nonempty fine_dims && nonempty keep_cols
  then <["fine" := Frame (project (fine_dims ++ keep_cols) df)]> out
  else out.

(** 1) mean prevalence per year (prep.py:224-232) *)
Definition add_timeseries (df : DataFrame) (out : gmap string derived)
  : Py.result (gmap string derived) :=
  if issubset ["annee"; "prev"] df then
    t ← sort_values "annee" true
          (groupby_agg ["annee"] "prev" "prev_moy" mean
             (dropna ["annee"; "prev"] df));
    mret (<["timeseries" := Frame t]> out)
  else mret out.

(** 2) mean prevalence per region (prep.py:234-242) *)
Definition add_by_region (df : DataFrame) (out : gmap string derived)
  : Py.result (gmap string derived) :=
  if issubset ["region"; "prev"] df then
    t ← sort_values "prev_moy" false
          (groupby_agg ["region"] "prev" "prev_moy" mean
             (dropna ["region"; "prev"] df));
    mret (<["by_region" := Frame t]> out)
  else mret out.

(** 2b) weighted by population (prep.py:244-254) *)
Definition add_by_region_weighted (df : DataFrame) (out : gmap string derived)
  : gmap string derived :=
  if issubset ["region"; "prev"; "npop"] df
  then <["by_region_weighted" := Weighted (by_region_weighted df)]> out
  else out.

(** 3) prevalence by sex (prep.py:256-263) *)
Definition add_by_sexe_desc (df : DataFrame) (out : gmap string derived)
  : gmap string derived :=
  if issubset ["sexe"; "prev"] df
  then
    let d := dropna ["sexe"; "prev"] df in
    <["by_sexe_desc" :=
        Described (map (fun k => (k, describe (numbers "prev" (group ["sexe"] k d))))
                       (group_keys d ["sexe"]))]> out
  else out.

(** 4) the summary (prep.py:265-286) *)
Definition summary (df : DataFrame) : Py.result quality :=
  let regions_n := if has_col df "region" then length (distinct "region" df) else O in
  let depts_n := if has_col df "dept" then length (distinct "dept" df) else O in
  let pop_union_2023 :=
    Py.try_except (population_union_for_year df 2023 Median) None in
  annees ← (if has_col df "annee"
            then ys ← Py.traverse py_int (distinct "annee" df);
                 mret (isort Z.leb ys)
            else mret []);
  mret {| dq_rows := length (rows df);
          dq_cols := length (columns df);
          dq_regions := regions_n;
          dq_departments := depts_n;
          dq_population_union_npop := pop_union_2023;
          dq_population_union_npop_2023 := pop_union_2023;
          dq_annees := annees;
          dq_has_weight := has_col df "npop";
          dq_has_sex := has_col df "sexe";
          dq_cols_list := columns df |}.

(** The body of [make_tables] after the conversion of the measures
    (prep.py:218-288), on the converted frame. *)
Definition build (df : DataFrame) : Py.result (gmap string derived) :=
  out ← add_timeseries df (add_fine df ∅);
  out ← add_by_region df out;
  let out := add_by_sexe_desc df (add_by_region_weighted df out) in
  dq ← summary df;
  mret (<["dq" := Quality dq]> out).

(** [make_tables] (prep.py:210-288): the caller's frame as the call leaves
    it, and the mapping returned (or the exception raised). *)
Definition make_tables (df : DataFrame)
  : DataFrame * Py.result (gmap string derived) :=
  let df := numeric_step df in
  (df, build df).

End with_runtime.
End Prep.

(** ** sections/map_section.py *)

Module MapSection.

(** The inner [norm] of [_zfill_dept] (map_section.py:29-39), on the text
    [series.astype(str)] hands it. *)
Definition norm (x : string) : string :=
  let s := Py.upper (Py.strip x) in
  if (String.eqb s "2A" || String.eqb s "2B")%bool then s
  else
    let s_digits := Py.sub_nondigits s in
    if String.eqb s_digits "" then s
    else
      match Py.int_of_string s_digits with
      | Some n =>
          if (970 <=? n) && (n <=? 989) then Py.format_0d 3 (Z.to_N n)
          else Py.format_0d 2 (Z.to_N n)
      | None => s
      end.

End MapSection.




(** ** A runtime to evaluate examples with *)

(** Text cells are read with the decimal grammar of [float]; a whole
    number prints with a trailing [".0"]; a year is read from a plain
    numeral. *)
Definition example_runtime : Pd.Runtime :=
  {| Pd.parse_numeric := fun s =>
       match Py.float_of_string s with
       | Some (Py.PFin q) => Some q
       | _ => None
       end;
     Pd.repr_number := fun q =>
       (Py.decimal (Z.to_N (Qfloor q)) ++ ".0")%string;
     Pd.parse_year := fun v =>
       match v with
       | Pd.Str s => Py.int_of_string s
       | _ => None
       end;
     Pd.stats := nat;
     Pd.describe := fun l => length l |}.

(** ** Vocabulary of the statements *)

Module Spec.
Import Pd.

(** A measure cell as the Typed Record table holds it: a number or null. *)
Definition numeric (v : value) : Prop := v = NA \/ exists q, v = Num q.

(** The Typed Record table, as far as the table builder depends on it: the
    measure columns present are plain columns of numbers and nulls, which
    is what both coercions leave (prep.py:63-65 and 94-96). *)
Definition typed (df : DataFrame) : Prop :=
  forall c, In c ["ntop"; "npop"; "prev"] -> In c (columns df) ->
    categories df !! c = None
    /\ forall r, In r (rows df) -> exists v, r !! c = Some v /\ numeric v.

(** The year column, if any, holds integers or nulls, which is what both
    coercions leave (prep.py:46 and 77). *)
Definition integer_years (df : DataFrame) : Prop :=
  categories df !! "annee" = None
  /\ forall r, In r (rows df) ->
       cell r "annee" = NA \/ exists y : Z, cell r "annee" = Num (inject_Z y).

(** The number in a cell of a numeric column (0 for a null). *)
Definition number (v : value) : Q :=
  match v with Num q => q | _ => 0%Q end.

(** The slice of a row: the year, the normalised department code and,
    when the table has an age-class column, the age class under which the
    population union groups the row. A row with no year, or with no age
    class where one is expected, belongs to no slice. *)
Definition slice_key `{Runtime} (has_age : bool) (r : gmap string value)
  : option (list value) :=
  match Prep._ensure_year_cell (cell r "annee") with
  | Py.Ok v =>
      match key_of v with
      | Some y =>
          if has_age then
            match key_of (cell r "cla_age_5") with
            | Some a => Some [y; Prep.dept_key (cell r "dept"); a]
            | None => None
            end
          else Some [y; Prep.dept_key (cell r "dept")]
      | None => None
      end
  | Py.Raise _ => None
  end.

(** The key of the slice of [year], department [dept] and age class
    [age]. *)
Definition slice (has_age : bool) (year : Z) (dept : string) (age : value)
  : list value :=
  if has_age then [Num (inject_Z year); Str dept; age]
  else [Num (inject_Z year); Str dept].

(** [df] without the rows of the slice [k]. *)
Definition without_slice `{Runtime} (k : list value) (df : DataFrame) : DataFrame :=
  select (fun r => negb (bool_decide
                           (slice_key (has_col df "cla_age_5") r = Some k))) df.

(** The scope test of a row: its department is no aggregate and, when
    the table has an age-class column, its age class is a five-year
    bucket. *)
Definition in_scope `{Runtime} (has_age : bool) (r : gmap string value) : bool :=
  negb (bool_decide (Prep.dept_key (cell r "dept") = Str "999"))
  && (if has_age then Prep.age_ok r else true).


(** A year cell that reads as a number with a fractional part. *)
Definition fractional `{Runtime} (v : value) : bool :=
  match to_numeric v with
  | Num q => negb (Z.pos (Qden (Qred q)) =? 1)%Z
  | _ => false
  end.

(** Two results of the single-year union that show the same figure: both
    not available, or equal numbers. *)
Definition same_figure (r r' : option Q) : Prop :=
  match r, r' with
  | Some t, Some t' => (t == t')%Q
  | None, None => True
  | _, _ => False
  end.

(** The total a by-year result reports for [year]: the [npop_union] of
    its one row of that year. *)
Definition union_of (res : DataFrame) (year : Z) : option Q :=
  match List.filter (fun r => Prep.year_is year (cell r "annee")) (rows res) with
  | [r] => match cell r "npop_union" with Num q => Some q | _ => None end
  | _ => None
  end.

End Spec.

(** ** Example frames *)

Module Ex.
Import Pd.

Definition row_of (cells : list (string * value)) : gmap string value :=
  list_to_map cells.



(** A year column that holds a text no integer can be read from. *)
Definition bad_year : DataFrame :=
  {| columns := ["annee"]; categories := ∅;
     rows := [row_of [("annee", Str "abc")]] |}.

(** Two rows of one region. *)
Definition one_region : DataFrame :=
  {| columns := ["annee"; "region"; "prev"; "npop"]; categories := ∅;
     rows := [row_of [("annee", Num 2023); ("region", Str "11");
                      ("prev", Num 10); ("npop", Num 100)];
              row_of [("annee", Num 2023); ("region", Str "11");
                      ("prev", Num 20); ("npop", Num 300)]] |}.

End Ex.

(** * Properties *)

(** ** Reading results *)

(** The exception a computation raised, if it raised one. *)
Definition raised {A} (r : Py.result A) : option Py.exn :=
  match r with Py.Raise e => Some e | Py.Ok _ => None end.

(** The value a computation returned, or [d] if it raised. *)
Definition returned {A} (d : A) (r : Py.result A) : A :=
  match r with Py.Ok a => a | Py.Raise _ => d end.

Lemma returned_ok {A} (d : A) (r : Py.result A) :
  raised r = None -> r = Py.Ok (returned d r).
Proof. destruct r; [reflexivity | discriminate]. Qed.

Lemma singleton_hd {A} (d : A) (l : list A) : length l = 1%nat -> l = [hd d l].
Proof. destruct l as [|x [|y l]]; simpl; intros E; try discriminate; reflexivity. Qed.

(** Membership in a list given by its elements. *)
Ltac in_list := simpl; repeat (first [left; reflexivity | right]).

(** ** Cells of updated rows *)

Lemma cell_insert_eq (r : gmap string Pd.value) c v : Pd.cell (<[c := v]> r) c = v.
Proof. unfold Pd.cell. rewrite lookup_insert_eq. reflexivity. Qed.

Lemma cell_insert_ne (r : gmap string Pd.value) c d v :
  c <> d -> Pd.cell (<[c := v]> r) d = Pd.cell r d.
Proof. intros Hne. unfold Pd.cell. rewrite lookup_insert_ne by exact Hne. reflexivity. Qed.

(** ** Sorting and distinct values *)

Lemma insert_sorted_perm {A} (leb : A -> A -> bool) x l :
  Permutation (Pd.insert_sorted leb x l) (x :: l).
Proof.
  induction l as [|y l IH]; simpl; [reflexivity |].
  destruct (leb x y); [reflexivity |].
  rewrite IH. apply perm_swap.
Qed.

Lemma isort_perm {A} (leb : A -> A -> bool) l : Permutation (Pd.isort leb l) l.
Proof.
  induction l as [|x l IH]; simpl; [reflexivity |].
  rewrite insert_sorted_perm. constructor. exact IH.
Qed.

Lemma In_isort {A} (leb : A -> A -> bool) x l : In x (Pd.isort leb l) <-> In x l.
Proof.
  split; apply Permutation_in; [| symmetry]; apply isort_perm.
Qed.

Lemma In_unique {A} `{EqDecision A} (x : A) l : In x (Pd.unique l) <-> In x l.
Proof.
  induction l as [|y l IH]; simpl; [reflexivity |].
  rewrite filter_In, IH, negb_true_iff, bool_decide_eq_false.
  destruct (decide (x = y)) as [->|Hne]; [tauto |].
  split; [intros [?|[? _]]; auto | intros [?|?]; [auto | right; auto]].
Qed.

Lemma NoDup_unique {A} `{EqDecision A} (l : list A) : NoDup (Pd.unique l).
Proof.
  induction l as [|y l IH]; simpl; [constructor |].
  constructor.
  - rewrite list_elem_of_In, filter_In, negb_true_iff, bool_decide_eq_false. tauto.
  - apply NoDup_ListNoDup, List.NoDup_filter, NoDup_ListNoDup, IH.
Qed.

Lemma NoDup_isort {A} (leb : A -> A -> bool) l : NoDup l -> NoDup (Pd.isort leb l).
Proof.
  intros Hl. apply NoDup_ListNoDup.
  eapply Permutation_NoDup; [symmetry; apply isort_perm | apply NoDup_ListNoDup, Hl].
Qed.

Lemma In_omap {A B} (f : A -> option B) l y :
  In y (omap f l) <-> exists x, In x l /\ f x = Some y.
Proof.
  rewrite <- list_elem_of_In, list_elem_of_omap.
  split; intros [x [Hx E]]; exists x; split; try exact E; apply list_elem_of_In, Hx.
Qed.

Lemma traverse_ok {A B} (f : A -> Py.result B) l :
  (forall x, In x l -> exists y, f x = Py.Ok y) ->
  exists ys, Py.traverse f l = Py.Ok ys.
Proof.
  induction l as [|x l IH]; intros Hall; [exists []; reflexivity |].
  destruct (Hall x (or_introl eq_refl)) as [y Ey].
  destruct IH as [ys Eys]; [intros; apply Hall; right; assumption |].
  exists (y :: ys). cbn [Py.traverse]. rewrite Ey, Eys. reflexivity.
Qed.

(** ** Separator detection *)

Lemma contains_count c s : Py.contains c s = true <-> (1 <= Py.count c s)%nat.
Proof.
  induction s as [|d s IH]; simpl.
  - split; [discriminate | lia].
  - destruct (Ascii.eqb d c); simpl; [split; [lia | reflexivity] | exact IH].
Qed.

Lemma sniff_sep_semicolon sample :
  IO.sniff_sep sample = ";" <->
  (1 <= Py.count ";" sample /\ Py.count "," sample <= Py.count ";" sample)%nat.
Proof.
  unfold IO.sniff_sep.
  destruct (Py.contains ";" sample) eqn:Hc; simpl.
  - apply contains_count in Hc.
    destruct (Nat.leb_spec (Py.count "," sample) (Py.count ";" sample)).
    + split; [intros _; split; assumption | reflexivity].
    + split; [discriminate | intros [_ ?]; lia].
  - split; [discriminate |].
    intros [H1 _]. apply contains_count in H1. congruence.
Qed.

Lemma sniff_sep_two_values sample :
  IO.sniff_sep sample = ";" \/ IO.sniff_sep sample = ",".
Proof.
  unfold IO.sniff_sep.
  destruct (_ && _); [left | right]; reflexivity.
Qed.

Lemma high_byte_not_ascii lo hi (x c : ascii) :
  (128 <= lo)%N -> IO.byte_in lo hi x = true -> IO.byte_in 0 127 c = true ->
  Ascii.eqb x c = false.
Proof.
  unfold IO.byte_in. intros Hlo Hx Hc.
  apply andb_prop in Hx as [Hx _]. apply andb_prop in Hc as [_ Hc].
  apply N.leb_le in Hx, Hc.
  destruct (Ascii.eqb_spec x c) as [->|]; [lia | reflexivity].
Qed.

Lemma second_ok_high lead c1 : IO.second_ok lead c1 = true -> IO.byte_in 128 191 c1 = true.
Proof.
  unfold IO.second_ok, IO.is_cont, IO.byte_in.
  repeat match goal with
         | |- context [match ?n with _ => _ end] => destruct n
         end;
    intros Hb; try exact Hb;
    apply andb_prop in Hb as [H1 H2]; apply N.leb_le in H1, H2;
    apply andb_true_intro; split; apply N.leb_le; lia.
Qed.

Lemma not_ascii_neq (x c : ascii) :
  IO.byte_in 0 127 x = false -> IO.byte_in 0 127 c = true -> Ascii.eqb x c = false.
Proof.
  intros Hx Hc. destruct (Ascii.eqb_spec x c) as [->|]; [congruence | reflexivity].
Qed.

Lemma count_skip (c : ascii) (pre r : list ascii) :
  Forall (fun x => Ascii.eqb x c = false) pre ->
  Py.count c (Py.of_list (pre ++ r)%list) = Py.count c (Py.of_list r).
Proof.
  induction 1 as [|x pre Hx _ IH]; [reflexivity |].
  cbn [app Py.of_list Py.count]. rewrite Hx. exact IH.
Qed.

(** Decoding neither adds nor removes an ASCII character. *)
Lemma count_decode (c : ascii) :
  IO.byte_in 0 127 c = true ->
  forall n b, (length b <= n)%nat ->
    Py.count c (Py.of_list (IO.decode_utf8_ignore b)) = Py.count c (Py.of_list b).
Proof.
  intros Hc. induction n as [|n IH]; intros b Hn.
  - destruct b; [reflexivity | simpl in Hn; lia].
  - destruct b as [|c0 rest]; [reflexivity |].
    simpl in Hn. cbn [IO.decode_utf8_ignore].
    destruct (IO.byte_in 0 127 c0) eqn:H0.
    { cbn [Py.of_list Py.count]. rewrite IH by lia. reflexivity. }
    assert (E0 : Ascii.eqb c0 c = false) by (eapply not_ascii_neq; eassumption).
    assert (Hhi : forall x, IO.is_cont x = true -> Ascii.eqb x c = false).
    { intros x Hx. eapply high_byte_not_ascii; [| exact Hx | exact Hc]. lia. }
    (* [pre] is dropped or kept whole; decoding resumes at [r] *)
    assert (Hdrop : forall pre r : list ascii,
              (c0 :: rest = pre ++ r)%list -> (length r <= n)%nat ->
              Forall (fun x => Ascii.eqb x c = false) pre ->
              Py.count c (Py.of_list (IO.decode_utf8_ignore r))
              = Py.count c (Py.of_list (c0 :: rest))).
    { intros pre r -> Hr Hpre. rewrite count_skip by exact Hpre. apply IH, Hr. }
    assert (Hkeep : forall pre r : list ascii,
              (c0 :: rest = pre ++ r)%list -> (length r <= n)%nat ->
              Forall (fun x => Ascii.eqb x c = false) pre ->
              Py.count c (Py.of_list (pre ++ IO.decode_utf8_ignore r)%list)
              = Py.count c (Py.of_list (c0 :: rest))).
    { intros pre r -> Hr Hpre. rewrite !count_skip by exact Hpre. apply IH, Hr. }
    assert (Hrest : Py.count c (Py.of_list (IO.decode_utf8_ignore rest))
                    = Py.count c (Py.of_list (c0 :: rest))).
    { apply (Hdrop [c0] rest); [reflexivity | lia | repeat constructor; auto]. }
    destruct (IO.byte_in 194 223 c0).
    { destruct rest as [|c1 r1]; [apply (Hdrop [c0] []); [reflexivity | simpl; lia | repeat constructor; auto] |].
      simpl in Hn.
      destruct (IO.is_cont c1) eqn:H1; [| exact Hrest].
      apply (Hkeep [c0; c1] r1); [reflexivity | lia | repeat constructor; auto]. }
    destruct (IO.byte_in 224 239 c0).
    { destruct rest as [|c1 r1]; [apply (Hdrop [c0] []); [reflexivity | simpl; lia | repeat constructor; auto] |].
      simpl in Hn.
      destruct (IO.second_ok c0 c1) eqn:H1; [| exact Hrest].
      apply second_ok_high in H1.
      destruct r1 as [|c2 r2];
        [apply (Hdrop [c0; c1] []); [reflexivity | simpl; lia | repeat constructor; auto] |].
      simpl in Hn.
      destruct (IO.is_cont c2) eqn:H2;
        [| apply (Hdrop [c0; c1] (c2 :: r2)); [reflexivity | simpl; lia | repeat constructor; auto]].
      apply (Hkeep [c0; c1; c2] r2); [reflexivity | lia | repeat constructor; auto]. }
    destruct (IO.byte_in 240 244 c0).
    { destruct rest as [|c1 r1]; [apply (Hdrop [c0] []); [reflexivity | simpl; lia | repeat constructor; auto] |].
      simpl in Hn.
      destruct (IO.second_ok c0 c1) eqn:H1; [| exact Hrest].
      apply second_ok_high in H1.
      destruct r1 as [|c2 r2];
        [apply (Hdrop [c0; c1] []); [reflexivity | simpl; lia | repeat constructor; auto] |].
      simpl in Hn.
      destruct (IO.is_cont c2) eqn:H2;
        [| apply (Hdrop [c0; c1] (c2 :: r2)); [reflexivity | simpl; lia | repeat constructor; auto]].
      destruct r2 as [|c3 r3];
        [apply (Hdrop [c0; c1; c2] []); [reflexivity | simpl; lia | repeat constructor; auto] |].
      simpl in Hn.
      destruct (IO.is_cont c3) eqn:H3;
        [| apply (Hdrop [c0; c1; c2] (c3 :: r3)); [reflexivity | simpl; lia | repeat constructor; auto]].
      apply (Hkeep [c0; c1; c2; c3] r3); [reflexivity | lia | repeat constructor; auto]. }
    exact Hrest.
Qed.

Lemma count_head_sample (c : ascii) content :
  IO.byte_in 0 127 c = true ->
  Py.count c (IO.head_sample content) = Py.count c (Py.of_list (firstn 4096 content)).
Proof.
  intros Hc. unfold IO.head_sample. eapply count_decode; [exact Hc | reflexivity].
Qed.

(** C4. Separator detection answers [";"] exactly when the sample holds a
    semicolon and at least as many semicolons as commas, and [","]
    otherwise; so ["a;b;c"] gives [";"], ["a,b,c"] gives [","], and a tie
    with a semicolon present gives [";"]. The sample is the first 4096
    bytes of the input: the separator chosen for a file is decided by the
    semicolons and commas among those bytes alone. *)
Theorem C4_separator_detection (sample : string) (content : list ascii) :
  (IO.sniff_sep sample = ";" <->
     (1 <= Py.count ";" sample /\ Py.count "," sample <= Py.count ";" sample)%nat)
  /\ (IO.sniff_sep sample = "," <->
        ~ (1 <= Py.count ";" sample /\ Py.count "," sample <= Py.count ";" sample)%nat)
  /\ IO.sniff_sep "a;b;c" = ";"
  /\ IO.sniff_sep "a,b,c" = ","
  /\ ((1 <= Py.count ";" sample)%nat ->
      Py.count ";" sample = Py.count "," sample -> IO.sniff_sep sample = ";")
  /\ IO.read_csv_flexible_sep content
     = IO.sniff_sep (Py.of_list (IO.decode_utf8_ignore (firstn 4096 content)))
  /\ (IO.read_csv_flexible_sep content = ";" <->
        (1 <= Py.count ";" (Py.of_list (firstn 4096 content))
         /\ Py.count "," (Py.of_list (firstn 4096 content))
            <= Py.count ";" (Py.of_list (firstn 4096 content)))%nat).
Proof.
  split; [apply sniff_sep_semicolon |].
  split.
  { rewrite <- sniff_sep_semicolon.
    destruct (sniff_sep_two_values sample) as [E|E]; rewrite E;
      split; intros; congruence. }
  split; [reflexivity |]. split; [reflexivity |].
  split.
  { intros H1 H2. apply sniff_sep_semicolon. lia. }
  split; [reflexivity |].
  unfold IO.read_csv_flexible_sep. rewrite sniff_sep_semicolon.
  rewrite !count_head_sample by reflexivity. reflexivity.
Qed.

(** ** Department codes *)

(** C3. What the code does with department codes: the coercion pads
    ["99"] to ["099"], but it pads the Corsican codes as well (["2A"]
    becomes ["02A"], ["2B"] becomes ["02B"]); the map's normaliser keeps a
    bare ["2A"] or ["2B"], but sends the padded codes the coercion hands it
    to ["02"]. *)
Theorem C3_department_codes `{Pd.Runtime} :
  Prep.dept_cell (Pd.Str "99") = Pd.Str "099"
  /\ Prep.dept_cell (Pd.Str "2A") = Pd.Str "02A"
  /\ Prep.dept_cell (Pd.Str "2B") = Pd.Str "02B"
  /\ MapSection.norm "2A" = "2A"
  /\ MapSection.norm "2B" = "2B"
  /\ MapSection.norm (Py.zfill 3 "2A") = "02"
  /\ MapSection.norm (Py.zfill 3 "2B") = "02"
  /\ MapSection.norm "99" = "99".
Proof. repeat split; reflexivity. Qed.

(** ** Numeric repair *)




(** ** Year range filter *)

Lemma year_keep_int (y : Z) :
  Prep.year_keep (Pd.Num (inject_Z y)) = true <-> 2000 <= y <= 2100.
Proof.
  unfold Prep.year_keep, Prep.between. cbn [Pd.isna].
  assert (E : forall b, Prep.holds (Prep.or3 (Some b) (Some false)) = b)
    by (intros []; reflexivity).
  rewrite E, andb_true_iff, !Qle_bool_iff, <- !Zle_Qle. reflexivity.
Qed.

Lemma coerce_year_cells `{Pd.Runtime} (df : Pd.DataFrame) (r : gmap string Pd.value) :
  Pd.has_col df "annee" = true -> In r (Pd.rows (Prep.coerce_year df)) ->
  Pd.cell r "annee" = Pd.NA \/ exists y, Pd.cell r "annee" = Pd.Num (inject_Z y).
Proof.
  unfold Prep.coerce_year. intros -> Hr. simpl in Hr.
  apply in_map_iff in Hr as [r0 [<- _]].
  rewrite cell_insert_eq.
  unfold Prep.year_cell. destruct (Pd.parse_year _); eauto.
Qed.

(** C5. In the raw variant, once the year is coerced, the range filter
    keeps a row exactly when its year is null or between 2000 and 2100
    inclusive: 1999 is dropped, 2000 and 2100 are kept, a null year is
    kept. (A frame without a year column is not filtered.) *)
Theorem C5_year_range_filter `{Pd.Runtime} (df : Pd.DataFrame)
  (r : gmap string Pd.value) :
  (In r (Pd.rows (Prep.year_range_filter (Prep.coerce_year df))) <->
     In r (Pd.rows (Prep.coerce_year df))
     /\ (Pd.has_col df "annee" = true ->
         Pd.cell r "annee" = Pd.NA
         \/ exists y, Pd.cell r "annee" = Pd.Num (inject_Z y) /\ 2000 <= y <= 2100))
  /\ Prep.year_keep (Pd.Num (inject_Z 1999)) = false
  /\ Prep.year_keep (Pd.Num (inject_Z 2000)) = true
  /\ Prep.year_keep (Pd.Num (inject_Z 2100)) = true
  /\ Prep.year_keep Pd.NA = true.
Proof.
  split; [| repeat split; reflexivity].
  destruct (Pd.has_col df "annee") eqn:Hc.
  - assert (Hc' : Pd.has_col (Prep.coerce_year df) "annee" = true).
    { unfold Prep.coerce_year. rewrite Hc. exact Hc. }
    unfold Prep.year_range_filter. rewrite Hc'. cbn [Pd.select Pd.rows].
    rewrite filter_In. split.
    + intros [Hin Hk]. split; [exact Hin |]. intros _.
      destruct (coerce_year_cells df r Hc Hin) as [E|[y E]]; [left; exact E |].
      right. exists y. split; [exact E |]. rewrite E in Hk.
      apply year_keep_int, Hk.
    + intros [Hin Hk]. split; [exact Hin |].
      destruct (Hk eq_refl) as [E|[y [E Hy]]]; rewrite E; [reflexivity |].
      apply year_keep_int, Hy.
  - unfold Prep.year_range_filter, Prep.coerce_year. rewrite Hc, Hc.
    split; [intros Hin; split; [exact Hin | discriminate] | intros [Hin _]; exact Hin].
Qed.

(** ** Frames: columns and assignments *)

Lemma has_col_In (df : Pd.DataFrame) c : Pd.has_col df c = true <-> In c (Pd.columns df).
Proof. unfold Pd.has_col. rewrite bool_decide_eq_true. apply list_elem_of_In. Qed.



(** ** Population union: the not-available results *)



(** ** The table builder: its summary entry *)

Lemma numeric_step_columns `{Pd.Runtime} (df : Pd.DataFrame) :
  Pd.columns (Prep.numeric_step df) = Pd.columns df
  /\ length (Pd.rows (Prep.numeric_step df)) = length (Pd.rows df).
Proof.
  unfold Prep.numeric_step. generalize ["ntop"; "npop"; "prev"]. intros cs.
  revert df. induction cs as [|c cs IH]; intros df; [split; reflexivity |].
  cbn [fold_left]. destruct (Pd.has_col df c).
  - destruct (IH (Pd.assign c Pd.to_numeric df)) as [-> ->].
    simpl. rewrite length_map. split; reflexivity.
  - apply IH.
Qed.

Lemma has_col_numeric_step `{Pd.Runtime} (df : Pd.DataFrame) c :
  Pd.has_col (Prep.numeric_step df) c = Pd.has_col df c.
Proof. unfold Pd.has_col. destruct (numeric_step_columns df) as [-> _]. reflexivity. Qed.

Lemma summary_fields `{Pd.Runtime} (df : Pd.DataFrame) (dq : Prep.quality) :
  Prep.summary df = Py.Ok dq ->
  Prep.dq_has_weight dq = Pd.has_col df "npop"
  /\ Prep.dq_has_sex dq = Pd.has_col df "sexe"
  /\ Prep.dq_rows dq = length (Pd.rows df)
  /\ Prep.dq_cols dq = length (Pd.columns df)
  /\ Prep.dq_cols_list dq = Pd.columns df.
Proof.
  unfold Prep.summary.
  destruct (if Pd.has_col df "annee" then _ else _) as [annees|e];
    cbn [mbind result_bind Py.bind mret result_ret]; [| discriminate].
  intros [= <-]. repeat split; reflexivity.
Qed.

Lemma build_dq `{Pd.Runtime} (df : Pd.DataFrame) (out : gmap string Prep.derived) :
  Prep.build df = Py.Ok out ->
  exists dq, out !! "dq" = Some (Prep.Quality dq)
    /\ Prep.dq_has_weight dq = Pd.has_col df "npop"
    /\ Prep.dq_has_sex dq = Pd.has_col df "sexe"
    /\ Prep.dq_rows dq = length (Pd.rows df)
    /\ Prep.dq_cols dq = length (Pd.columns df)
    /\ Prep.dq_cols_list dq = Pd.columns df.
Proof.
  unfold Prep.build.
  destruct (Prep.add_timeseries df _) as [o1|]; cbn [mbind result_bind Py.bind];
    [| discriminate].
  destruct (Prep.add_by_region df o1) as [o2|]; cbn [mbind result_bind Py.bind];
    [| discriminate].
  destruct (Prep.summary df) as [dq|] eqn:Edq;
    cbn [mbind result_bind Py.bind mret result_ret]; [| discriminate].
  intros [= <-]. exists dq. rewrite lookup_insert_eq.
  split; [reflexivity | apply summary_fields, Edq].
Qed.

Lemma sort_values_ok c asc (df : Pd.DataFrame) :
  (forall r, In r (Pd.rows df) -> forall s, Pd.cell r c <> Pd.Str s) ->
  exists t, Pd.sort_values c asc df = Py.Ok t.
Proof.
  intros Hns. unfold Pd.sort_values.
  match goal with |- context [existsb ?p ?l && existsb ?q ?l] =>
    assert (E : existsb q l = false) end.
  { apply not_true_is_false. intros Hex.
    apply existsb_exists in Hex as [r [Hr Hs]].
    apply filter_In in Hr as [Hr _].
    destruct (Pd.cell r c) eqn:Ec; try discriminate.
    eapply Hns; eassumption. }
  rewrite E, andb_false_r. eexists; reflexivity.
Qed.

Lemma group_keys_plain (df : Pd.DataFrame) (cs : list string) :
  (forall c, In c cs -> Pd.categories df !! c = None) ->
  Pd.group_keys df cs
  = Pd.isort Pd.lex_leb (Pd.unique (omap (Pd.row_key cs) (Pd.rows df))).
Proof.
  intros Hc. unfold Pd.group_keys.
  destruct (existsb _ cs) eqn:E; [| reflexivity].
  apply existsb_exists in E as [c [Hin Hsome]].
  apply bool_decide_eq_true in Hsome. rewrite (Hc c Hin) in Hsome.
  destruct Hsome; discriminate.
Qed.

Lemma single_key_row (df : Pd.DataFrame) c k :
  Pd.categories df !! c = None -> In k (Pd.group_keys df [c]) ->
  exists r v, In r (Pd.rows df) /\ Pd.key_of (Pd.cell r c) = Some v /\ k = [v].
Proof.
  intros Hc Hk. rewrite group_keys_plain in Hk
    by (intros c' [<-|[]]; exact Hc).
  apply In_isort, In_unique, In_omap in Hk as [r [Hr Ek]].
  unfold Pd.row_key in Ek. simpl in Ek.
  destruct (Pd.key_of (Pd.cell r c)) as [v|] eqn:Ev; simpl in Ek; [| discriminate].
  injection Ek as <-. eauto.
Qed.

Lemma key_of_Some_cases v k :
  Pd.key_of v = Some k ->
  (exists s, v = Pd.Str s /\ k = Pd.Str s)
  \/ (exists q, v = Pd.Num q /\ k = Pd.Num (Qred q)).
Proof.
  destruct v; simpl; intros E; [discriminate | |]; injection E as <-; eauto.
Qed.

Lemma agg_row_key_cell c name v (x : Pd.value) :
  name <> c ->
  Pd.cell (<[name := x]> (list_to_map (zip [c] [v]) : gmap string Pd.value)) c = v.
Proof.
  intros Hne. rewrite cell_insert_ne by exact Hne.
  simpl. apply cell_insert_eq.
Qed.

Lemma numeric_step_frame `{Pd.Runtime} (df : Pd.DataFrame) :
  exists g,
    Pd.rows (Prep.numeric_step df) = map g (Pd.rows df)
    /\ (forall r c, ~ In c ["ntop"; "npop"; "prev"] -> Pd.cell (g r) c = Pd.cell r c)
    /\ (forall c, ~ In c ["ntop"; "npop"; "prev"] ->
          Pd.categories (Prep.numeric_step df) !! c = Pd.categories df !! c).
Proof.
  unfold Prep.numeric_step. generalize ["ntop"; "npop"; "prev"]. intros cs.
  revert df. induction cs as [|c cs IH]; intros df.
  - exists (fun r => r). simpl. rewrite map_id. auto.
  - cbn [fold_left]. destruct (Pd.has_col df c).
    + destruct (IH (Pd.assign c Pd.to_numeric df)) as [g [Hr [Hg Hc]]].
      exists (fun r => g (<[c := Pd.to_numeric (Pd.cell r c)]> r)).
      split; [| split].
      * rewrite Hr. simpl. rewrite map_map. reflexivity.
      * intros r c' Hn. rewrite Hg by (simpl in Hn; tauto).
        apply cell_insert_ne. simpl in Hn. tauto.
      * intros c' Hn. rewrite Hc by (simpl in Hn; tauto).
        simpl. apply lookup_delete_ne. simpl in Hn. tauto.
    + destruct (IH df) as [g [Hr [Hg Hc]]]. exists g.
      split; [exact Hr |]. split; intros; [apply Hg | apply Hc]; simpl in *; tauto.
Qed.

Lemma integer_years_numeric_step `{Pd.Runtime} (df : Pd.DataFrame) :
  Spec.integer_years df -> Spec.integer_years (Prep.numeric_step df).
Proof.
  intros [Hcat Hrows]. destruct (numeric_step_frame df) as [g [Hr [Hg Hc]]].
  assert (Hn : ~ In "annee" ["ntop"; "npop"; "prev"]).
  { simpl. intros [E|[E|[E|[]]]]; discriminate. }
  split; [rewrite Hc by exact Hn; exact Hcat |].
  intros r Hin. rewrite Hr in Hin. apply in_map_iff in Hin as [r0 [<- Hin]].
  rewrite Hg by exact Hn. apply Hrows, Hin.
Qed.

Lemma add_timeseries_ok `{Pd.Runtime} (df : Pd.DataFrame) out :
  Spec.integer_years df -> exists o, Prep.add_timeseries df out = Py.Ok o.
Proof.
  intros [Hcat Hrows]. unfold Prep.add_timeseries.
  destruct (Pd.issubset _ df); [| eexists; reflexivity].
  destruct (sort_values_ok "annee" true
              (Pd.groupby_agg ["annee"] "prev" "prev_moy" Pd.mean
                 (Pd.dropna ["annee"; "prev"] df))) as [t Et].
  - intros r Hr s. cbn [Pd.groupby_agg Pd.rows] in Hr.
    apply in_map_iff in Hr as [k [<- Hk]].
    apply single_key_row in Hk as [r0 [v [Hr0 [Ev ->]]]]; [| exact Hcat].
    rewrite agg_row_key_cell by discriminate.
    cbn [Pd.dropna Pd.select Pd.rows] in Hr0. apply filter_In in Hr0 as [Hr0 _].
    destruct (Hrows r0 Hr0) as [E|[y E]]; rewrite E in Ev; simpl in Ev;
      [discriminate |].
    injection Ev as <-. discriminate.
  - rewrite Et. eexists; reflexivity.
Qed.

Lemma add_by_region_ok `{Pd.Runtime} (df : Pd.DataFrame) out :
  exists o, Prep.add_by_region df out = Py.Ok o.
Proof.
  unfold Prep.add_by_region.
  destruct (Pd.issubset _ df); [| eexists; reflexivity].
  destruct (sort_values_ok "prev_moy" false
              (Pd.groupby_agg ["region"] "prev" "prev_moy" Pd.mean
                 (Pd.dropna ["region"; "prev"] df))) as [t Et].
  - intros r Hr s. cbn [Pd.groupby_agg Pd.rows] in Hr.
    apply in_map_iff in Hr as [k [<- Hk]].
    rewrite cell_insert_eq. destruct (Pd.mean _); discriminate.
  - rewrite Et. eexists; reflexivity.
Qed.

Lemma summary_ok `{Pd.Runtime} (df : Pd.DataFrame) :
  Spec.integer_years df -> exists dq, Prep.summary df = Py.Ok dq.
Proof.
  intros [_ Hrows]. unfold Prep.summary.
  destruct (Pd.has_col df "annee"); [| eexists; reflexivity].
  destruct (traverse_ok Prep.py_int (Prep.distinct "annee" df)) as [ys Eys].
  - intros x Hx. unfold Prep.distinct in Hx.
    apply In_unique, In_omap in Hx as [r [Hr Ex]].
    destruct (Hrows r Hr) as [E|[y E]]; rewrite E in Ex; simpl in Ex;
      [discriminate |].
    injection Ex as <-. eexists; reflexivity.
  - rewrite Eys. eexists; reflexivity.
Qed.

Lemma build_ok `{Pd.Runtime} (df : Pd.DataFrame) :
  Spec.integer_years df -> exists out, Prep.build df = Py.Ok out.
Proof.
  intros Hy. unfold Prep.build.
  destruct (add_timeseries_ok df (Prep.add_fine df ∅) Hy) as [o1 ->].
  cbn [mbind result_bind Py.bind].
  destruct (add_by_region_ok df o1) as [o2 ->].
  cbn [mbind result_bind Py.bind].
  destruct (summary_ok df Hy) as [dq ->].
  eexists; reflexivity.
Qed.

(** C10 (as amended). On every table whose year column, if any, is a
    plain column of integers and nulls, the table builder returns a
    mapping, and that mapping has the entry ["dq"]; and whenever the
    builder returns a mapping, on any table, its ["dq"] entry is there,
    [has_weight] tells whether the table has the column [npop], [has_sex]
    whether it has the column [sexe], and the row count, column count and
    column list are the table's. *)
Theorem C10_summary_entry `{Pd.Runtime} (df : Pd.DataFrame) :
  (Spec.integer_years df -> exists out, snd (Prep.make_tables df) = Py.Ok out)
  /\ (forall out, snd (Prep.make_tables df) = Py.Ok out ->
      exists dq, out !! "dq" = Some (Prep.Quality dq)
        /\ (Prep.dq_has_weight dq = true <-> In "npop" (Pd.columns df))
        /\ (Prep.dq_has_sex dq = true <-> In "sexe" (Pd.columns df))
        /\ Prep.dq_rows dq = length (Pd.rows df)
        /\ Prep.dq_cols dq = length (Pd.columns df)
        /\ Prep.dq_cols_list dq = Pd.columns df).
Proof.
  split.
  - intros Hy. apply build_ok, integer_years_numeric_step, Hy.
  - intros out Hb. cbn [Prep.make_tables snd] in Hb.
    apply build_dq in Hb as [dq [Hdq [Hw [Hs [Hr [Hc Hl]]]]]].
    destruct (numeric_step_columns df) as [Ecols Erows].
    exists dq. split; [exact Hdq |].
    rewrite Hw, Hs, Hr, Hc, Hl, !has_col_numeric_step, !has_col_In, Ecols, Erows.
    repeat split; auto.
Qed.

(** The builder need not return: a year no integer can be read from makes
    [int(x)] raise while the summary is being built, and no mapping comes
    back. *)
Lemma C10_summary_entry_counterexample :
  snd (Prep.make_tables (H := example_runtime) Ex.bad_year) = Py.Raise Py.ValueError
  /\ ~ (exists out, snd (Prep.make_tables (H := example_runtime) Ex.bad_year) = Py.Ok out
                    /\ is_Some (out !! "dq")).
Proof.
  assert (E : snd (Prep.make_tables (H := example_runtime) Ex.bad_year)
              = Py.Raise Py.ValueError).
  { assert (Hr : raised (snd (Prep.make_tables (H := example_runtime) Ex.bad_year))
                 = Some Py.ValueError) by (vm_compute; reflexivity).
    destruct (snd (Prep.make_tables Ex.bad_year)) as [o|e]; simpl in Hr;
      [discriminate | injection Hr as ->; reflexivity]. }
  split; [exact E |]. intros [out [Hout _]]. rewrite E in Hout. discriminate.
Qed.

Lemma integer_years_one_region : Spec.integer_years Ex.one_region.
Proof.
  split; [reflexivity |].
  intros r [<-|[<-|[]]]; right; exists 2023; reflexivity.
Qed.

Lemma C10_summary_entry_witness :
  exists out dq,
    snd (Prep.make_tables (H := example_runtime) Ex.one_region) = Py.Ok out
    /\ out !! "dq" = Some (Prep.Quality dq)
    /\ Prep.dq_rows dq = 2%nat /\ Prep.dq_cols dq = 4%nat.
Proof.
  destruct (C10_summary_entry (H := example_runtime) Ex.one_region) as [Hret Hdq].
  destruct (Hret integer_years_one_region) as [out E].
  destruct (Hdq out E) as [dq [Hin [_ [_ [Hr [Hc _]]]]]].
  exists out, dq. repeat split; assumption.
Defined.

(** ** The table builder and its input *)

Definition measure_ok (c : string) (df : Pd.DataFrame) : Prop :=
  In c (Pd.columns df) ->
  Pd.categories df !! c = None
  /\ forall r, In r (Pd.rows df) -> exists v, r !! c = Some v /\ Spec.numeric v.

Lemma to_numeric_fixes `{Pd.Runtime} v : Spec.numeric v -> Pd.to_numeric v = v.
Proof. intros [->|[q ->]]; reflexivity. Qed.

Lemma to_numeric_numeric `{Pd.Runtime} v : Spec.numeric (Pd.to_numeric v).
Proof.
  destruct v as [|s|q]; simpl; [left; reflexivity | | right; eauto].
  destruct (Pd.parse_numeric s); [right; eauto | left; reflexivity].
Qed.

Definition convert `{Pd.Runtime} (c : string) (d : Pd.DataFrame) : Pd.DataFrame :=
  if Pd.has_col d c then Pd.assign c Pd.to_numeric d else d.


Lemma convert_establishes `{Pd.Runtime} c (df : Pd.DataFrame) : measure_ok c (convert c df).
Proof.
  unfold convert. destruct (Pd.has_col df c) eqn:Hc.
  - intros _. split; [apply lookup_delete_eq |].
    intros r Hr. cbn [Pd.assign Pd.rows] in Hr. apply in_map_iff in Hr as [r0 [<- _]].
    eexists. rewrite lookup_insert_eq. split; [reflexivity | apply to_numeric_numeric].
  - intros Hin. apply has_col_In in Hin. congruence.
Qed.

Lemma convert_preserves `{Pd.Runtime} c c' (df : Pd.DataFrame) :
  c <> c' -> measure_ok c df -> measure_ok c (convert c' df).
Proof.
  intros Hne Hok. unfold convert. destruct (Pd.has_col df c'); [| exact Hok].
  intros Hin. destruct (Hok Hin) as [Hcat Hrows].
  split; [cbn [Pd.assign Pd.categories]; rewrite lookup_delete_ne by congruence; exact Hcat |].
  intros r Hr. cbn [Pd.assign Pd.rows] in Hr. apply in_map_iff in Hr as [r0 [<- Hr0]].
  rewrite lookup_insert_ne by congruence. apply Hrows, Hr0.
Qed.

Lemma numeric_step_convert `{Pd.Runtime} (df : Pd.DataFrame) :
  Prep.numeric_step df = convert "prev" (convert "npop" (convert "ntop" df)).
Proof. reflexivity. Qed.

Lemma typed_measure_ok (df : Pd.DataFrame) :
  Spec.typed df <-> measure_ok "ntop" df /\ measure_ok "npop" df /\ measure_ok "prev" df.
Proof.
  unfold Spec.typed, measure_ok. split.
  - intros Ht. split; [| split]; intros Hin; apply Ht; simpl; auto.
  - intros [H1 [H2 H3]] c [<-|[<-|[<-|[]]]]; assumption.
Qed.


Lemma numeric_step_typed `{Pd.Runtime} (df : Pd.DataFrame) :
  Spec.typed (Prep.numeric_step df).
Proof.
  rewrite typed_measure_ok, numeric_step_convert. split; [| split].
  - apply convert_preserves; [discriminate |].
    apply convert_preserves; [discriminate |]. apply convert_establishes.
  - apply convert_preserves; [discriminate |]. apply convert_establishes.
  - apply convert_establishes.
Qed.





(** ** The weighted mean per region *)

Lemma filter_map_comm {A B} (p : B -> bool) (f : A -> B) l :
  List.filter p (map f l) = map f (List.filter (fun x => p (f x)) l).
Proof.
  induction l as [|x l IH]; simpl; [reflexivity |].
  destruct (p (f x)); simpl; rewrite IH; reflexivity.
Qed.

Lemma row_key_ext cs (r r' : gmap string Pd.value) :
  (forall c, In c cs -> Pd.cell r c = Pd.cell r' c) ->
  Pd.row_key cs r = Pd.row_key cs r'.
Proof.
  unfold Pd.row_key. induction cs as [|c cs IH]; intros Hc; [reflexivity |].
  cbn [mapM]. rewrite (Hc c) by (left; reflexivity).
  rewrite IH by (intros; apply Hc; right; assumption). reflexivity.
Qed.

Lemma numbers_map c (f : gmap string Pd.value -> gmap string Pd.value)
  (g : gmap string Pd.value -> Q) rs :
  (forall r, In r rs -> Pd.cell (f r) c = Pd.Num (g r)) ->
  Pd.numbers c (map f rs) = map g rs.
Proof.
  unfold Pd.numbers. induction rs as [|r rs IH]; intros Hc; [reflexivity |].
  simpl. rewrite (Hc r) by (left; reflexivity).
  f_equal. apply IH. intros; apply Hc; right; assumption.
Qed.

Lemma numeric_step_cells `{Pd.Runtime} (df : Pd.DataFrame) c r :
  In c ["ntop"; "npop"; "prev"] -> In c (Pd.columns df) ->
  In r (Pd.rows (Prep.numeric_step df)) -> Spec.numeric (Pd.cell r c).
Proof.
  intros Hc Hin Hr.
  destruct (numeric_step_columns df) as [Ecols _].
  destruct (numeric_step_typed df c Hc) as [_ Hrows]; [rewrite Ecols; exact Hin |].
  destruct (Hrows r Hr) as [v [E Hv]]. unfold Pd.cell. rewrite E. exact Hv.
Qed.

Lemma issubset_In cs (df : Pd.DataFrame) c :
  Pd.issubset cs df = true -> In c cs -> In c (Pd.columns df).
Proof.
  unfold Pd.issubset. rewrite forallb_forall. intros Hall Hc.
  apply has_col_In, Hall, Hc.
Qed.

(** The rows behind one row of the weighted table. *)
Lemma by_region_weighted_row `{Pd.Runtime} (df : Pd.DataFrame) wr :
  (forall r, In r (Pd.rows df) -> Spec.numeric (Pd.cell r "prev")) ->
  (forall r, In r (Pd.rows df) -> Spec.numeric (Pd.cell r "npop")) ->
  In wr (Prep.by_region_weighted df) ->
  let G := Pd.group ["region"] (Prep.wr_region wr)
             (Pd.dropna ["region"; "prev"; "npop"] df) in
  Prep.wr_prev_pond wr
  = Prep.fdiv
      (Pd.sum (map (fun r => Spec.number (Pd.cell r "prev")
                             * Spec.number (Pd.cell r "npop"))%Q G))
      (Pd.sum (map (fun r => Spec.number (Pd.cell r "npop")) G)).
Proof.
  intros Hprev Hnpop Hin. unfold Prep.by_region_weighted in Hin.
  apply In_isort, in_map_iff in Hin as [k [<- _]]. cbn [Prep.wr_region Prep.wr_prev_pond].
  set (d := Pd.dropna ["region"; "prev"; "npop"] df).
  set (addw := fun r : gmap string Pd.value => <["w" := Pd.cell r "npop"]> r).
  set (addwp := fun r : gmap string Pd.value =>
                  <["wp" := Prep.mul (Pd.cell r "prev") (Pd.cell r "w")]> r).
  assert (Hg : Pd.group ["region"] k
                 (Prep.with_column "wp"
                    (fun r => Prep.mul (Pd.cell r "prev") (Pd.cell r "w"))
                    (Prep.with_column "w" (fun r => Pd.cell r "npop") d))
               = map (fun r => addwp (addw r)) (Pd.group ["region"] k d)).
  { unfold Pd.group. cbn [Prep.with_column Pd.rows].
    rewrite map_map, filter_map_comm. f_equal.
    apply filter_ext. intros r. f_equal.
    assert (E : Pd.row_key ["region"] (addwp (addw r)) = Pd.row_key ["region"] r).
    { apply row_key_ext. intros c [<-|[]]. unfold addwp, addw.
      rewrite !cell_insert_ne by discriminate. reflexivity. }
    fold (addw r). fold (addwp (addw r)). rewrite E. reflexivity. }
  rewrite Hg.
  assert (Hcells : forall r, In r (Pd.group ["region"] k d) ->
            exists p q, Pd.cell r "prev" = Pd.Num p /\ Pd.cell r "npop" = Pd.Num q).
  { intros r Hr. unfold Pd.group, d in Hr. cbn [Pd.dropna Pd.select Pd.rows] in Hr.
    apply filter_In in Hr as [Hr _]. apply filter_In in Hr as [Hr Hnn].
    cbn [forallb] in Hnn. apply andb_prop in Hnn as [_ Hnn].
    apply andb_prop in Hnn as [Hp Hnn]. apply andb_prop in Hnn as [Hq _].
    destruct (Hprev r Hr) as [E|[p E]]; rewrite E in Hp |- *; [discriminate |].
    destruct (Hnpop r Hr) as [E'|[q E']]; rewrite E' in Hq |- *; [discriminate |].
    eauto. }
  f_equal; f_equal; apply numbers_map; intros r Hr;
    destruct (Hcells r Hr) as [p [q [Ep Eq]]]; unfold addwp, addw.
  - rewrite cell_insert_eq, cell_insert_ne, cell_insert_eq by discriminate.
    rewrite Ep, Eq. reflexivity.
  - rewrite cell_insert_ne, cell_insert_eq by discriminate. rewrite Eq. reflexivity.
Qed.

Lemma add_timeseries_other `{Pd.Runtime} (df : Pd.DataFrame) out o k :
  Prep.add_timeseries df out = Py.Ok o -> k <> "timeseries" -> o !! k = out !! k.
Proof.
  unfold Prep.add_timeseries. intros E Hk. destruct (Pd.issubset _ df).
  - destruct (Pd.sort_values _ _ _); cbn [mbind result_bind Py.bind mret result_ret] in E;
      [| discriminate].
    injection E as <-. apply lookup_insert_ne. congruence.
  - cbn [mret result_ret] in E. injection E as <-. reflexivity.
Qed.

Lemma add_by_region_other `{Pd.Runtime} (df : Pd.DataFrame) out o k :
  Prep.add_by_region df out = Py.Ok o -> k <> "by_region" -> o !! k = out !! k.
Proof.
  unfold Prep.add_by_region. intros E Hk. destruct (Pd.issubset _ df).
  - destruct (Pd.sort_values _ _ _); cbn [mbind result_bind Py.bind mret result_ret] in E;
      [| discriminate].
    injection E as <-. apply lookup_insert_ne. congruence.
  - cbn [mret result_ret] in E. injection E as <-. reflexivity.
Qed.

Lemma add_fine_other `{Pd.Runtime} (df : Pd.DataFrame) out k :
  k <> "fine" -> Prep.add_fine df out !! k = out !! k.
Proof.
  unfold Prep.add_fine. intros Hk. destruct (_ && _); [| reflexivity].
  apply lookup_insert_ne. congruence.
Qed.

Lemma add_by_sexe_desc_other `{Pd.Runtime} (df : Pd.DataFrame) out k :
  k <> "by_sexe_desc" -> Prep.add_by_sexe_desc df out !! k = out !! k.
Proof.
  unfold Prep.add_by_sexe_desc. intros Hk. destruct (Pd.issubset _ df); [| reflexivity].
  apply lookup_insert_ne. congruence.
Qed.

Lemma build_weighted `{Pd.Runtime} (df : Pd.DataFrame) out l :
  Prep.build df = Py.Ok out ->
  out !! "by_region_weighted" = Some (Prep.Weighted l) ->
  l = Prep.by_region_weighted df /\ Pd.issubset ["region"; "prev"; "npop"] df = true.
Proof.
  unfold Prep.build.
  destruct (Prep.add_timeseries df _) as [o1|] eqn:E1; cbn [mbind result_bind Py.bind];
    [| discriminate].
  destruct (Prep.add_by_region df o1) as [o2|] eqn:E2; cbn [mbind result_bind Py.bind];
    [| discriminate].
  destruct (Prep.summary df) as [dq|];
    cbn [mbind result_bind Py.bind mret result_ret]; [| discriminate].
  intros [= <-]. rewrite lookup_insert_ne by discriminate.
  rewrite add_by_sexe_desc_other by discriminate.
  unfold Prep.add_by_region_weighted.
  destruct (Pd.issubset ["region"; "prev"; "npop"] df).
  - rewrite lookup_insert_eq. intros [= <-]. split; reflexivity.
  - rewrite (add_by_region_other _ _ _ _ E2) by discriminate.
    rewrite (add_timeseries_other _ _ _ _ E1) by discriminate.
    rewrite add_fine_other by discriminate. rewrite lookup_empty. discriminate.
Qed.

(** C2. Every row of the weighted per-region table reports the quotient
    of the sum of prevalence times population by the sum of population,
    both over the rows of its region in which region, prevalence and
    population are not null (the quotient is a float division: a number
    when the weights do not sum to zero). For two rows of one region with
    prevalence 10, population 100 and prevalence 20, population 300 the
    weighted mean is 17.5, and the unweighted mean of the same rows is
    15. *)
Theorem C2_weighted_region_mean `{Pd.Runtime} (df : Pd.DataFrame) :
  (forall out l wr,
     snd (Prep.make_tables df) = Py.Ok out ->
     out !! "by_region_weighted" = Some (Prep.Weighted l) ->
     In wr l ->
     let G := Pd.group ["region"] (Prep.wr_region wr)
                (Pd.dropna ["region"; "prev"; "npop"] (fst (Prep.make_tables df))) in
     let swp := Pd.sum (map (fun r => Spec.number (Pd.cell r "prev")
                                      * Spec.number (Pd.cell r "npop"))%Q G) in
     let sw := Pd.sum (map (fun r => Spec.number (Pd.cell r "npop")) G) in
     Prep.wr_prev_pond wr = Prep.fdiv swp sw
     /\ (~ (sw == 0)%Q -> Prep.wr_prev_pond wr = Prep.FNum (swp / sw)))
  /\ (exists out q t r m,
        snd (Prep.make_tables Ex.one_region) = Py.Ok out
        /\ out !! "by_region_weighted"
           = Some (Prep.Weighted [ {| Prep.wr_region := [Pd.Str "11"];
                                      Prep.wr_prev_pond := Prep.FNum q;
                                      Prep.wr_w := 400 |} ])
        /\ (q == 17.5)%Q
        /\ out !! "by_region" = Some (Prep.Frame t)
        /\ Pd.rows t = [r]
        /\ Pd.cell r "region" = Pd.Str "11"
        /\ Pd.cell r "prev_moy" = Pd.Num m
        /\ (m == 15)%Q).
Proof.
  split.
  - intros out l wr Hout Hl Hwr.
    change (fst (Prep.make_tables df)) with (Prep.numeric_step df).
    change (snd (Prep.make_tables df)) with (Prep.build (Prep.numeric_step df)) in Hout.
    intros G swp sw.
    destruct (build_weighted _ _ _ Hout Hl) as [-> Hsub].
    assert (Hcols : forall c, In c ["region"; "prev"; "npop"] -> In c (Pd.columns df)).
    { intros c Hc. destruct (numeric_step_columns df) as [<- _].
      eapply issubset_In; eassumption. }
    assert (E : Prep.wr_prev_pond wr = Prep.fdiv swp sw).
    { subst swp sw G.
      refine (by_region_weighted_row (Prep.numeric_step df) wr _ _ Hwr);
        intros r Hr;
        (eapply numeric_step_cells; [| apply Hcols | exact Hr]; in_list). }
    split; [exact E |]. intros Hnz. rewrite E. unfold Prep.fdiv.
    destruct (Qeq_bool sw 0) eqn:Ez; [| reflexivity].
    apply Qeq_bool_iff in Ez. contradiction.
  - set (res := snd (Prep.make_tables Ex.one_region)).
    assert (Hr : raised res = None) by (vm_compute; reflexivity).
    set (out := returned ∅ res).
    set (t := match out !! "by_region" with
              | Some (Prep.Frame t) => t
              | _ => Prep.no_union
              end).
    exists out, (7000 # 400)%Q, t, (hd ∅ (Pd.rows t)), (30 # 2)%Q.
    split; [apply returned_ok, Hr |].
    split; [vm_compute; reflexivity |].
    split; [reflexivity |].
    split; [vm_compute; reflexivity |].
    split; [apply singleton_hd; vm_compute; reflexivity |].
    split; [vm_compute; reflexivity |].
    split; [vm_compute; reflexivity | reflexivity].
Qed.

(** The rows of a weighted table entry. *)
Definition weighted_rows `{Pd.Runtime} (o : option Prep.derived)
  : option (list Prep.weighted_row) :=
  match o with Some (Prep.Weighted l) => Some l | _ => None end.

Lemma weighted_rows_inv `{Pd.Runtime} (o : option Prep.derived) l :
  weighted_rows o = Some l -> o = Some (Prep.Weighted l).
Proof. destruct o as [[?|?|?|?]|]; simpl; intros [= <-]; reflexivity. Qed.

(** The theorem at the two-row region: its one row of the weighted table
    is the quotient of the two sums. *)
Lemma C2_weighted_region_mean_witness :
  let wr := {| Prep.wr_region := [Pd.Str "11"];
               Prep.wr_prev_pond := Prep.FNum (7000 # 400);
               Prep.wr_w := 400 |} in
  let G := Pd.group ["region"] [Pd.Str "11"]
             (Pd.dropna ["region"; "prev"; "npop"]
                (fst (Prep.make_tables (H := example_runtime) Ex.one_region))) in
  Prep.wr_prev_pond wr
  = Prep.fdiv
      (Pd.sum (map (fun r => Spec.number (Pd.cell r "prev")
                             * Spec.number (Pd.cell r "npop"))%Q G))
      (Pd.sum (map (fun r => Spec.number (Pd.cell r "npop")) G)).
Proof.
  intros wr G.
  destruct (C2_weighted_region_mean (H := example_runtime) Ex.one_region) as [Hgen _].
  set (out := returned ∅ (snd (Prep.make_tables (H := example_runtime) Ex.one_region))).
  destruct (Hgen out [wr] wr) as [E _].
  - apply returned_ok. vm_compute. reflexivity.
  - apply weighted_rows_inv. vm_compute. reflexivity.
  - left. reflexivity.
  - exact E.
Defined.

(** ** Sums over groups *)

Lemma Qred_inject_Z (z : Z) : Qred (inject_Z z) = inject_Z z.
Proof.
  unfold Qred, inject_Z.
  pose proof (Z.ggcd_gcd z 1) as Hg.
  pose proof (Z.ggcd_correct_divisors z 1) as Hd.
  destruct (Z.ggcd z 1) as [g [aa bb]]. simpl in Hg.
  rewrite Z.gcd_1_r in Hg. subst g. destruct Hd as [Ha Hb].
  rewrite Z.mul_1_l in Ha, Hb. subst aa bb. reflexivity.
Qed.

Lemma sum_perm (l l' : list Q) : Permutation l l' -> (Pd.sum l == Pd.sum l')%Q.
Proof.
  induction 1 as [|x l l' _ IH|x y l|l l' l'' _ IH1 _ IH2]; simpl.
  - reflexivity.
  - rewrite IH. reflexivity.
  - ring.
  - rewrite IH1. exact IH2.
Qed.

Lemma sum_app (l l' : list Q) : (Pd.sum (l ++ l') == Pd.sum l + Pd.sum l')%Q.
Proof.
  induction l as [|x l IH]; simpl; [ring | rewrite IH; ring].
Qed.

Section sums_over_keys.
Context {K : Type} `{EqDecision K}.

(** Keys that carry nothing can be left out. *)
Lemma omap_support (g : K -> option Q) (ks : list K) :
  omap g ks = omap g (List.filter (fun k => bool_decide (is_Some (g k))) ks).
Proof.
  induction ks as [|k ks IH]; [reflexivity |].
  simpl. destruct (g k) as [q|] eqn:E.
  - rewrite bool_decide_eq_true_2 by eauto. simpl. rewrite E. f_equal. exact IH.
  - rewrite bool_decide_eq_false_2 by (intros [? ?]; discriminate). exact IH.
Qed.

Lemma omap_perm {B} (g : K -> option B) (ks ks' : list K) :
  Permutation ks ks' -> Permutation (omap g ks) (omap g ks').
Proof.
  induction 1 as [|x l l' _ IH|x y l|l l' l'' _ IH1 _ IH2]; simpl.
  - reflexivity.
  - destruct (g x); [constructor |]; exact IH.
  - destruct (g x), (g y); try reflexivity. apply perm_swap.
  - etransitivity; eassumption.
Qed.

(** The sum over a duplicate-free list of keys depends only on the keys
    that carry a value. *)
Lemma sum_support (g : K -> option Q) (ks ks' : list K) :
  NoDup ks -> NoDup ks' ->
  (forall k, is_Some (g k) -> In k ks /\ In k ks') ->
  (Pd.sum (omap g ks) == Pd.sum (omap g ks'))%Q.
Proof.
  intros Hn Hn' Hs.
  rewrite (omap_support g ks), (omap_support g ks').
  apply sum_perm, omap_perm.
  apply NoDup_Permutation.
  - apply NoDup_ListNoDup, List.NoDup_filter, NoDup_ListNoDup, Hn.
  - apply NoDup_ListNoDup, List.NoDup_filter, NoDup_ListNoDup, Hn'.
  - intros k. rewrite !list_elem_of_In, !filter_In, !bool_decide_eq_true.
    split; intros [_ Hk]; split; try exact Hk; apply Hs, Hk.
Qed.

(** Changing what one key carries changes the sum by that much. *)
Lemma sum_change_one (gA gB : K -> option Q) (k0 : K) (ks : list K) :
  NoDup ks -> (forall k, k <> k0 -> gA k = gB k) -> gB k0 = None ->
  (is_Some (gA k0) -> In k0 ks) ->
  (Pd.sum (omap gA ks) == Pd.sum (omap gB ks) + default 0 (gA k0))%Q.
Proof.
  intros Hn Heq HB. induction Hn as [|k ks Hk Hn IH]; intros Hin.
  - simpl. destruct (gA k0) as [q|]; [| simpl; ring].
    exfalso. exact (Hin (mk_is_Some _ _ eq_refl)).
  - simpl. destruct (decide (k = k0)) as [->|Hne].
    + rewrite HB.
      assert (E : omap gA ks = omap gB ks).
      { clear -Hk Heq. induction ks as [|k ks IH]; [reflexivity |].
        simpl. apply not_elem_of_cons in Hk as [Hne Hk].
        rewrite Heq by congruence. specialize (IH Hk).
        destruct (gB k); [f_equal |]; exact IH. }
      fold (omap gA ks). fold (omap gB ks). rewrite E.
      destruct (gA k0) as [q|]; simpl; ring.
    + rewrite Heq by exact Hne.
      assert (Hin' : is_Some (gA k0) -> In k0 ks).
      { intros Hs. destruct (Hin Hs) as [E|Hi]; [congruence | exact Hi]. }
      specialize (IH Hin').
      change (list_omap K Q gA ks) with (omap gA ks).
      change (list_omap K Q gB ks) with (omap gB ks).
      destruct (gB k); cbn [Pd.sum fold_right]; fold (Pd.sum (omap gA ks));
        fold (Pd.sum (omap gB ks)); rewrite IH; ring.
Qed.

(** Adding one key to the data adds what it carries to the total. *)
Lemma sum_add_key (gA gB : K -> option Q) (k0 : K) (ksA ksB : list K) :
  NoDup ksA -> NoDup ksB ->
  (forall k, k <> k0 -> gA k = gB k) -> gB k0 = None ->
  (forall k, is_Some (gA k) -> In k ksA) ->
  (forall k, is_Some (gB k) -> In k ksB) ->
  (Pd.sum (omap gA ksA) == Pd.sum (omap gB ksB) + default 0 (gA k0))%Q.
Proof.
  intros HnA HnB Heq HB HsA HsB.
  rewrite (sum_change_one gA gB k0 ksA HnA Heq HB (HsA k0)).
  rewrite (sum_support gB ksA ksB HnA HnB); [reflexivity |].
  intros k Hs. split; [| apply HsB, Hs].
  apply HsA. rewrite Heq; [exact Hs |].
  intros ->. rewrite HB in Hs. destruct Hs; discriminate.
Qed.

End sums_over_keys.

(** ** Group keys *)

Lemma row_key_cons c cs (r : gmap string Pd.value) :
  Pd.row_key (c :: cs) r
  = match Pd.key_of (Pd.cell r c), Pd.row_key cs r with
    | Some v, Some k => Some (v :: k)
    | _, _ => None
    end.
Proof.
  unfold Pd.row_key. cbn [mapM].
  destruct (Pd.key_of (Pd.cell r c)); simpl; [| reflexivity].
  destruct (mapM _ cs); reflexivity.
Qed.

Lemma In_product (ls : list (list Pd.value)) (k : list Pd.value) :
  In k (Pd.product ls) <-> Forall2 (fun l v => In v l) ls k.
Proof.
  revert k. induction ls as [|l ls IH]; intros k; simpl.
  - split; [intros [<-|[]]; constructor | intros Hf; inversion Hf; auto].
  - rewrite in_flat_map. split.
    + intros [x [Hx Hk]]. apply in_map_iff in Hk as [k' [<- Hk']].
      constructor; [exact Hx | apply IH, Hk'].
    + intros Hf. inversion Hf as [|? v ? k' Hv Hk']; subst.
      exists v. split; [exact Hv |]. apply in_map, IH, Hk'.
Qed.

Lemma NoDup_product (ls : list (list Pd.value)) :
  Forall NoDup ls -> NoDup (Pd.product ls).
Proof.
  induction 1 as [|l ls Hl _ IH]; simpl; [apply NoDup_singleton |].
  induction Hl as [|x l Hx Hl IHl]; simpl; [constructor |].
  apply NoDup_app. split; [| split].
  - apply NoDup_fmap_2; [intros a b [= ->]; reflexivity | exact IH].
  - intros k Hk Hk'. apply list_elem_of_In in Hk, Hk'.
    apply in_map_iff in Hk as [k1 [<- _]].
    apply in_flat_map in Hk' as [y [Hy Hk']].
    apply in_map_iff in Hk' as [k2 [E _]]. injection E as -> _.
    apply Hx, list_elem_of_In, Hy.
  - exact IHl.
Qed.

Lemma NoDup_levels (df : Pd.DataFrame) c : NoDup (Pd.levels df c).
Proof.
  unfold Pd.levels. destruct (Pd.categories df !! c);
    apply NoDup_isort, NoDup_unique.
Qed.

Lemma NoDup_group_keys (df : Pd.DataFrame) cs : NoDup (Pd.group_keys df cs).
Proof.
  unfold Pd.group_keys. destruct (existsb _ cs).
  - apply NoDup_product, Forall_forall. intros l Hl.
    apply list_elem_of_In, in_map_iff in Hl as [c [<- _]]. apply NoDup_levels.
  - apply NoDup_isort, NoDup_unique.
Qed.

Lemma In_levels (df : Pd.DataFrame) c r v :
  In r (Pd.rows df) -> Pd.key_of (Pd.cell r c) = Some v -> In v (Pd.levels df c).
Proof.
  intros Hr Hv. unfold Pd.levels.
  assert (Ho : In v (omap (fun r => Pd.key_of (Pd.cell r c)) (Pd.rows df)))
    by (apply In_omap; eauto).
  destruct (Pd.categories df !! c); apply In_isort, In_unique;
    [apply in_or_app; right |]; exact Ho.
Qed.

Lemma row_key_levels (df : Pd.DataFrame) cs r k :
  In r (Pd.rows df) -> Pd.row_key cs r = Some k ->
  Forall2 (fun l v => In v l) (map (Pd.levels df) cs) k.
Proof.
  intros Hr. revert k. induction cs as [|c cs IH]; intros k Hk.
  - injection Hk as <-. constructor.
  - rewrite row_key_cons in Hk.
    destruct (Pd.key_of (Pd.cell r c)) as [v|] eqn:Ev; [| discriminate].
    destruct (Pd.row_key cs r) as [k'|]; [| discriminate].
    injection Hk as <-. constructor; [eapply In_levels; eassumption | apply IH; reflexivity].
Qed.

(** The key of every row is among the group keys. *)
Lemma row_key_in_group_keys (df : Pd.DataFrame) cs r k :
  In r (Pd.rows df) -> Pd.row_key cs r = Some k -> In k (Pd.group_keys df cs).
Proof.
  intros Hr Hk. unfold Pd.group_keys. destruct (existsb _ cs).
  - apply In_product. eapply row_key_levels; eassumption.
  - apply In_isort, In_unique, In_omap. eauto.
Qed.

Lemma levels_mono (dfA dfB : Pd.DataFrame) c v :
  Pd.categories dfB = Pd.categories dfA ->
  (forall r, In r (Pd.rows dfB) -> In r (Pd.rows dfA)) ->
  In v (Pd.levels dfB c) -> In v (Pd.levels dfA c).
Proof.
  intros Hc Hsub. unfold Pd.levels. rewrite Hc.
  assert (Ho : forall v, In v (omap (fun r => Pd.key_of (Pd.cell r c)) (Pd.rows dfB)) ->
                         In v (omap (fun r => Pd.key_of (Pd.cell r c)) (Pd.rows dfA))).
  { intros w Hw. apply In_omap in Hw as [r [Hr E]]. apply In_omap. eauto. }
  destruct (Pd.categories dfA !! c); rewrite !In_isort, !In_unique; [| apply Ho].
  rewrite !in_app_iff. intros [?|?]; [left | right; apply Ho]; assumption.
Qed.

Lemma group_keys_mono (dfA dfB : Pd.DataFrame) cs k :
  Pd.categories dfB = Pd.categories dfA ->
  (forall r, In r (Pd.rows dfB) -> In r (Pd.rows dfA)) ->
  In k (Pd.group_keys dfB cs) -> In k (Pd.group_keys dfA cs).
Proof.
  intros Hc Hsub. unfold Pd.group_keys. rewrite Hc. destruct (existsb _ cs).
  - rewrite !In_product. intros Hf.
    apply Forall2_fmap_l in Hf. apply Forall2_fmap_l.
    eapply Forall2_impl; [exact Hf |]. intros c v. simpl.
    apply levels_mono; assumption.
  - rewrite !In_isort, !In_unique, !In_omap. intros [r [Hr E]]. eauto.
Qed.

(** A group with no row carries no number. *)
Lemma group_nil_outside (df : Pd.DataFrame) cs k :
  (forall r, In r (Pd.rows df) -> Pd.row_key cs r <> Some k) ->
  Pd.group cs k df = [].
Proof.
  intros Hno. unfold Pd.group.
  induction (Pd.rows df) as [|r rs IH]; [reflexivity |].
  simpl. rewrite bool_decide_eq_false_2 by (apply Hno; left; reflexivity).
  apply IH. intros; apply Hno; right; assumption.
Qed.

Lemma numbers_of_float {A} c (mk : A -> gmap string Pd.value) (g : A -> option Q) l :
  (forall k, Pd.cell (mk k) c = Pd.of_float (g k)) ->
  Pd.numbers c (map mk l) = omap g l.
Proof.
  intros Hc. unfold Pd.numbers. induction l as [|k l IH]; [reflexivity |].
  simpl. rewrite Hc. destruct (g k); simpl; [f_equal |]; exact IH.
Qed.

Lemma numbers_groupby_agg cs c name f (df : Pd.DataFrame) :
  Pd.numbers name (Pd.rows (Pd.groupby_agg cs c name f df))
  = omap (fun k => f (Pd.numbers c (Pd.group cs k df))) (Pd.group_keys df cs).
Proof.
  cbn [Pd.groupby_agg Pd.rows]. apply numbers_of_float.
  intros k. apply cell_insert_eq.
Qed.

(** ** Zero padding *)

Lemma length_app_string (s t : string) :
  String.length (s ++ t) = (String.length s + String.length t)%nat.
Proof. induction s as [|c s IH]; simpl; [reflexivity | rewrite IH; reflexivity]. Qed.

Lemma length_zeros n : String.length (Py.zeros n) = n.
Proof. induction n as [|n IH]; simpl; [reflexivity | rewrite IH; reflexivity]. Qed.

Lemma zfill_length w s : (w <= String.length (Py.zfill w s))%nat.
Proof.
  unfold Py.zfill. destruct (Nat.leb_spec w (String.length s)) as [Hle|Hlt]; [exact Hle |].
  destruct s as [|c s'].
  - rewrite length_zeros. simpl. lia.
  - destruct (_ || _)%bool; simpl in *;
      rewrite length_app_string, length_zeros; simpl; lia.
Qed.

Lemma zfill_idem w s : Py.zfill w (Py.zfill w s) = Py.zfill w s.
Proof.
  pose proof (zfill_length w s) as Hl.
  unfold Py.zfill at 1. apply Nat.leb_le in Hl. rewrite Hl. reflexivity.
Qed.

(** ** The scope filter, row by row *)

Section scope.
Context `{Pd.Runtime}.

Definition yearfix (r : gmap string Pd.value) : Py.result (gmap string Pd.value) :=
  v ← Prep._ensure_year_cell (Pd.cell r "annee"); mret (<["annee" := v]> r).

Definition deptfix (r : gmap string Pd.value) : gmap string Pd.value :=
  <["dept" := Prep.dept_key (Pd.cell r "dept")]> r.

Definition numfix (r : gmap string Pd.value) : gmap string Pd.value :=
  <["npop" := Pd.to_numeric (Pd.cell r "npop")]> r.

Definition dept_ok (r : gmap string Pd.value) : bool :=
  negb (bool_decide (Pd.cell r "dept" = Pd.Str "999")).

Definition age_len (r : gmap string Pd.value) : bool :=
  (0 <? String.length (Py.strip (Pd.astype_str (Pd.cell r "cla_age_5"))))%nat.

Definition age_pat (r : gmap string Pd.value) : bool :=
  Prep.age_5y_search (Pd.astype_str (Pd.cell r "cla_age_5")).

Definition age_filter (b : bool) (l : list (gmap string Pd.value)) :=
  if b then List.filter age_pat (List.filter age_len l) else l.

Definition scoped (df : Pd.DataFrame) (rs : list (gmap string Pd.value)) : Pd.DataFrame :=
  {| Pd.columns := Pd.columns df;
     Pd.categories := delete "dept" (delete "annee" (Pd.categories df));
     Pd.rows := age_filter (Pd.has_col df "cla_age_5")
                  (List.filter dept_ok (map deptfix rs)) |}.

Lemma scope_unfold (df : Pd.DataFrame) :
  Pd.has_col df "annee" = true -> Pd.has_col df "dept" = true ->
  Prep._filter_population_scope df
  = match Py.traverse yearfix (Pd.rows df) with
    | Py.Ok rs => Py.Ok (scoped df rs)
    | Py.Raise e => Py.Raise e
    end.
Proof.
  intros Ha Hd. unfold Prep._filter_population_scope. rewrite Ha.
  unfold Pd.assignM. fold yearfix.
  destruct (Py.traverse yearfix (Pd.rows df)) as [rs|e];
    cbn [mbind result_bind Py.bind mret result_ret]; [| reflexivity].
  set (out := {| Pd.columns := Pd.columns df;
                 Pd.categories := delete "annee" (Pd.categories df);
                 Pd.rows := rs |}).
  change (Pd.has_col out "dept") with (Pd.has_col df "dept"). rewrite Hd.
  match goal with |- context [Pd.has_col ?d "cla_age_5"] =>
    change (Pd.has_col d "cla_age_5") with (Pd.has_col df "cla_age_5") end.
  unfold scoped, age_filter. destruct (Pd.has_col df "cla_age_5"); reflexivity.
Qed.

End scope.

(** ** Slices through the scope filter *)

Lemma filter_comm {A} (p q : A -> bool) l :
  List.filter p (List.filter q l) = List.filter q (List.filter p l).
Proof.
  induction l as [|x l IH]; simpl; [reflexivity |].
  destruct (p x) eqn:Ep, (q x) eqn:Eq; simpl; rewrite ?Ep, ?Eq, IH; reflexivity.
Qed.

Lemma filter_map_inv {A} (p : A -> bool) (f : A -> A) l :
  (forall x, p (f x) = p x) ->
  List.filter p (map f l) = map f (List.filter p l).
Proof.
  intros Hp. rewrite filter_map_comm. f_equal. apply filter_ext, Hp.
Qed.

Lemma traverse_filter {A} (f : A -> Py.result A) (p : A -> bool) l l' :
  (forall x y, f x = Py.Ok y -> p y = p x) ->
  Py.traverse f l = Py.Ok l' ->
  Py.traverse f (List.filter p l) = Py.Ok (List.filter p l').
Proof.
  intros Hp. revert l'. induction l as [|x l IH]; intros l' Hl.
  - injection Hl as <-. reflexivity.
  - cbn [Py.traverse] in Hl. destruct (f x) as [y|] eqn:Ey; [| discriminate].
    destruct (Py.traverse f l) as [ys|]; [| discriminate].
    injection Hl as <-. simpl. rewrite (Hp x y Ey).
    destruct (p x); [cbn [Py.traverse]; rewrite Ey |]; rewrite (IH ys eq_refl);
      reflexivity.
Qed.

Lemma traverse_unfilter {A} (f : A -> Py.result A) (p : A -> bool) l lB :
  (forall x, In x l -> p x = false -> exists y, f x = Py.Ok y) ->
  Py.traverse f (List.filter p l) = Py.Ok lB ->
  exists lA, Py.traverse f l = Py.Ok lA.
Proof.
  revert lB. induction l as [|x l IH]; intros lB Hout Hl; [eexists; reflexivity |].
  simpl in Hl. destruct (p x) eqn:Ep.
  - cbn [Py.traverse] in Hl |- *. destruct (f x) as [y|]; [| discriminate].
    destruct (Py.traverse f (List.filter p l)) as [ys|] eqn:E; [| discriminate].
    destruct (IH ys) as [lA ->]; [intros; apply Hout; [right |]; assumption | reflexivity |].
    eexists; reflexivity.
  - destruct (Hout x (or_introl eq_refl) Ep) as [y Ey].
    destruct (IH lB) as [lA ElA]; [intros; apply Hout; [right |]; assumption | exact Hl |].
    cbn [Py.traverse]. rewrite Ey, ElA. eexists; reflexivity.
Qed.

Section slices.
Context `{Pd.Runtime}.

Lemma ensure_year_shape v v' :
  Prep._ensure_year_cell v = Py.Ok v' ->
  v' = Pd.NA \/ exists z, v' = Pd.Num (inject_Z z).
Proof.
  unfold Prep._ensure_year_cell. destruct (Pd.to_numeric v) as [|s|q].
  - intros [= <-]. left; reflexivity.
  - intros [= <-]. left; reflexivity.
  - destruct (Z.pos (Qden (Qred q)) =? 1); [| discriminate].
    intros [= <-]. right; eauto.
Qed.

Lemma ensure_year_int z :
  Prep._ensure_year_cell (Pd.Num (inject_Z z)) = Py.Ok (Pd.Num (inject_Z z)).
Proof.
  unfold Prep._ensure_year_cell. cbn [Pd.to_numeric].
  rewrite Qred_inject_Z. reflexivity.
Qed.

Lemma ensure_year_idem v v' :
  Prep._ensure_year_cell v = Py.Ok v' -> Prep._ensure_year_cell v' = Py.Ok v'.
Proof.
  intros Hv. destruct (ensure_year_shape v v' Hv) as [->|[z ->]];
    [reflexivity | apply ensure_year_int].
Qed.

Lemma dept_key_idem v : Prep.dept_key (Prep.dept_key v) = Prep.dept_key v.
Proof. unfold Prep.dept_key. cbn [Pd.astype_str]. rewrite zfill_idem. reflexivity. Qed.

Lemma slice_key_yearfix b r r' :
  yearfix r = Py.Ok r' -> Spec.slice_key b r' = Spec.slice_key b r.
Proof.
  unfold yearfix. destruct (Prep._ensure_year_cell (Pd.cell r "annee")) as [v|] eqn:Ev;
    cbn [mbind result_bind Py.bind mret result_ret]; [| discriminate].
  intros [= <-]. unfold Spec.slice_key.
  rewrite cell_insert_eq, (ensure_year_idem _ _ Ev), Ev.
  rewrite !cell_insert_ne by discriminate. reflexivity.
Qed.

Lemma slice_key_deptfix b r : Spec.slice_key b (deptfix r) = Spec.slice_key b r.
Proof.
  unfold Spec.slice_key, deptfix.
  rewrite cell_insert_eq, dept_key_idem, !cell_insert_ne by discriminate.
  reflexivity.
Qed.

Lemma slice_key_numfix b r : Spec.slice_key b (numfix r) = Spec.slice_key b r.
Proof.
  unfold Spec.slice_key, numfix. rewrite !cell_insert_ne by discriminate. reflexivity.
Qed.

(** Not in the slice [k]. *)
Definition outside (b : bool) (k : list Pd.value) (r : gmap string Pd.value) : bool :=
  negb (bool_decide (Spec.slice_key b r = Some k)).

Lemma age_filter_outside b k b' l :
  age_filter b' (List.filter (outside b k) l)
  = List.filter (outside b k) (age_filter b' l).
Proof.
  unfold age_filter. destruct b'; [| reflexivity].
  rewrite (filter_comm age_len), (filter_comm age_pat). reflexivity.
Qed.

Lemma scoped_outside b k (dfA dfB : Pd.DataFrame) rs :
  Pd.has_col dfB "cla_age_5" = Pd.has_col dfA "cla_age_5" ->
  Pd.rows (scoped dfB (List.filter (outside b k) rs))
  = List.filter (outside b k) (Pd.rows (scoped dfA rs)).
Proof.
  intros Hc. cbn [scoped Pd.rows]. rewrite Hc.
  rewrite <- age_filter_outside. f_equal.
  rewrite <- filter_comm. f_equal.
  symmetry. apply filter_map_inv. intros r. unfold outside.
  rewrite slice_key_deptfix. reflexivity.
Qed.

Lemma row_key_nil (r : gmap string Pd.value) : Pd.row_key [] r = Some [].
Proof. reflexivity. Qed.

(** On a row with an integer (or no) year and a padded department code,
    the slice is the group key. *)
Lemma slice_key_normal b (r : gmap string Pd.value) :
  (Pd.cell r "annee" = Pd.NA \/ exists z, Pd.cell r "annee" = Pd.Num (inject_Z z)) ->
  Prep.dept_key (Pd.cell r "dept") = Pd.cell r "dept" ->
  Spec.slice_key b r
  = Pd.row_key (if b then ["annee"; "dept"; "cla_age_5"] else ["annee"; "dept"]) r.
Proof.
  intros Hy Hd.
  assert (Ek : Pd.key_of (Pd.cell r "dept") = Some (Pd.cell r "dept"))
    by (rewrite <- Hd; reflexivity).
  unfold Spec.slice_key. rewrite Hd.
  destruct b; rewrite !row_key_cons, row_key_nil, Ek;
    (destruct Hy as [E|[z E]]; rewrite E;
     [reflexivity | rewrite ensure_year_int; cbn [Pd.key_of]; rewrite Qred_inject_Z]).
  - destruct (Pd.key_of (Pd.cell r "cla_age_5")); reflexivity.
  - reflexivity.
Qed.

Lemma scoped_row_shape rs0 (df : Pd.DataFrame) r :
  In r (Pd.rows (scoped df rs0)) -> exists r0, In r0 rs0 /\ r = deptfix r0.
Proof.
  intros Hr. cbn [scoped Pd.rows] in Hr. unfold age_filter in Hr.
  destruct (Pd.has_col df "cla_age_5");
    [apply filter_In in Hr as [Hr _]; apply filter_In in Hr as [Hr _] |];
    apply filter_In in Hr as [Hr _]; apply in_map_iff in Hr as [r0 [<- Hr0]]; eauto.
Qed.

Lemma deptfix_normal r0 :
  Prep.dept_key (Pd.cell (deptfix r0) "dept") = Pd.cell (deptfix r0) "dept".
Proof. unfold deptfix. rewrite cell_insert_eq. apply dept_key_idem. Qed.

End slices.

(** ** The by-year series, looked up *)

Lemma filter_NoDup_eq {A} `{EqDecision A} (p : A -> bool) (a : A) l :
  NoDup l -> (forall x, In x l -> (p x = true <-> x = a)) ->
  List.filter p l = if bool_decide (a ∈ l) then [a] else [].
Proof.
  intros Hn. induction Hn as [|x l Hx Hn IH]; intros Hp.
  - rewrite bool_decide_eq_false_2 by apply not_elem_of_nil. reflexivity.
  - assert (Hp' : forall y, In y l -> (p y = true <-> y = a))
      by (intros; apply Hp; right; assumption).
    simpl. destruct (p x) eqn:Ex.
    + apply (Hp x (or_introl eq_refl)) in Ex. subst x.
      rewrite bool_decide_eq_true_2 by apply list_elem_of_here.
      rewrite (IH Hp'), bool_decide_eq_false_2 by exact Hx. reflexivity.
    + rewrite (IH Hp').
      rewrite (bool_decide_ext (a ∈ l) (a ∈ x :: l)); [reflexivity |].
      rewrite elem_of_cons.
      split; [right; assumption |].
      intros [->|Hin]; [| exact Hin].
      assert (p x = true) by (apply (Hp x (or_introl eq_refl)); reflexivity).
      congruence.
Qed.

Lemma omap_filter {A B} (g : A -> option B) (q : A -> bool) l :
  omap g (List.filter q l) = omap (fun x => if q x then g x else None) l.
Proof.
  induction l as [|x l IH]; [reflexivity |].
  simpl. destruct (q x); simpl; [destruct (g x); [f_equal |] |]; exact IH.
Qed.

Lemma omap_ext_in {A B} (g g' : A -> option B) l :
  (forall x, In x l -> g x = g' x) -> omap g l = omap g' l.
Proof.
  induction l as [|x l IH]; intros He; [reflexivity |].
  simpl. rewrite (He x) by (left; reflexivity).
  assert (E : omap g l = omap g' l) by (apply IH; intros; apply He; right; assumption).
  destruct (g' x); [f_equal |]; exact E.
Qed.

Lemma filter_ext_in' {A} (p q : A -> bool) l :
  (forall x, In x l -> p x = q x) -> List.filter p l = List.filter q l.
Proof.
  induction l as [|x l IH]; intros He; [reflexivity |].
  simpl. rewrite (He x) by (left; reflexivity).
  rewrite IH by (intros; apply He; right; assumption). reflexivity.
Qed.

Lemma sort_values_perm c asc (df res : Pd.DataFrame) :
  Pd.sort_values c asc df = Py.Ok res -> Permutation (Pd.rows res) (Pd.rows df).
Proof.
  unfold Pd.sort_values. destruct (_ && _); [discriminate |].
  intros [= <-]. cbn [Pd.rows]. rewrite isort_perm.
  induction (Pd.rows df) as [|r rs IH]; [reflexivity |].
  simpl. destruct (Pd.isna (Pd.cell r c)); simpl.
  - rewrite <- Permutation_middle. constructor. exact IH.
  - constructor. exact IH.
Qed.

Lemma filter_perm {A} (p : A -> bool) l l' :
  Permutation l l' -> Permutation (List.filter p l) (List.filter p l').
Proof.
  induction 1 as [|x l l' _ IH|x y l|l l' l'' _ IH1 _ IH2]; simpl.
  - reflexivity.
  - destruct (p x); [constructor |]; exact IH.
  - destruct (p x), (p y); try reflexivity. apply perm_swap.
  - etransitivity; eassumption.
Qed.

Definition head_is (y : Z) (k : list Pd.value) : bool :=
  bool_decide (hd Pd.NA k = Pd.Num (inject_Z y)).

Section by_year_lookup.
Context (tmp : Pd.DataFrame) (KS' : list string) (f : list Q -> option Q).
Hypothesis plain_year : Pd.categories tmp !! "annee" = None.
Hypothesis int_year : forall r, In r (Pd.rows tmp) ->
  exists z, Pd.cell r "annee" = Pd.Num (inject_Z z).

Let KS := "annee" :: KS'.
Let K1 := Pd.group_keys tmp KS.
Let dedup := Pd.groupby_agg KS "npop" "npop" f tmp.
Let g (k : list Pd.value) := f (Pd.numbers "npop" (Pd.group KS k tmp)).

Lemma year_level v : In v (Pd.levels tmp "annee") -> exists z, v = Pd.Num (inject_Z z).
Proof.
  unfold Pd.levels. rewrite plain_year.
  intros Hv. apply In_isort, In_unique, In_omap in Hv as [r [Hr Ev]].
  destruct (int_year r Hr) as [z E]. rewrite E in Ev. simpl in Ev.
  rewrite Qred_inject_Z in Ev. injection Ev as <-. eauto.
Qed.

Lemma key_shape k : In k K1 -> exists z k', k = Pd.Num (inject_Z z) :: k'.
Proof.
  unfold K1, Pd.group_keys, KS. destruct (existsb _ _).
  - intros Hk. apply In_product in Hk. cbn [map] in Hk.
    inversion Hk as [|? v ? k' Hv _]; subst.
    destruct (year_level v Hv) as [z ->]. eauto.
  - intros Hk. apply In_isort, In_unique, In_omap in Hk as [r [Hr Ek]].
    rewrite row_key_cons in Ek. destruct (int_year r Hr) as [z E].
    rewrite E in Ek. simpl in Ek. rewrite Qred_inject_Z in Ek.
    destruct (Pd.row_key KS' r) as [k'|]; [| discriminate].
    injection Ek as <-. eauto.
Qed.

Definition mk1 (k : list Pd.value) : gmap string Pd.value :=
  <["npop" := Pd.of_float (g k)]> (list_to_map (zip KS k)).

Lemma dedup_rows : Pd.rows dedup = map mk1 K1.
Proof. reflexivity. Qed.

Lemma mk1_year z k' : Pd.cell (mk1 (Pd.Num (inject_Z z) :: k')) "annee" = Pd.Num (inject_Z z).
Proof.
  unfold mk1, KS. rewrite cell_insert_ne by discriminate.
  cbn [zip zip_with list_to_map foldr]. simpl. apply cell_insert_eq.
Qed.

Lemma mk1_row_key k :
  In k K1 -> Pd.row_key ["annee"] (mk1 k) = Some [hd Pd.NA k].
Proof.
  intros Hk. destruct (key_shape k Hk) as [z [k' ->]].
  rewrite row_key_cons, mk1_year. simpl. rewrite Qred_inject_Z. reflexivity.
Qed.

Lemma dedup_plain_year : Pd.categories dedup !! "annee" = None.
Proof.
  cbn [dedup Pd.groupby_agg Pd.categories].
  apply map_lookup_filter_None. left. exact plain_year.
Qed.

Let K2 := Pd.group_keys dedup ["annee"].

Lemma K2_spec k : In k K2 <-> exists k1, In k1 K1 /\ k = [hd Pd.NA k1].
Proof.
  unfold K2. rewrite group_keys_plain by (intros c [<-|[]]; apply dedup_plain_year).
  rewrite In_isort, In_unique, In_omap, dedup_rows. split.
  - intros [r [Hr Ek]]. apply in_map_iff in Hr as [k1 [<- Hk1]].
    rewrite (mk1_row_key k1 Hk1) in Ek. injection Ek as <-. eauto.
  - intros [k1 [Hk1 ->]]. exists (mk1 k1). split; [apply in_map, Hk1 |].
    apply mk1_row_key, Hk1.
Qed.

Lemma K2_shape k : In k K2 -> exists z, k = [Pd.Num (inject_Z z)].
Proof.
  intros Hk. apply K2_spec in Hk as [k1 [Hk1 ->]].
  destruct (key_shape k1 Hk1) as [z [k' ->]]. eauto.
Qed.

Definition total (k : list Pd.value) : Q :=
  Pd.sum (Pd.numbers "npop" (Pd.group ["annee"] k dedup)).

Definition mk2 (k : list Pd.value) : gmap string Pd.value :=
  <["npop_union" := Pd.Num (total k)]> (list_to_map (zip ["annee"] k)).

Let res0 := Pd.groupby_agg ["annee"] "npop" "npop_union" (fun l => Some (Pd.sum l)) dedup.

Lemma res0_rows : Pd.rows res0 = map mk2 K2.
Proof. reflexivity. Qed.

Lemma mk2_year z : Pd.cell (mk2 [Pd.Num (inject_Z z)]) "annee" = Pd.Num (inject_Z z).
Proof. unfold mk2. apply agg_row_key_cell. discriminate. Qed.

Lemma year_is_int y z : Prep.year_is y (Pd.Num (inject_Z z)) = true <-> z = y.
Proof.
  unfold Prep.year_is. rewrite Qeq_bool_iff. unfold Qeq, inject_Z. simpl. lia.
Qed.

Lemma total_spec y :
  total [Pd.Num (inject_Z y)]
  = Pd.sum (omap (fun k => if head_is y k then g k else None) K1).
Proof.
  unfold total. f_equal. unfold Pd.group. rewrite dedup_rows, filter_map_comm.
  assert (E : forall l, Pd.numbers "npop" (map mk1 l) = omap g l).
  { intros l. apply numbers_of_float. intros k. apply cell_insert_eq. }
  rewrite E, omap_filter. apply omap_ext_in. intros k Hk.
  rewrite (mk1_row_key k Hk). unfold head_is.
  destruct (decide (hd Pd.NA k = Pd.Num (inject_Z y))) as [Ey|Hn].
  - rewrite Ey, !bool_decide_eq_true_2 by reflexivity. reflexivity.
  - rewrite !bool_decide_eq_false_2; [reflexivity | exact Hn | congruence].
Qed.

Lemma by_year_lookup (y : Z) :
  exists res,
    Pd.sort_values "annee" true res0 = Py.Ok res
    /\ Spec.union_of res y
       = if existsb (head_is y) K1
         then Some (Pd.sum (omap (fun k => if head_is y k then g k else None) K1))
         else None.
Proof.
  destruct (sort_values_ok "annee" true res0) as [res Eres].
  { intros r Hr s. rewrite res0_rows in Hr. apply in_map_iff in Hr as [k [<- Hk]].
    destruct (K2_shape k Hk) as [z ->]. rewrite mk2_year. discriminate. }
  exists res. split; [exact Eres |].
  unfold Spec.union_of.
  set (p := fun r => Prep.year_is y (Pd.cell r "annee")).
  assert (Hperm : Permutation (List.filter p (Pd.rows res))
                    (map mk2 (List.filter (fun k => p (mk2 k)) K2))).
  { rewrite <- filter_map_comm, <- res0_rows.
    apply filter_perm, sort_values_perm with (c := "annee") (asc := true), Eres. }
  rewrite (filter_NoDup_eq _ [Pd.Num (inject_Z y)]) in Hperm.
  2: { apply NoDup_group_keys. }
  2: { intros k Hk. destruct (K2_shape k Hk) as [z ->]. unfold p.
       rewrite mk2_year, year_is_int. split; [intros ->; reflexivity |].
       intros [= E]. lia. }
  assert (Hex : existsb (head_is y) K1 = bool_decide ([Pd.Num (inject_Z y)] ∈ K2)).
  { apply eq_true_iff_eq.
    rewrite existsb_exists, bool_decide_eq_true, list_elem_of_In, K2_spec.
    split; intros [k [Hk Ek]]; exists k; split; try exact Hk.
    - unfold head_is in Ek. apply bool_decide_eq_true in Ek. rewrite Ek. reflexivity.
    - unfold head_is. apply bool_decide_eq_true. injection Ek as <-. reflexivity. }
  rewrite Hex. destruct (bool_decide ([Pd.Num (inject_Z y)] ∈ K2)).
  - cbn [map] in Hperm. symmetry in Hperm.
    apply Permutation_length_1_inv in Hperm. rewrite Hperm.
    unfold mk2 at 1. rewrite cell_insert_eq, total_spec. reflexivity.
  - cbn [map] in Hperm. symmetry in Hperm.
    apply Permutation_nil in Hperm. rewrite Hperm. reflexivity.
Qed.

End by_year_lookup.

(** ** The frames the population union groups *)

Section union_frames.
Context `{Pd.Runtime}.

(** The key columns of the single-year grouping. *)
Definition slice_cols (df : Pd.DataFrame) : list string :=
  if Pd.has_col df "cla_age_5" then ["dept"; "cla_age_5"] else ["dept"].

(** The frame [population_union_by_year] groups, from the rows the year
    conversion returned. *)
Definition yframe (df : Pd.DataFrame) (rs : list (gmap string Pd.value)) : Pd.DataFrame :=
  Pd.dropna ["annee"; "npop"] (Pd.assign "npop" Pd.to_numeric (scoped df rs)).

(** The frame [population_union_for_year] groups. *)
Definition sframe (df : Pd.DataFrame) (year : Z) (rs : list (gmap string Pd.value))
  : Pd.DataFrame :=
  Pd.dropna ["npop"]
    (Pd.assign "npop" Pd.to_numeric
       (Pd.select (fun r => Prep.year_is year (Pd.cell r "annee")) (scoped df rs))).

Lemma required_cols (df : Pd.DataFrame) :
  Pd.issubset Prep.required df = true ->
  Pd.has_col df "annee" = true /\ Pd.has_col df "dept" = true
  /\ Pd.has_col df "npop" = true.
Proof.
  unfold Pd.issubset, Prep.required. cbn [forallb].
  rewrite !andb_true_iff. tauto.
Qed.

Lemma by_year_unfold (df : Pd.DataFrame) (m : Prep.method) rs :
  Pd.issubset Prep.required df = true ->
  Py.traverse yearfix (Pd.rows df) = Py.Ok rs ->
  Prep.population_union_by_year df m
  = if Pd.empty (yframe df rs) then Py.Ok Prep.no_union
    else Pd.sort_values "annee" true
           (Pd.groupby_agg ["annee"] "npop" "npop_union" (fun l => Some (Pd.sum l))
              (Pd.groupby_agg ("annee" :: slice_cols df) "npop" "npop"
                 (Prep.reducer m) (yframe df rs))).
Proof.
  intros Hreq Hrs. destruct (required_cols df Hreq) as [Ha [Hd _]].
  unfold Prep.population_union_by_year. rewrite Hreq. cbn [negb].
  rewrite (scope_unfold df Ha Hd), Hrs. cbn [mbind result_bind Py.bind].
  fold (yframe df rs). destruct (Pd.empty (yframe df rs)); [reflexivity |].
  change (Pd.has_col (yframe df rs) "cla_age_5") with (Pd.has_col df "cla_age_5").
  unfold slice_cols. destruct (Pd.has_col df "cla_age_5"); reflexivity.
Qed.

Lemma by_year_raises (df : Pd.DataFrame) (m : Prep.method) e :
  Pd.issubset Prep.required df = true ->
  Py.traverse yearfix (Pd.rows df) = Py.Raise e ->
  Prep.population_union_by_year df m = Py.Raise e.
Proof.
  intros Hreq Hrs. destruct (required_cols df Hreq) as [Ha [Hd _]].
  unfold Prep.population_union_by_year. rewrite Hreq. cbn [negb].
  rewrite (scope_unfold df Ha Hd), Hrs. reflexivity.
Qed.

Lemma for_year_unfold (df : Pd.DataFrame) (year : Z) (m : Prep.method) rs :
  Pd.issubset Prep.required df = true ->
  Py.traverse yearfix (Pd.rows df) = Py.Ok rs ->
  Prep.population_union_for_year df year m
  = if Pd.empty (Pd.select (fun r => Prep.year_is year (Pd.cell r "annee"))
                   (scoped df rs))
    then Py.Ok None
    else Py.Ok (Some (Pd.sum
           (omap (fun k => Prep.reducer m
                             (Pd.numbers "npop" (Pd.group (slice_cols df) k (sframe df year rs))))
                 (Pd.group_keys (sframe df year rs) (slice_cols df))))).
Proof.
  intros Hreq Hrs. destruct (required_cols df Hreq) as [Ha [Hd _]].
  unfold Prep.population_union_for_year. rewrite Hreq. cbn [negb].
  rewrite (scope_unfold df Ha Hd), Hrs. cbn [mbind result_bind Py.bind].
  destruct (Pd.empty _); [reflexivity |].
  fold (sframe df year rs). unfold Prep._dedup_npop_per_slice.
  change (Pd.has_col (sframe df year rs) "cla_age_5") with (Pd.has_col df "cla_age_5").
  unfold slice_cols. cbn [mret result_ret].
  destruct (Pd.has_col df "cla_age_5"); rewrite numbers_groupby_agg; reflexivity.
Qed.

Lemma for_year_raises (df : Pd.DataFrame) (year : Z) (m : Prep.method) e :
  Pd.issubset Prep.required df = true ->
  Py.traverse yearfix (Pd.rows df) = Py.Raise e ->
  Prep.population_union_for_year df year m = Py.Raise e.
Proof.
  intros Hreq Hrs. destruct (required_cols df Hreq) as [Ha [Hd _]].
  unfold Prep.population_union_for_year. rewrite Hreq. cbn [negb].
  rewrite (scope_unfold df Ha Hd), Hrs. reflexivity.
Qed.

End union_frames.

(** ** The reducers *)

Lemma reducer_nil (m : Prep.method) : Prep.reducer m [] = None.
Proof. destruct m; reflexivity. Qed.

Lemma fold_left_pick {A} (c : A -> A -> bool) (l : list A) (x : A) :
  In (fold_left (fun a b => if c a b then a else b) l x) (x :: l).
Proof.
  revert x. induction l as [|y l IH]; intros x; [left; reflexivity |].
  cbn [fold_left]. destruct (c x y).
  - destruct (IH x) as [E|Hin]; [left; exact E | right; right; exact Hin].
  - right. apply IH.
Qed.

Lemma fold_left_pick' {A} (c : A -> A -> bool) (l : list A) (x : A) :
  In (fold_left (fun a b => if c a b then b else a) l x) (x :: l).
Proof.
  revert x. induction l as [|y l IH]; intros x; [left; reflexivity |].
  cbn [fold_left]. destruct (c x y).
  - right. apply IH.
  - destruct (IH x) as [E|Hin]; [left; exact E | right; right; exact Hin].
Qed.

Lemma median_parts (l : list Q) q :
  Pd.median l = Some q ->
  In q l \/ exists a b, In a l /\ In b l /\ q = ((a + b) / 2)%Q.
Proof.
  unfold Pd.median.
  pose proof (isort_perm Qle_bool l) as Hp.
  set (s := Pd.isort Qle_bool l) in *.
  destruct (length s) as [|n] eqn:En; [discriminate |].
  assert (Hnth : forall i, (i < length s)%nat -> In (nth i s 0%Q) l).
  { intros i Hi. eapply Permutation_in; [exact Hp | apply nth_In, Hi]. }
  assert (Hhalf : (S n / 2 < S n)%nat) by (apply Nat.div_lt; lia).
  destruct (Nat.even (S n)).
  - intros [= <-]. right. eexists _, _. split; [| split; [| reflexivity]];
      apply Hnth; rewrite En; [eapply Nat.le_lt_trans; [apply Nat.le_sub_l |] |];
      exact Hhalf.
  - intros [= <-]. left. apply Hnth. rewrite En. exact Hhalf.
Qed.

(** Every reducer returns a value of the group, or for the median the
    mean of two of them. *)
Lemma reducer_parts (m : Prep.method) (l : list Q) q :
  Prep.reducer m l = Some q ->
  In q l \/ exists a b, In a l /\ In b l /\ q = ((a + b) / 2)%Q.
Proof.
  destruct m; cbn [Prep.reducer].
  - apply median_parts.
  - destruct l as [|x l]; [discriminate |]. intros [= <-]. left. apply fold_left_pick.
  - destruct l as [|x l]; [discriminate |]. intros [= <-]. left. apply fold_left_pick'.
  - destruct l as [|x l]; [discriminate |]. intros [= <-]. left. left. reflexivity.
Qed.

Lemma reducer_pos (m : Prep.method) (l : list Q) q :
  (forall x, In x l -> (0 < x)%Q) -> Prep.reducer m l = Some q -> (0 < q)%Q.
Proof.
  intros Hpos Hq. destruct (reducer_parts m l q Hq) as [Hin|[a [b [Ha [Hb ->]]]]].
  - apply Hpos, Hin.
  - apply Qlt_shift_div_l; [reflexivity |].
    rewrite Qmult_0_l. rewrite <- (Qplus_0_r 0).
    apply Qplus_lt_le_compat; [apply Hpos, Ha | apply Qlt_le_weak, Hpos, Hb].
Qed.

Lemma reducer_some_nonempty (m : Prep.method) (l : list Q) :
  is_Some (Prep.reducer m l) -> l <> [].
Proof. intros [q Hq] ->. rewrite reducer_nil in Hq. discriminate. Qed.

(** ** Adding a slice *)

Lemma filter_all_true {A} (p : A -> bool) l :
  (forall x, In x l -> p x = true) -> List.filter p l = l.
Proof.
  induction l as [|x l IH]; intros Hp; [reflexivity |].
  simpl. rewrite (Hp x) by (left; reflexivity).
  rewrite IH by (intros; apply Hp; right; assumption). reflexivity.
Qed.

Lemma traverse_out {A B} (f : A -> Py.result B) l l' :
  Py.traverse f l = Py.Ok l' ->
  forall y, In y l' -> exists x, In x l /\ f x = Py.Ok y.
Proof.
  revert l'. induction l as [|x l IH]; intros l' Hl y Hy.
  - injection Hl as <-. destruct Hy.
  - cbn [Py.traverse] in Hl. destruct (f x) as [y0|] eqn:Ey; [| discriminate].
    destruct (Py.traverse f l) as [ys|]; [| discriminate].
    injection Hl as <-. destruct Hy as [<-|Hy].
    + exists x. split; [left; reflexivity | exact Ey].
    + destruct (IH ys eq_refl y Hy) as [x' [Hx' E]]. exists x'. split; [right |]; assumption.
Qed.

Section adding_a_slice.
Context `{Pd.Runtime}.

Lemma yearfix_out r r' :
  yearfix r = Py.Ok r' ->
  exists v, Prep._ensure_year_cell (Pd.cell r "annee") = Py.Ok v
            /\ r' = <["annee" := v]> r.
Proof.
  unfold yearfix. destruct (Prep._ensure_year_cell (Pd.cell r "annee")) as [v|];
    cbn [mbind result_bind Py.bind mret result_ret]; [| discriminate].
  intros [= <-]. eauto.
Qed.

Lemma rs_shape l rs :
  Py.traverse yearfix l = Py.Ok rs ->
  forall r0, In r0 rs ->
    Pd.cell r0 "annee" = Pd.NA \/ exists z, Pd.cell r0 "annee" = Pd.Num (inject_Z z).
Proof.
  intros Hrs r0 Hr0. destruct (traverse_out _ _ _ Hrs r0 Hr0) as [x [_ Ex]].
  apply yearfix_out in Ex as [v [Ev ->]]. rewrite cell_insert_eq.
  eapply ensure_year_shape, Ev.
Qed.

Lemma yframe_row (df : Pd.DataFrame) rs r :
  In r (Pd.rows (yframe df rs)) ->
  exists r0, In r0 rs /\ r = numfix (deptfix r0)
             /\ Pd.cell r "annee" <> Pd.NA /\ Pd.cell r "npop" <> Pd.NA.
Proof.
  unfold yframe. cbn [Pd.dropna Pd.select Pd.assign Pd.rows].
  intros Hr. apply filter_In in Hr as [Hr Hnn].
  apply in_map_iff in Hr as [r1 [<- Hr1]].
  apply scoped_row_shape in Hr1 as [r0 [Hr0 ->]].
  exists r0. split; [exact Hr0 |]. split; [reflexivity |].
  cbn [forallb] in Hnn. apply andb_prop in Hnn as [Ha Hnn].
  apply andb_prop in Hnn as [Hn _].
  split; intros E; [rewrite E in Ha | rewrite E in Hn]; discriminate.
Qed.

Lemma numfix_deptfix_cells r0 :
  Pd.cell (numfix (deptfix r0)) "annee" = Pd.cell r0 "annee"
  /\ Pd.cell (numfix (deptfix r0)) "dept" = Pd.cell (deptfix r0) "dept"
  /\ Pd.cell (numfix (deptfix r0)) "npop" = Pd.to_numeric (Pd.cell r0 "npop").
Proof.
  unfold numfix, deptfix. split; [| split].
  - rewrite !cell_insert_ne by discriminate. reflexivity.
  - rewrite cell_insert_ne by discriminate. reflexivity.
  - rewrite cell_insert_eq, cell_insert_ne by discriminate. reflexivity.
Qed.

Lemma yframe_key (df : Pd.DataFrame) l rs r :
  Py.traverse yearfix l = Py.Ok rs ->
  In r (Pd.rows (yframe df rs)) ->
  Spec.slice_key (Pd.has_col df "cla_age_5") r
  = Pd.row_key ("annee" :: slice_cols df) r
  /\ exists z, Pd.cell r "annee" = Pd.Num (inject_Z z).
Proof.
  intros Hrs Hr. destruct (yframe_row df rs r Hr) as [r0 [Hr0 [-> [Hy _]]]].
  destruct (numfix_deptfix_cells r0) as [Ea [Ed _]].
  assert (Hs : Pd.cell (numfix (deptfix r0)) "annee" = Pd.NA
               \/ exists z, Pd.cell (numfix (deptfix r0)) "annee" = Pd.Num (inject_Z z)).
  { rewrite Ea. eapply rs_shape; eassumption. }
  split.
  - unfold slice_cols. destruct (Pd.has_col df "cla_age_5");
      apply slice_key_normal; try exact Hs; rewrite Ed; apply deptfix_normal.
  - destruct Hs as [E|Hz]; [contradiction | exact Hz].
Qed.

Lemma yframe_plain_year (df : Pd.DataFrame) rs :
  Pd.categories (yframe df rs) !! "annee" = None.
Proof.
  unfold yframe. cbn [Pd.dropna Pd.select Pd.assign scoped Pd.categories].
  rewrite !lookup_delete_ne by discriminate. apply lookup_delete_eq.
Qed.

Context (A : Pd.DataFrame) (k0 : list Pd.value).
Let b := Pd.has_col A "cla_age_5".
Let B := Spec.without_slice k0 A.

Lemma without_slice_required : Pd.issubset Prep.required B = Pd.issubset Prep.required A.
Proof. reflexivity. Qed.

Lemma without_slice_rows : Pd.rows B = List.filter (outside b k0) (Pd.rows A).
Proof. reflexivity. Qed.

Lemma traverse_without rsA :
  Py.traverse yearfix (Pd.rows A) = Py.Ok rsA ->
  Py.traverse yearfix (Pd.rows B) = Py.Ok (List.filter (outside b k0) rsA).
Proof.
  intros HA. rewrite without_slice_rows. apply traverse_filter; [| exact HA].
  intros x y Exy. unfold outside. rewrite (slice_key_yearfix b x y Exy). reflexivity.
Qed.

Lemma traverse_with rsB :
  Py.traverse yearfix (Pd.rows B) = Py.Ok rsB ->
  exists rsA, Py.traverse yearfix (Pd.rows A) = Py.Ok rsA.
Proof.
  rewrite without_slice_rows. apply traverse_unfilter.
  intros x _ Hout. unfold outside in Hout.
  apply negb_false_iff, bool_decide_eq_true in Hout.
  unfold Spec.slice_key in Hout. unfold yearfix.
  destruct (Prep._ensure_year_cell (Pd.cell x "annee")); [| discriminate].
  eexists; reflexivity.
Qed.

Lemma yframe_outside rsA :
  Pd.rows (yframe B (List.filter (outside b k0) rsA))
  = List.filter (outside b k0) (Pd.rows (yframe A rsA)).
Proof.
  unfold yframe. cbn [Pd.dropna Pd.select Pd.assign Pd.rows].
  rewrite (scoped_outside b k0 A B rsA) by reflexivity.
  change (fun r : gmap string Pd.value => <["npop" := Pd.to_numeric (Pd.cell r "npop")]> r)
    with numfix.
  rewrite <- (filter_map_inv (outside b k0) numfix)
    by (intros r; unfold outside; rewrite slice_key_numfix; reflexivity).
  apply filter_comm.
Qed.

Lemma yframe_categories rsA rsB :
  Pd.categories (yframe B rsB) = Pd.categories (yframe A rsA).
Proof. reflexivity. Qed.

Section groups.
Context (rsA : list (gmap string Pd.value)).
Hypothesis HrsA : Py.traverse yearfix (Pd.rows A) = Py.Ok rsA.

Let tA := yframe A rsA.
Let tB := yframe B (List.filter (outside b k0) rsA).
Let KS := "annee" :: slice_cols A.

Lemma tB_rows : Pd.rows tB = List.filter (outside b k0) (Pd.rows tA).
Proof. apply yframe_outside. Qed.

Lemma tB_sub r : In r (Pd.rows tB) -> In r (Pd.rows tA).
Proof. rewrite tB_rows, filter_In. tauto. Qed.

Lemma group_other k : k <> k0 -> Pd.group KS k tB = Pd.group KS k tA.
Proof.
  intros Hne. unfold Pd.group. rewrite tB_rows, filter_comm.
  apply filter_all_true. intros r Hr. apply filter_In in Hr as [Hr Hk].
  apply bool_decide_eq_true in Hk.
  destruct (yframe_key A _ rsA r HrsA Hr) as [Es _].
  unfold outside. fold b in Es. rewrite Es. fold KS. rewrite Hk.
  rewrite bool_decide_eq_false_2 by congruence. reflexivity.
Qed.

Lemma group_new : Pd.group KS k0 tB = [].
Proof.
  apply group_nil_outside. intros r Hr Hk.
  pose proof (tB_sub r Hr) as HrA.
  rewrite tB_rows in Hr. apply filter_In in Hr as [_ Hout].
  destruct (yframe_key A _ rsA r HrsA HrA) as [Es _].
  unfold outside in Hout. fold b in Es. rewrite Es in Hout. fold KS in Hout.
  rewrite Hk, bool_decide_eq_true_2 in Hout by reflexivity. discriminate.
Qed.

End groups.
End adding_a_slice.

Lemma In_numbers c rs x :
  In x (Pd.numbers c rs) <-> exists r, In r rs /\ Pd.cell r c = Pd.Num x.
Proof.
  unfold Pd.numbers. rewrite In_omap. split; intros [r [Hr E]]; exists r; split;
    try exact Hr.
  - destruct (Pd.cell r c); try discriminate. injection E as ->. reflexivity.
  - rewrite E. reflexivity.
Qed.

Lemma union_of_no_union y : Spec.union_of Prep.no_union y = None.
Proof. reflexivity. Qed.

Lemma empty_false_iff (df : Pd.DataFrame) : Pd.empty df = false <-> Pd.rows df <> [].
Proof. unfold Pd.empty. destruct (Pd.rows df); split; congruence. Qed.

Section by_year_monotone.
Context `{Pd.Runtime}.

(** The population of the rows of slice [k], after the year conversion,
    is what the raw rows of the slice hold. *)
Lemma slice_group_positive (A : Pd.DataFrame) (k : list Pd.value) rsA r :
  (forall x, In x (Pd.rows A) ->
     Spec.slice_key (Pd.has_col A "cla_age_5") x = Some k ->
     exists q, Pd.to_numeric (Pd.cell x "npop") = Pd.Num q /\ (0 < q)%Q) ->
  Py.traverse yearfix (Pd.rows A) = Py.Ok rsA ->
  In r rsA ->
  Spec.slice_key (Pd.has_col A "cla_age_5") (numfix (deptfix r)) = Some k ->
  exists q, Pd.cell (numfix (deptfix r)) "npop" = Pd.Num q /\ (0 < q)%Q.
Proof.
  intros Hpos HrsA Hr Hk.
  destruct (traverse_out _ _ _ HrsA r Hr) as [x [Hx Ex]].
  rewrite slice_key_numfix, slice_key_deptfix, (slice_key_yearfix _ x r Ex) in Hk.
  destruct (Hpos x Hx Hk) as [q [Eq Hq]]. exists q. split; [| exact Hq].
  destruct (numfix_deptfix_cells r) as [_ [_ ->]].
  apply yearfix_out in Ex as [v [_ ->]].
  rewrite cell_insert_ne by discriminate. exact Eq.
Qed.

(** By-year monotonicity. Take a table and the key [k] of a slice (a
    year, a normalised department code and, when the table has the
    column, an age class) in which every row has a positive population.
    If the by-year union of the table without the rows of that slice
    reports a total for a year, the by-year union of the whole table
    reports one too, and it is at least as large. *)
Theorem by_year_monotone (ext : Pd.DataFrame) (k : list Pd.value)
  (m : Prep.method) (year : Z) (res : Pd.DataFrame) (t : Q) :
  (forall x, In x (Pd.rows ext) ->
     Spec.slice_key (Pd.has_col ext "cla_age_5") x = Some k ->
     exists q, Pd.to_numeric (Pd.cell x "npop") = Pd.Num q /\ (0 < q)%Q) ->
  Prep.population_union_by_year (Spec.without_slice k ext) m = Py.Ok res ->
  Spec.union_of res year = Some t ->
  exists res' t',
    Prep.population_union_by_year ext m = Py.Ok res'
    /\ Spec.union_of res' year = Some t'
    /\ (t <= t')%Q.
Proof.
  intros Hpos Hres Ht.
  set (B := Spec.without_slice k ext) in *.
  set (b := Pd.has_col ext "cla_age_5") in *.
  destruct (Pd.issubset Prep.required ext) eqn:Hreq.
  2: { unfold Prep.population_union_by_year in Hres.
       change (Pd.issubset Prep.required B) with (Pd.issubset Prep.required ext) in Hres.
       rewrite Hreq in Hres. injection Hres as <-. discriminate. }
  assert (HreqB : Pd.issubset Prep.required B = true) by exact Hreq.
  destruct (Py.traverse yearfix (Pd.rows B)) as [rsB|e] eqn:HrsB.
  2: { rewrite (by_year_raises B m e HreqB HrsB) in Hres. discriminate. }
  destruct (traverse_with ext k rsB HrsB) as [rsA HrsA].
  pose proof (traverse_without ext k rsA HrsA) as HrsB'.
  fold B b in HrsB'. rewrite HrsB in HrsB'. injection HrsB' as ->.
  rewrite (by_year_unfold B m _ HreqB HrsB) in Hres.
  set (tA := yframe ext rsA).
  set (tB := yframe B (List.filter (outside b k) rsA)) in *.
  set (KS := "annee" :: slice_cols ext).
  change (slice_cols B) with (slice_cols ext) in Hres. fold KS in Hres.
  destruct (Pd.empty tB) eqn:EB; [injection Hres as <-; discriminate |].
  assert (Hsub : forall r, In r (Pd.rows tB) -> In r (Pd.rows tA))
    by (apply tB_sub).
  assert (EA : Pd.empty tA = false).
  { apply empty_false_iff. apply empty_false_iff in EB.
    destruct (Pd.rows tB) as [|r rs] eqn:Er; [congruence |].
    intros EA. specialize (Hsub r (or_introl eq_refl)). rewrite EA in Hsub.
    destruct Hsub. }
  (* both series, looked up *)
  destruct (by_year_lookup tB (slice_cols ext) (Prep.reducer m)
              (yframe_plain_year B _)
              (fun r Hr => proj2 (yframe_key B _ _ r HrsB Hr)) year)
    as [resB [EresB HuB]].
  fold KS in EresB, HuB. rewrite EresB in Hres. injection Hres as ->.
  destruct (by_year_lookup tA (slice_cols ext) (Prep.reducer m)
              (yframe_plain_year ext _)
              (fun r Hr => proj2 (yframe_key ext _ _ r HrsA Hr)) year)
    as [resA [EresA HuA]].
  fold KS in EresA, HuA.
  rewrite Ht in HuB.
  destruct (existsb (head_is year) (Pd.group_keys tB KS)) eqn:ExB; [| discriminate].
  injection HuB as ->.
  assert (ExA : existsb (head_is year) (Pd.group_keys tA KS) = true).
  { apply existsb_exists in ExB as [k1 [Hk1 Hh]]. apply existsb_exists.
    exists k1. split; [| exact Hh].
    eapply group_keys_mono; [| exact Hsub | exact Hk1]. reflexivity. }
  rewrite ExA in HuA.
  eexists resA, _. split.
  { rewrite (by_year_unfold ext m rsA Hreq HrsA). fold tA. rewrite EA. exact EresA. }
  split; [exact HuA |].
  set (gA := fun k1 => if head_is year k1
                       then Prep.reducer m (Pd.numbers "npop" (Pd.group KS k1 tA))
                       else None).
  set (gB := fun k1 => if head_is year k1
                       then Prep.reducer m (Pd.numbers "npop" (Pd.group KS k1 tB))
                       else None).
  assert (Hsupp : forall (t0 : Pd.DataFrame) k1,
            is_Some (if head_is year k1
                     then Prep.reducer m (Pd.numbers "npop" (Pd.group KS k1 t0))
                     else None) ->
            In k1 (Pd.group_keys t0 KS)).
  { intros t0 k1 Hs. destruct (head_is year k1); [| destruct Hs; discriminate].
    apply reducer_some_nonempty in Hs.
    destruct (Pd.numbers "npop" (Pd.group KS k1 t0)) as [|x xs] eqn:En; [congruence |].
    assert (Hx : In x (Pd.numbers "npop" (Pd.group KS k1 t0)))
      by (rewrite En; left; reflexivity).
    apply In_numbers in Hx as [r [Hr _]]. unfold Pd.group in Hr.
    apply filter_In in Hr as [Hr Hk]. apply bool_decide_eq_true in Hk.
    eapply row_key_in_group_keys; eassumption. }
  assert (Hsum : (Pd.sum (omap gA (Pd.group_keys tA KS))
                  == Pd.sum (omap gB (Pd.group_keys tB KS)) + default 0 (gA k))%Q).
  { apply sum_add_key.
    - apply NoDup_group_keys.
    - apply NoDup_group_keys.
    - intros k1 Hne. unfold gA, gB.
      assert (Eg : Pd.group KS k1 tB = Pd.group KS k1 tA)
        by (apply group_other; assumption).
      rewrite Eg. reflexivity.
    - unfold gB.
      assert (Eg : Pd.group KS k tB = []) by (apply group_new; assumption).
      rewrite Eg. destruct (head_is year k); [apply reducer_nil | reflexivity].
    - intros k1. apply (Hsupp tA).
    - intros k1. apply (Hsupp tB). }
  rewrite Hsum. rewrite <- (Qplus_0_r (Pd.sum (omap gB (Pd.group_keys tB KS)))) at 1.
  apply Qplus_le_r.
  unfold gA. destruct (head_is year k); [| apply Qle_refl].
  destruct (Prep.reducer m (Pd.numbers "npop" (Pd.group KS k tA))) as [q|] eqn:Eq;
    [| apply Qle_refl].
  apply Qlt_le_weak. eapply reducer_pos; [| exact Eq].
  intros x Hx. apply In_numbers in Hx as [r [Hr Ex]].
  unfold Pd.group in Hr. apply filter_In in Hr as [Hr Hk].
  apply bool_decide_eq_true in Hk.
  destruct (yframe_key ext _ rsA r HrsA Hr) as [Es _].
  fold KS in Es. rewrite Hk in Es.
  destruct (yframe_row ext rsA r Hr) as [r0 [Hr0 [-> _]]].
  destruct (slice_group_positive ext k rsA r0 Hpos HrsA Hr0 Es) as [q' [Eq' Hq']].
  rewrite Eq' in Ex. injection Ex as <-. exact Hq'.
Qed.

End by_year_monotone.

(** Two slices of one year. *)
Definition two_slices : Pd.DataFrame :=
  {| Pd.columns := ["annee"; "dept"; "cla_age_5"; "npop"]; Pd.categories := ∅;
     Pd.rows := [Ex.row_of [("annee", Pd.Num 2023); ("dept", Pd.Str "001");
                            ("cla_age_5", Pd.Str "0-4"); ("npop", Pd.Num 1000)];
                 Ex.row_of [("annee", Pd.Num 2023); ("dept", Pd.Str "2");
                            ("cla_age_5", Pd.Str "0-4"); ("npop", Pd.Num 500)]] |}.

Definition second_slice : list Pd.value :=
  [Pd.Num 2023; Pd.Str "002"; Pd.Str "0-4"].

Lemma second_slice_positive :
  forall x, In x (Pd.rows two_slices) ->
    Spec.slice_key (H := example_runtime) (Pd.has_col two_slices "cla_age_5") x
    = Some second_slice ->
    exists q, Pd.to_numeric (H := example_runtime) (Pd.cell x "npop") = Pd.Num q
              /\ (0 < q)%Q.
Proof.
  intros x [<-|[<-|[]]] Hk.
  - vm_compute in Hk. discriminate Hk.
  - exists 500%Q. split; [vm_compute; reflexivity | reflexivity].
Qed.

Lemma by_year_monotone_witness :
  exists res' t',
    Prep.population_union_by_year (H := example_runtime) two_slices Prep.Median
    = Py.Ok res'
    /\ Spec.union_of res' 2023 = Some t'
    /\ (1000 <= t')%Q.
Proof.
  apply (by_year_monotone (H := example_runtime) two_slices second_slice Prep.Median 2023
           (returned Prep.no_union
              (Prep.population_union_by_year (H := example_runtime)
                 (Spec.without_slice (H := example_runtime) second_slice two_slices)
                 Prep.Median))
           1000%Q).
  - exact second_slice_positive.
  - apply returned_ok. vm_compute. reflexivity.
  - vm_compute. reflexivity.
Defined.

(** ** One slice in the single-year union *)


Lemma omap_all_none {A B} (g : A -> option B) l :
  (forall x, In x l -> g x = None) -> omap g l = [].
Proof.
  induction l as [|x l IH]; intros Hg; [reflexivity |].
  simpl. rewrite (Hg x) by (left; reflexivity).
  apply IH. intros; apply Hg; right; assumption.
Qed.


Section one_slice.
Context `{Pd.Runtime}.

Lemma sframe_rows (df : Pd.DataFrame) year rs :
  Pd.rows (sframe df year rs)
  = List.filter (fun r => forallb (fun c => negb (Pd.isna (Pd.cell r c))) ["npop"])
      (map numfix
         (List.filter (fun r => Prep.year_is year (Pd.cell r "annee"))
            (Pd.rows (scoped df rs)))).
Proof. reflexivity. Qed.

Lemma sframe_row (df : Pd.DataFrame) year rs r :
  In r (Pd.rows (sframe df year rs)) ->
  exists r0, In r0 rs /\ r = numfix (deptfix r0)
             /\ Prep.year_is year (Pd.cell r0 "annee") = true.
Proof.
  rewrite sframe_rows. intros Hr. apply filter_In in Hr as [Hr _].
  apply in_map_iff in Hr as [r1 [<- Hr1]]. apply filter_In in Hr1 as [Hr1 Hy].
  apply scoped_row_shape in Hr1 as [r0 [Hr0 ->]].
  exists r0. split; [exact Hr0 |]. split; [reflexivity |].
  unfold deptfix in Hy. rewrite cell_insert_ne in Hy by discriminate. exact Hy.
Qed.












Lemma traverse_in {X Y} (f : X -> Py.result Y) l l' :
  Py.traverse f l = Py.Ok l' ->
  forall x, In x l -> exists y, In y l' /\ f x = Py.Ok y.
Proof.
  revert l'. induction l as [|a l IH]; intros l' Hl x Hx; [destruct Hx |].
  cbn [Py.traverse] in Hl. destruct (f a) as [y0|] eqn:Ey; [| discriminate].
  destruct (Py.traverse f l) as [ys|]; [| discriminate].
  injection Hl as <-. destruct Hx as [<-|Hx].
  - exists y0. split; [left; reflexivity | exact Ey].
  - destruct (IH ys eq_refl x Hx) as [y [Hy E]]. exists y. split; [right |]; assumption.
Qed.

(** The support of the per-slice reduction lies in the group keys. *)
Lemma reducer_support (m : Prep.method) (t0 : Pd.DataFrame) cs k1 :
  is_Some (Prep.reducer m (Pd.numbers "npop" (Pd.group cs k1 t0))) ->
  In k1 (Pd.group_keys t0 cs).
Proof.
  intros Hs. apply reducer_some_nonempty in Hs.
  destruct (Pd.numbers "npop" (Pd.group cs k1 t0)) as [|x xs] eqn:En; [congruence |].
  assert (Hx : In x (Pd.numbers "npop" (Pd.group cs k1 t0)))
    by (rewrite En; left; reflexivity).
  apply In_numbers in Hx as [r [Hr _]]. unfold Pd.group in Hr.
  apply filter_In in Hr as [Hr Hk]. apply bool_decide_eq_true in Hk.
  eapply row_key_in_group_keys; eassumption.
Qed.


End one_slice.

(** One department reported once, another reported twice with different
    populations. *)
Definition reported_twice : Pd.DataFrame :=
  {| Pd.columns := ["annee"; "dept"; "cla_age_5"; "npop"]; Pd.categories := ∅;
     Pd.rows := [Ex.row_of [("annee", Pd.Num 2023); ("dept", Pd.Str "001");
                            ("cla_age_5", Pd.Str "0-4"); ("npop", Pd.Num 1000)];
                 Ex.row_of [("annee", Pd.Num 2023); ("dept", Pd.Str "2");
                            ("cla_age_5", Pd.Str "0-4"); ("npop", Pd.Num 500)];
                 Ex.row_of [("annee", Pd.Num 2023); ("dept", Pd.Str "002");
                            ("cla_age_5", Pd.Str "0-4"); ("npop", Pd.Str "700")]] |}.


(** ** The by-year series against the single-year union *)

Lemma filter_filter_and {A} (p q : A -> bool) l :
  List.filter p (List.filter q l) = List.filter (fun x => q x && p x) l.
Proof.
  induction l as [|x l IH]; simpl; [reflexivity |].
  destruct (q x); simpl; [destruct (p x) |]; rewrite IH; reflexivity.
Qed.

Lemma omap_map {A B C} (g : B -> option C) (f : A -> B) l :
  omap g (map f l) = omap (fun x => g (f x)) l.
Proof.
  induction l as [|x l IH]; [reflexivity |].
  simpl. destruct (g (f x)); [f_equal |]; exact IH.
Qed.

Lemma NoDup_map_cons {A} (a : A) (l : list (list A)) :
  NoDup l -> NoDup (map (cons a) l).
Proof.
  intros Hn. induction Hn as [|x l Hx Hn IH]; simpl; constructor; [| exact IH].
  rewrite list_elem_of_In, in_map_iff. intros [y [E Hy]].
  injection E as ->. apply Hx, list_elem_of_In, Hy.
Qed.

(** A group key over a plain year column starts with the year of a row. *)
Lemma year_key_row (tmp : Pd.DataFrame) (KS' : list string) k :
  Pd.categories tmp !! "annee" = None ->
  In k (Pd.group_keys tmp ("annee" :: KS')) ->
  exists r, In r (Pd.rows tmp) /\ Pd.key_of (Pd.cell r "annee") = Some (hd Pd.NA k).
Proof.
  intros Hplain. unfold Pd.group_keys. destruct (existsb _ _).
  - intros Hk. apply In_product in Hk. cbn [map] in Hk.
    inversion Hk as [|? v ? k' Hv _]; subst.
    unfold Pd.levels in Hv. rewrite Hplain in Hv.
    apply In_isort, In_unique, In_omap in Hv as [r [Hr Ev]]. eauto.
  - intros Hk. apply In_isort, In_unique, In_omap in Hk as [r [Hr Ek]].
    rewrite row_key_cons in Ek. exists r. split; [exact Hr |].
    destruct (Pd.key_of (Pd.cell r "annee")) as [v|]; [| discriminate].
    destruct (Pd.row_key KS' r) as [k'|]; [| discriminate].
    injection Ek as <-. reflexivity.
Qed.

Section series_and_year.
Context `{Pd.Runtime}.

(** The rows of one year's slice are the same in both frames. *)
Lemma group_year (df : Pd.DataFrame) l rs year k2 :
  Py.traverse yearfix l = Py.Ok rs ->
  Pd.group ("annee" :: slice_cols df) (Pd.Num (inject_Z year) :: k2) (yframe df rs)
  = Pd.group (slice_cols df) k2 (sframe df year rs).
Proof.
  intros Hrs. unfold Pd.group. rewrite sframe_rows.
  unfold yframe. cbn [Pd.dropna Pd.select Pd.assign Pd.rows].
  change (fun r : gmap string Pd.value => <["npop" := Pd.to_numeric (Pd.cell r "npop")]> r)
    with numfix.
  rewrite <- (filter_map_inv (fun r => Prep.year_is year (Pd.cell r "annee")) numfix)
    by (intros r; unfold numfix; rewrite cell_insert_ne by discriminate; reflexivity).
  rewrite !filter_filter_and.
  apply filter_ext_in'. intros r Hr.
  apply in_map_iff in Hr as [r1 [<- Hr1]].
  apply scoped_row_shape in Hr1 as [r0 [Hr0 ->]].
  destruct (numfix_deptfix_cells r0) as [Ea _].
  cbn [forallb]. rewrite row_key_cons, !Ea.
  destruct (rs_shape l rs Hrs r0 Hr0) as [E|[z E]]; rewrite !E.
  - reflexivity.
  - cbn [Pd.isna negb Pd.key_of andb]. rewrite Qred_inject_Z.
    destruct (decide (z = year)) as [->|Hne].
    + rewrite (proj2 (year_is_int year year) eq_refl). cbn [andb].
      f_equal. apply bool_decide_ext.
      destruct (Pd.row_key (slice_cols df) (numfix (deptfix r0))) as [k'|].
      * split; intros [= ->]; reflexivity.
      * split; discriminate.
    + assert (Ey : Prep.year_is year (Pd.Num (inject_Z z)) = false).
      { destruct (Prep.year_is year (Pd.Num (inject_Z z))) eqn:Ey; [| reflexivity].
        apply year_is_int in Ey. contradiction. }
      rewrite Ey. cbn [andb]. rewrite bool_decide_eq_false_2; [apply andb_false_r |].
      destruct (Pd.row_key (slice_cols df) (numfix (deptfix r0))); [| discriminate].
      intros [= Ez]. contradiction.
Qed.

(** The series and the single figure agree. If the by-year union of a
    table reports a total for a year, the single-year union of the same
    table for that year, with the same reducer, returns a number, and it
    is that total. *)
Theorem by_year_agrees_for_year (df : Pd.DataFrame) (m : Prep.method)
  (year : Z) (res : Pd.DataFrame) (t' : Q) :
  Prep.population_union_by_year df m = Py.Ok res ->
  Spec.union_of res year = Some t' ->
  exists t,
    Prep.population_union_for_year df year m = Py.Ok (Some t) /\ (t == t')%Q.
Proof.
  intros Hres Ht.
  destruct (Pd.issubset Prep.required df) eqn:Hreq.
  2: { unfold Prep.population_union_by_year in Hres. rewrite Hreq in Hres.
       injection Hres as <-. discriminate. }
  destruct (Py.traverse yearfix (Pd.rows df)) as [rs|e] eqn:Hrs.
  2: { rewrite (by_year_raises df m e Hreq Hrs) in Hres. discriminate. }
  rewrite (by_year_unfold df m rs Hreq Hrs) in Hres.
  rewrite (for_year_unfold df year m rs Hreq Hrs).
  set (tA := yframe df rs) in *.
  set (sA := sframe df year rs).
  set (SC := slice_cols df) in *.
  set (KS := "annee" :: SC) in *.
  destruct (Pd.empty tA); [injection Hres as <-; discriminate |].
  destruct (by_year_lookup tA SC (Prep.reducer m) (yframe_plain_year df _)
              (fun r Hr => proj2 (yframe_key df _ _ r Hrs Hr)) year)
    as [res0 [Eres Hu]].
  fold KS in Eres, Hu. rewrite Eres in Hres. injection Hres as ->.
  rewrite Ht in Hu.
  destruct (existsb (head_is year) (Pd.group_keys tA KS)) eqn:Ex; [| discriminate].
  injection Hu as ->.
  (* a row of that year is in scope *)
  assert (EA : Pd.empty (Pd.select (fun r => Prep.year_is year (Pd.cell r "annee"))
                           (scoped df rs)) = false).
  { apply empty_false_iff. cbn [Pd.select Pd.rows].
    apply existsb_exists in Ex as [k [Hk Hh]].
    apply bool_decide_eq_true in Hh.
    destruct (year_key_row tA SC k (yframe_plain_year df _) Hk) as [r [Hr Er]].
    rewrite Hh in Er.
    destruct (yframe_key df _ _ r Hrs Hr) as [_ [z Ez]].
    rewrite Ez in Er. cbn [Pd.key_of] in Er. rewrite Qred_inject_Z in Er.
    injection Er as Er.
    unfold tA, yframe in Hr. cbn [Pd.dropna Pd.select Pd.assign Pd.rows] in Hr.
    apply filter_In in Hr as [Hr _]. apply in_map_iff in Hr as [r1 [<- Hr1]].
    rewrite cell_insert_ne in Ez by discriminate.
    assert (Hin : In r1 (List.filter (fun r => Prep.year_is year (Pd.cell r "annee"))
                           (Pd.rows (scoped df rs)))).
    { apply filter_In. split; [exact Hr1 |]. rewrite Ez. apply year_is_int, Er. }
    intros E. rewrite E in Hin. destruct Hin. }
  rewrite EA. eexists. split; [reflexivity |].
  set (Y := Pd.Num (inject_Z year)).
  set (gS := fun k2 => Prep.reducer m (Pd.numbers "npop" (Pd.group SC k2 sA))).
  set (gA := fun k => if head_is year k
                      then Prep.reducer m (Pd.numbers "npop" (Pd.group KS k tA))
                      else None).
  assert (Eg : forall k2, gA (Y :: k2) = gS k2).
  { intros k2. unfold gA, gS, head_is, Y. cbn [hd].
    rewrite bool_decide_eq_true_2 by reflexivity.
    unfold KS, tA, SC, sA. rewrite (group_year df _ rs year k2 Hrs). reflexivity. }
  assert (E2 : omap gS (Pd.group_keys sA SC)
               = omap gA (map (cons Y) (Pd.group_keys sA SC))).
  { rewrite omap_map. apply omap_ext_in. intros k2 _. symmetry. apply Eg. }
  fold gS. rewrite E2.
  apply sum_support.
  - apply NoDup_map_cons, NoDup_group_keys.
  - apply NoDup_group_keys.
  - intros k Hs. unfold gA in Hs.
    destruct (head_is year k) eqn:Hh; [| destruct Hs; discriminate].
    split; [| eapply reducer_support; exact Hs].
    unfold head_is in Hh. apply bool_decide_eq_true in Hh.
    destruct k as [|v k2]; [discriminate |]. cbn [hd] in Hh. subst v.
    apply in_map.
    assert (Eg' : Pd.group KS (Pd.Num (inject_Z year) :: k2) tA = Pd.group SC k2 sA)
      by (apply (group_year df _ rs year k2 Hrs)).
    rewrite Eg' in Hs. eapply reducer_support. exact Hs.
Qed.

End series_and_year.

Lemma by_year_agrees_for_year_witness :
  exists t,
    Prep.population_union_for_year (H := example_runtime) reported_twice 2023 Prep.Max
    = Py.Ok (Some t)
    /\ (t == 1700)%Q.
Proof.
  apply (by_year_agrees_for_year (H := example_runtime) reported_twice Prep.Max 2023
           (returned Prep.no_union
              (Prep.population_union_by_year (H := example_runtime)
                 reported_twice Prep.Max))).
  - apply returned_ok. vm_compute. reflexivity.
  - vm_compute. reflexivity.
Defined.

(** ** The audit of a year *)

Lemma unique_all_equal {A} `{EqDecision A} (l : list A) x y :
  (length (Pd.unique l) <= 1)%nat -> In x l -> In y l -> x = y.
Proof.
  intros Hlen Hx Hy. apply In_unique in Hx, Hy.
  destruct (Pd.unique l) as [|a [|b u]]; simpl in Hlen; [destruct Hx | | lia].
  destruct Hx as [<-|[]], Hy as [<-|[]]. reflexivity.
Qed.

Lemma nunique_one (l : list Q) x y :
  (Pd.nunique l <= 1)%nat -> In x l -> In y l -> (x == y)%Q.
Proof.
  intros Hn Hx Hy.
  assert (E : Qred x = Qred y)
    by (apply (unique_all_equal (map Qred l)); [exact Hn | |]; apply in_map; assumption).
  rewrite <- (Qred_correct x), <- (Qred_correct y), E. reflexivity.
Qed.

Lemma reducer_nonempty (m : Prep.method) (l : list Q) :
  l <> [] -> is_Some (Prep.reducer m l).
Proof.
  intros Hl. destruct l as [|x l]; [congruence |].
  destruct m; cbn [Prep.reducer]; try (eexists; reflexivity).
  unfold Pd.median.
  pose proof (Permutation_length (isort_perm Qle_bool (x :: l))) as Hlen.
  destruct (length (Pd.isort Qle_bool (x :: l))); [discriminate |].
  destruct (Nat.even _); eexists; reflexivity.
Qed.

(** On a group that holds one number, however often, every reducer
    returns it. *)
Lemma reducer_single (m m' : Prep.method) (l : list Q) :
  (Pd.nunique l <= 1)%nat ->
  Spec.same_figure (Prep.reducer m l) (Prep.reducer m' l).
Proof.
  intros Hn. destruct l as [|c l]; [rewrite !reducer_nil; exact I |].
  assert (Hc : forall mm q, Prep.reducer mm (c :: l) = Some q -> (q == c)%Q).
  { intros mm q Hq.
    destruct (reducer_parts mm _ q Hq) as [Hin|[a [b [Ha [Hb ->]]]]].
    - apply (nunique_one (c :: l)); [exact Hn | exact Hin | left; reflexivity].
    - rewrite (nunique_one (c :: l) a c Hn Ha (or_introl eq_refl)).
      rewrite (nunique_one (c :: l) b c Hn Hb (or_introl eq_refl)).
      field. }
  destruct (reducer_nonempty m (c :: l)) as [q Eq]; [discriminate |].
  destruct (reducer_nonempty m' (c :: l)) as [q' Eq']; [discriminate |].
  rewrite Eq, Eq'. cbn [Spec.same_figure].
  rewrite (Hc m q Eq), (Hc m' q' Eq'). reflexivity.
Qed.

Lemma sum_omap_same {K} (g g' : K -> option Q) (ks : list K) :
  (forall k, In k ks -> Spec.same_figure (g k) (g' k)) ->
  (Pd.sum (omap g ks) == Pd.sum (omap g' ks))%Q.
Proof.
  induction ks as [|k ks IH]; intros Hs; [reflexivity |].
  assert (IH' : (Pd.sum (omap g ks) == Pd.sum (omap g' ks))%Q)
    by (apply IH; intros; apply Hs; right; assumption).
  pose proof (Hs k (or_introl eq_refl)) as Hk.
  change (omap g (k :: ks)) with (match g k with Some q => q :: omap g ks | None => omap g ks end).
  change (omap g' (k :: ks)) with (match g' k with Some q => q :: omap g' ks | None => omap g' ks end).
  destruct (g k) as [q|], (g' k) as [q'|]; cbn [Spec.same_figure] in Hk;
    try contradiction; [| exact IH'].
  cbn [Pd.sum fold_right]. fold (Pd.sum (omap g ks)). fold (Pd.sum (omap g' ks)).
  rewrite Hk, IH'. reflexivity.
Qed.

Section audit.
Context `{Pd.Runtime}.

Lemma audit_unfold (df : Pd.DataFrame) (year : Z) rs :
  Pd.issubset Prep.required df = true ->
  Py.traverse yearfix (Pd.rows df) = Py.Ok rs ->
  Prep.population_union_audit df year
  = if Pd.empty (sframe df year rs)
    then Py.Ok {| Prep.slices := 0; Prep.multi_values := 0 |}
    else
      let counts :=
        map (fun k => Pd.nunique
                        (Pd.numbers "npop" (Pd.group (slice_cols df) k (sframe df year rs))))
            (Pd.group_keys (sframe df year rs) (slice_cols df)) in
      Py.Ok {| Prep.slices := length counts;
               Prep.multi_values :=
                 length (List.filter (fun n => (1 <? n)%nat) counts) |}.
Proof.
  intros Hreq Hrs. destruct (required_cols df Hreq) as [Ha [Hd _]].
  unfold Prep.population_union_audit. rewrite Hreq. cbn [negb].
  rewrite (scope_unfold df Ha Hd), Hrs. cbn [mbind result_bind Py.bind].
  fold (sframe df year rs). destruct (Pd.empty (sframe df year rs)); [reflexivity |].
  change (Pd.has_col (sframe df year rs) "cla_age_5") with (Pd.has_col df "cla_age_5").
  unfold slice_cols. destruct (Pd.has_col df "cla_age_5"); reflexivity.
Qed.

Lemma audit_raises (df : Pd.DataFrame) (year : Z) e :
  Pd.issubset Prep.required df = true ->
  Py.traverse yearfix (Pd.rows df) = Py.Raise e ->
  Prep.population_union_audit df year = Py.Raise e.
Proof.
  intros Hreq Hrs. destruct (required_cols df Hreq) as [Ha [Hd _]].
  unfold Prep.population_union_audit. rewrite Hreq. cbn [negb].
  rewrite (scope_unfold df Ha Hd), Hrs. reflexivity.
Qed.

(** When the audit of a year finds no slice with more than one
    population value, the choice of reducer does not matter: the
    single-year union returns the same figure (or is not available) under
    any two of them. *)
Theorem audit_single_valued (df : Pd.DataFrame) (year : Z) (a : Prep.audit)
  (m m' : Prep.method) :
  Prep.population_union_audit df year = Py.Ok a ->
  Prep.multi_values a = O ->
  exists r r',
    Prep.population_union_for_year df year m = Py.Ok r
    /\ Prep.population_union_for_year df year m' = Py.Ok r'
    /\ Spec.same_figure r r'.
Proof.
  intros Ha Hm.
  destruct (Pd.issubset Prep.required df) eqn:Hreq.
  2: { unfold Prep.population_union_for_year. rewrite Hreq.
       exists None, None. repeat split. }
  destruct (Py.traverse yearfix (Pd.rows df)) as [rs|e] eqn:Hrs.
  2: { rewrite (audit_raises df year e Hreq Hrs) in Ha. discriminate. }
  rewrite (audit_unfold df year rs Hreq Hrs) in Ha.
  rewrite !(for_year_unfold df year _ rs Hreq Hrs).
  destruct (Pd.empty (Pd.select _ (scoped df rs))).
  { exists None, None. repeat split. }
  eexists _, _. split; [reflexivity |]. split; [reflexivity |].
  cbn [Spec.same_figure]. apply sum_omap_same. intros k Hk.
  destruct (Pd.empty (sframe df year rs)) eqn:Ee.
  - assert (Er : Pd.rows (sframe df year rs) = []).
    { unfold Pd.empty in Ee. destruct (Pd.rows (sframe df year rs)); [reflexivity | discriminate]. }
    unfold Pd.group. rewrite Er. cbn [List.filter Pd.numbers omap list_omap].
    rewrite !reducer_nil. exact I.
  - injection Ha as <-. cbn [Prep.multi_values] in Hm.
    apply reducer_single.
    apply length_zero_iff_nil in Hm.
    set (nu := fun k => Pd.nunique
                 (Pd.numbers "npop" (Pd.group (slice_cols df) k (sframe df year rs)))) in *.
    destruct (Nat.ltb_spec 1 (nu k)) as [Hlt|Hle]; [| exact Hle].
    assert (Hin : In (nu k) (List.filter (fun n => (1 <? n)%nat)
                               (map nu (Pd.group_keys (sframe df year rs) (slice_cols df))))).
    { apply filter_In. split; [apply in_map, Hk | apply Nat.ltb_lt, Hlt]. }
    rewrite Hm in Hin. destruct Hin.
Qed.

End audit.

(** One slice reported twice with the same population, as a number and
    as text. *)
Definition repeated_value : Pd.DataFrame :=
  {| Pd.columns := ["annee"; "dept"; "npop"]; Pd.categories := ∅;
     Pd.rows := [Ex.row_of [("annee", Pd.Num 2023); ("dept", Pd.Str "001");
                            ("npop", Pd.Num 1000)];
                 Ex.row_of [("annee", Pd.Num 2023); ("dept", Pd.Str "1");
                            ("npop", Pd.Str "1000")];
                 Ex.row_of [("annee", Pd.Num 2023); ("dept", Pd.Str "002");
                            ("npop", Pd.Num 500)]] |}.

Lemma audit_single_valued_witness :
  exists r r',
    Prep.population_union_for_year (H := example_runtime) repeated_value 2023 Prep.Median
    = Py.Ok r
    /\ Prep.population_union_for_year (H := example_runtime) repeated_value 2023 Prep.Max
       = Py.Ok r'
    /\ Spec.same_figure r r'.
Proof.
  apply (audit_single_valued (H := example_runtime) repeated_value 2023
           (returned {| Prep.slices := 0; Prep.multi_values := 0 |}
              (Prep.population_union_audit (H := example_runtime) repeated_value 2023))).
  - apply returned_ok. vm_compute. reflexivity.
  - vm_compute. reflexivity.
Defined.

(** ** A year without population figures *)

Section no_population.
Context `{Pd.Runtime}.

Lemma scoped_in (df : Pd.DataFrame) rs r0 :
  In r0 rs ->
  dept_ok (deptfix r0) = true ->
  (Pd.has_col df "cla_age_5" = true ->
   age_len (deptfix r0) = true /\ age_pat (deptfix r0) = true) ->
  In (deptfix r0) (Pd.rows (scoped df rs)).
Proof.
  intros Hr0 Hd Ha. cbn [scoped Pd.rows].
  assert (Hin : In (deptfix r0) (List.filter dept_ok (map deptfix rs)))
    by (apply filter_In; split; [apply in_map, Hr0 | exact Hd]).
  unfold age_filter. destruct (Pd.has_col df "cla_age_5"); [| exact Hin].
  destruct (Ha eq_refl) as [Hl Hp].
  apply filter_In. split; [| exact Hp]. apply filter_In. split; assumption.
Qed.

Variables (df : Pd.DataFrame) (year : Z) (rs : list (gmap string Pd.value)).
Hypothesis Hrs : Py.traverse yearfix (Pd.rows df) = Py.Ok rs.
Hypothesis Hnull : forall x, In x (Pd.rows df) ->
  Prep._ensure_year_cell (Pd.cell x "annee") = Py.Ok (Pd.Num (inject_Z year)) ->
  Pd.to_numeric (Pd.cell x "npop") = Pd.NA.

Lemma no_number r0 :
  In r0 rs -> Pd.cell r0 "annee" = Pd.Num (inject_Z year) ->
  Pd.cell (numfix (deptfix r0)) "npop" = Pd.NA.
Proof.
  intros Hr0 Ey. destruct (numfix_deptfix_cells r0) as [_ [_ ->]].
  destruct (traverse_out _ _ _ Hrs r0 Hr0) as [x [Hx Ex]].
  apply yearfix_out in Ex as [v [Ev ->]].
  rewrite cell_insert_eq in Ey. subst v.
  rewrite cell_insert_ne by discriminate. apply Hnull; assumption.
Qed.

Lemma sframe_no_rows : Pd.rows (sframe df year rs) = [].
Proof.
  destruct (Pd.rows (sframe df year rs)) as [|r l] eqn:E; [reflexivity |].
  assert (Hr : In r (Pd.rows (sframe df year rs))) by (rewrite E; left; reflexivity).
  destruct (sframe_row df year rs r Hr) as [r0 [Hr0 [-> Hy]]].
  rewrite sframe_rows in Hr. apply filter_In in Hr as [_ Hnn].
  cbn [forallb] in Hnn.
  destruct (rs_shape _ _ Hrs r0 Hr0) as [Ea|[z Ea]]; rewrite Ea in Hy; [discriminate |].
  apply year_is_int in Hy. subst z.
  rewrite (no_number r0 Hr0 Ea) in Hnn. discriminate.
Qed.

Lemma yframe_no_year r :
  In r (Pd.rows (yframe df rs)) ->
  Pd.key_of (Pd.cell r "annee") <> Some (Pd.Num (inject_Z year)).
Proof.
  intros Hr Ek.
  destruct (yframe_row df rs r Hr) as [r0 [Hr0 [-> [_ Hn]]]].
  destruct (numfix_deptfix_cells r0) as [Ea _]. rewrite Ea in Ek.
  destruct (rs_shape _ _ Hrs r0 Hr0) as [E|[z E]]; rewrite E in Ek; [discriminate |].
  cbn [Pd.key_of] in Ek. rewrite Qred_inject_Z in Ek. injection Ek as ->.
  apply Hn, (no_number r0 Hr0 E).
Qed.

End no_population.

(** A year whose rows hold no population figure. Take a table with the
    columns annee, dept and npop whose year column converts, in which no
    row of the year holds a number in npop, while one row of the year is
    in scope. The single-year union then returns 0, not NaN, whereas the
    audit counts no slice and the yearly series has no entry for the
    year. *)
Theorem for_year_without_figures `{Pd.Runtime} (df : Pd.DataFrame) (year : Z)
  (m : Prep.method) (r : option Q) :
  Pd.issubset Prep.required df = true ->
  Prep.population_union_for_year df year m = Py.Ok r ->
  (forall x, In x (Pd.rows df) ->
     Prep._ensure_year_cell (Pd.cell x "annee") = Py.Ok (Pd.Num (inject_Z year)) ->
     Pd.to_numeric (Pd.cell x "npop") = Pd.NA) ->
  (exists x, In x (Pd.rows df)
     /\ Prep._ensure_year_cell (Pd.cell x "annee") = Py.Ok (Pd.Num (inject_Z year))
     /\ Spec.in_scope (Pd.has_col df "cla_age_5") x = true) ->
  r = Some 0%Q
  /\ Prep.population_union_audit df year
     = Py.Ok {| Prep.slices := 0; Prep.multi_values := 0 |}
  /\ exists res, Prep.population_union_by_year df m = Py.Ok res
                 /\ Spec.union_of res year = None.
Proof.
  intros Hreq Hres Hnull [x0 [Hx0 [Ey0 Hs0]]].
  destruct (Py.traverse yearfix (Pd.rows df)) as [rs|e] eqn:Hrs.
  2: { rewrite (for_year_raises df year m e Hreq Hrs) in Hres. discriminate. }
  pose proof (sframe_no_rows df year rs Hrs Hnull) as Es.
  split; [| split].
  - rewrite (for_year_unfold df year m rs Hreq Hrs) in Hres.
    assert (EA : Pd.empty (Pd.select (fun r => Prep.year_is year (Pd.cell r "annee"))
                             (scoped df rs)) = false).
    { apply empty_false_iff. cbn [Pd.select Pd.rows].
      destruct (traverse_in _ _ _ Hrs x0 Hx0) as [r0 [Hr0 Ex0]].
      apply yearfix_out in Ex0 as [v [Ev ->]].
      rewrite Ey0 in Ev. injection Ev as <-.
      unfold Spec.in_scope in Hs0. apply andb_prop in Hs0 as [Hd Ha].
      assert (Hin : In (deptfix (<["annee" := Pd.Num (inject_Z year)]> x0))
                      (List.filter (fun r => Prep.year_is year (Pd.cell r "annee"))
                         (Pd.rows (scoped df rs)))).
      { apply filter_In. split.
        - apply scoped_in; [exact Hr0 | |].
          + unfold dept_ok, deptfix.
            rewrite cell_insert_eq, cell_insert_ne by discriminate. exact Hd.
          + intros Eb. rewrite Eb in Ha. unfold Prep.age_ok in Ha.
            apply andb_prop in Ha as [Hl Hp].
            unfold age_len, age_pat, deptfix. rewrite !cell_insert_ne by discriminate.
            split; assumption.
        - unfold deptfix. rewrite cell_insert_ne by discriminate.
          rewrite cell_insert_eq. apply year_is_int. reflexivity. }
      intros E. rewrite E in Hin. destruct Hin. }
    rewrite EA in Hres. injection Hres as <-. f_equal.
    rewrite omap_all_none; [reflexivity |].
    intros k _. unfold Pd.group. rewrite Es. apply reducer_nil.
  - rewrite (audit_unfold df year rs Hreq Hrs). unfold Pd.empty. rewrite Es. reflexivity.
  - rewrite (by_year_unfold df m rs Hreq Hrs).
    destruct (Pd.empty (yframe df rs)); [exists Prep.no_union; split; reflexivity |].
    destruct (by_year_lookup (yframe df rs) (slice_cols df) (Prep.reducer m)
                (yframe_plain_year df _)
                (fun r Hr => proj2 (yframe_key df _ _ r Hrs Hr)) year)
      as [res [Eres Hu]].
    exists res. split; [exact Eres |]. rewrite Hu.
    destruct (existsb _ _) eqn:Ex; [| reflexivity].
    apply existsb_exists in Ex as [k [Hk Hh]]. apply bool_decide_eq_true in Hh.
    destruct (year_key_row _ _ k (yframe_plain_year df _) Hk) as [r1 [Hr1 Er1]].
    rewrite Hh in Er1.
    destruct (yframe_no_year df year rs Hrs Hnull r1 Hr1 Er1).
Qed.

(** The population of 2023 was not reported. *)
Definition figures_missing : Pd.DataFrame :=
  {| Pd.columns := ["annee"; "dept"; "npop"]; Pd.categories := ∅;
     Pd.rows := [Ex.row_of [("annee", Pd.Num 2023); ("dept", Pd.Str "001");
                            ("npop", Pd.Str "n/a")];
                 Ex.row_of [("annee", Pd.Num 2022); ("dept", Pd.Str "001");
                            ("npop", Pd.Num 1000)]] |}.

Lemma for_year_without_figures_witness :
  Some 0%Q = Some 0%Q
  /\ Prep.population_union_audit (H := example_runtime) figures_missing 2023
     = Py.Ok {| Prep.slices := 0; Prep.multi_values := 0 |}
  /\ exists res,
       Prep.population_union_by_year (H := example_runtime) figures_missing Prep.Median
       = Py.Ok res
       /\ Spec.union_of res 2023 = None.
Proof.
  apply (for_year_without_figures (H := example_runtime) figures_missing 2023
           Prep.Median (Some 0%Q)).
  - vm_compute. reflexivity.
  - vm_compute. reflexivity.
  - intros x [<-|[<-|[]]] Hy; [vm_compute; reflexivity | vm_compute in Hy; discriminate Hy].
  - eexists. split; [left; reflexivity |]. split; vm_compute; reflexivity.
Defined.

(** ** The tables the builder returns *)

Lemma nonempty_filter {A} (p : A -> bool) l :
  Prep.nonempty (List.filter p l) = existsb p l.
Proof.
  induction l as [|x l IH]; [reflexivity |].
  simpl. destruct (p x); [reflexivity | exact IH].
Qed.

Lemma issubset_numeric_step `{Pd.Runtime} cs (df : Pd.DataFrame) :
  Pd.issubset cs (Prep.numeric_step df) = Pd.issubset cs df.
Proof.
  unfold Pd.issubset. induction cs as [|c cs IH]; [reflexivity |].
  cbn [forallb]. rewrite has_col_numeric_step, IH. reflexivity.
Qed.

Lemma existsb_numeric_step `{Pd.Runtime} cs (df : Pd.DataFrame) :
  existsb (Pd.has_col (Prep.numeric_step df)) cs = existsb (Pd.has_col df) cs.
Proof.
  induction cs as [|c cs IH]; [reflexivity |].
  cbn [existsb]. rewrite has_col_numeric_step, IH. reflexivity.
Qed.

Lemma add_by_region_weighted_other `{Pd.Runtime} (df : Pd.DataFrame) out k :
  k <> "by_region_weighted" -> Prep.add_by_region_weighted df out !! k = out !! k.
Proof.
  unfold Prep.add_by_region_weighted. intros Hk. destruct (Pd.issubset _ df); [| reflexivity].
  apply lookup_insert_ne. congruence.
Qed.

Lemma add_fine_own `{Pd.Runtime} (df : Pd.DataFrame) out :
  out !! "fine" = None ->
  (is_Some (Prep.add_fine df out !! "fine")
   <-> existsb (Pd.has_col df) ["annee"; "region"; "dept"; "sexe"; "cla_age_5"]
       && existsb (Pd.has_col df) ["ntop"; "npop"; "prev"] = true).
Proof.
  intros Hn. unfold Prep.add_fine. rewrite !nonempty_filter.
  destruct (_ && _).
  - rewrite lookup_insert_eq. split; [reflexivity | eauto].
  - rewrite Hn. split; [intros [x Hx]; discriminate | discriminate].
Qed.

Lemma add_timeseries_own `{Pd.Runtime} (df : Pd.DataFrame) out o :
  Prep.add_timeseries df out = Py.Ok o -> out !! "timeseries" = None ->
  (is_Some (o !! "timeseries") <-> Pd.issubset ["annee"; "prev"] df = true).
Proof.
  unfold Prep.add_timeseries. intros E Hn. destruct (Pd.issubset _ df).
  - destruct (Pd.sort_values _ _ _); cbn [mbind result_bind Py.bind mret result_ret] in E;
      [| discriminate].
    injection E as <-. rewrite lookup_insert_eq. split; [reflexivity | eauto].
  - cbn [mret result_ret] in E. injection E as <-. rewrite Hn.
    split; [intros [x Hx]; discriminate | discriminate].
Qed.

Lemma add_by_region_own `{Pd.Runtime} (df : Pd.DataFrame) out o :
  Prep.add_by_region df out = Py.Ok o -> out !! "by_region" = None ->
  (is_Some (o !! "by_region") <-> Pd.issubset ["region"; "prev"] df = true).
Proof.
  unfold Prep.add_by_region. intros E Hn. destruct (Pd.issubset _ df).
  - destruct (Pd.sort_values _ _ _); cbn [mbind result_bind Py.bind mret result_ret] in E;
      [| discriminate].
    injection E as <-. rewrite lookup_insert_eq. split; [reflexivity | eauto].
  - cbn [mret result_ret] in E. injection E as <-. rewrite Hn.
    split; [intros [x Hx]; discriminate | discriminate].
Qed.

Lemma add_by_region_weighted_own `{Pd.Runtime} (df : Pd.DataFrame) out :
  out !! "by_region_weighted" = None ->
  (is_Some (Prep.add_by_region_weighted df out !! "by_region_weighted")
   <-> Pd.issubset ["region"; "prev"; "npop"] df = true).
Proof.
  intros Hn. unfold Prep.add_by_region_weighted. destruct (Pd.issubset _ df).
  - rewrite lookup_insert_eq. split; [reflexivity | eauto].
  - rewrite Hn. split; [intros [x Hx]; discriminate | discriminate].
Qed.

Lemma add_by_sexe_desc_own `{Pd.Runtime} (df : Pd.DataFrame) out :
  out !! "by_sexe_desc" = None ->
  (is_Some (Prep.add_by_sexe_desc df out !! "by_sexe_desc")
   <-> Pd.issubset ["sexe"; "prev"] df = true).
Proof.
  intros Hn. unfold Prep.add_by_sexe_desc. destruct (Pd.issubset _ df).
  - rewrite lookup_insert_eq. split; [reflexivity | eauto].
  - rewrite Hn. split; [intros [x Hx]; discriminate | discriminate].
Qed.

(** The mapping the table builder returns holds a table exactly when the
    columns that table is computed from are there: the narrow table when
    the frame has one of the five dimensions and one of the three
    measures, the yearly means with [annee] and [prev], the regional
    means with [region] and [prev], the weighted regional means with
    [region], [prev] and [npop], the statistics by sex with [sexe] and
    [prev]; and it holds nothing but these tables and the summary. *)
Theorem make_tables_entries `{Pd.Runtime} (df : Pd.DataFrame)
  (out : gmap string Prep.derived) :
  snd (Prep.make_tables df) = Py.Ok out ->
  (is_Some (out !! "fine")
   <-> existsb (Pd.has_col df) ["annee"; "region"; "dept"; "sexe"; "cla_age_5"]
       && existsb (Pd.has_col df) ["ntop"; "npop"; "prev"] = true)
  /\ (is_Some (out !! "timeseries") <-> Pd.issubset ["annee"; "prev"] df = true)
  /\ (is_Some (out !! "by_region") <-> Pd.issubset ["region"; "prev"] df = true)
  /\ (is_Some (out !! "by_region_weighted")
      <-> Pd.issubset ["region"; "prev"; "npop"] df = true)
  /\ (is_Some (out !! "by_sexe_desc") <-> Pd.issubset ["sexe"; "prev"] df = true)
  /\ (forall k, is_Some (out !! k) ->
        In k ["fine"; "timeseries"; "by_region"; "by_region_weighted";
              "by_sexe_desc"; "dq"]).
Proof.
  cbn [Prep.make_tables snd]. unfold Prep.build.
  set (d := Prep.numeric_step df).
  destruct (Prep.add_timeseries d _) as [o1|] eqn:E1; cbn [mbind result_bind Py.bind];
    [| discriminate].
  destruct (Prep.add_by_region d o1) as [o2|] eqn:E2; cbn [mbind result_bind Py.bind];
    [| discriminate].
  destruct (Prep.summary d) as [dq|];
    cbn [mbind result_bind Py.bind mret result_ret]; [| discriminate].
  intros [= <-].
  assert (Hfine : forall k, k <> "fine" -> Prep.add_fine d ∅ !! k = None)
    by (intros k Hk; rewrite add_fine_other by exact Hk; apply lookup_empty).
  assert (H1 : forall k, k <> "fine" -> k <> "timeseries" -> o1 !! k = None)
    by (intros k Hf Ht; rewrite (add_timeseries_other _ _ _ _ E1) by exact Ht;
        apply Hfine, Hf).
  assert (H2 : forall k, k <> "fine" -> k <> "timeseries" -> k <> "by_region" ->
                 o2 !! k = None)
    by (intros k Hf Ht Hr; rewrite (add_by_region_other _ _ _ _ E2) by exact Hr;
        apply H1; assumption).
  split; [| split; [| split; [| split; [| split]]]].
  - rewrite lookup_insert_ne, add_by_sexe_desc_other, add_by_region_weighted_other
      by discriminate.
    rewrite (add_by_region_other _ _ _ _ E2), (add_timeseries_other _ _ _ _ E1)
      by discriminate.
    rewrite (add_fine_own d ∅) by apply lookup_empty.
    unfold d. rewrite !existsb_numeric_step. reflexivity.
  - rewrite lookup_insert_ne, add_by_sexe_desc_other, add_by_region_weighted_other
      by discriminate.
    rewrite (add_by_region_other _ _ _ _ E2) by discriminate.
    rewrite (add_timeseries_own d _ _ E1) by (apply Hfine; discriminate).
    unfold d. rewrite issubset_numeric_step. reflexivity.
  - rewrite lookup_insert_ne, add_by_sexe_desc_other, add_by_region_weighted_other
      by discriminate.
    rewrite (add_by_region_own d _ _ E2) by (apply H1; discriminate).
    unfold d. rewrite issubset_numeric_step. reflexivity.
  - rewrite lookup_insert_ne, add_by_sexe_desc_other by discriminate.
    rewrite (add_by_region_weighted_own d o2) by (apply H2; discriminate).
    unfold d. rewrite issubset_numeric_step. reflexivity.
  - rewrite lookup_insert_ne by discriminate.
    rewrite (add_by_sexe_desc_own d)
      by (rewrite add_by_region_weighted_other by discriminate; apply H2; discriminate).
    unfold d. rewrite issubset_numeric_step. reflexivity.
  - intros k Hk.
    destruct (decide (k = "dq")) as [->|Hdq]; [in_list |].
    destruct (decide (k = "by_sexe_desc")) as [->|Hs]; [in_list |].
    destruct (decide (k = "by_region_weighted")) as [->|Hw]; [in_list |].
    destruct (decide (k = "by_region")) as [->|Hr]; [in_list |].
    destruct (decide (k = "timeseries")) as [->|Ht]; [in_list |].
    destruct (decide (k = "fine")) as [->|Hf]; [in_list |].
    rewrite lookup_insert_ne, add_by_sexe_desc_other, add_by_region_weighted_other in Hk
      by congruence.
    rewrite H2 in Hk by assumption. destruct Hk; discriminate.
Qed.

Lemma make_tables_entries_witness :
  exists out,
    snd (Prep.make_tables (H := example_runtime) Ex.one_region) = Py.Ok out
    /\ is_Some (out !! "by_region_weighted")
    /\ ~ is_Some (out !! "by_sexe_desc").
Proof.
  exists (returned ∅ (snd (Prep.make_tables (H := example_runtime) Ex.one_region))).
  assert (E : snd (Prep.make_tables (H := example_runtime) Ex.one_region)
              = Py.Ok (returned ∅
                         (snd (Prep.make_tables (H := example_runtime) Ex.one_region)))).
  { apply returned_ok. vm_compute. reflexivity. }
  destruct (make_tables_entries (H := example_runtime) Ex.one_region _ E)
    as [_ [_ [_ [Hw [Hs _]]]]].
  split; [exact E |]. split.
  - apply Hw. vm_compute. reflexivity.
  - intros Hx. apply Hs in Hx. vm_compute in Hx. discriminate Hx.
Defined.

(** ** Department codes from the coercions to the map *)

(** A code written with digits only. *)
Definition digits_only (s : string) : bool := forallb Py.is_digit (Py.to_list s).

Lemma digit_not_space c : Py.is_digit c = true -> Py.is_space c = false.
Proof.
  unfold Py.is_digit, Py.is_space. intros Hd.
  apply andb_prop in Hd as [H1 H2]. apply N.leb_le in H1.
  apply orb_false_iff. split; apply andb_false_iff.
  - right. apply N.leb_gt. lia.
  - right. apply N.leb_gt. lia.
Qed.

Lemma digit_upper c : Py.is_digit c = true -> Py.upper_char c = c.
Proof.
  unfold Py.is_digit, Py.upper_char. intros Hd.
  apply andb_prop in Hd as [_ H2]. apply N.leb_le in H2.
  destruct (andb_false_iff (97 <=? N_of_ascii c)%N (N_of_ascii c <=? 122)%N) as [_ Hf].
  rewrite Hf; [reflexivity |]. left. apply N.leb_gt. lia.
Qed.

Lemma digit_not_sign c :
  Py.is_digit c = true -> Ascii.eqb c "-" = false /\ Ascii.eqb c "+" = false.
Proof.
  intros Hd. split; apply Ascii.eqb_neq; intros ->; vm_compute in Hd; discriminate.
Qed.

Lemma digits_only_cons c s :
  digits_only (String c s) = Py.is_digit c && digits_only s.
Proof. reflexivity. Qed.

Lemma lstrip_digits s : digits_only s = true -> Py.lstrip s = s.
Proof.
  destruct s as [|c s]; [reflexivity |]. rewrite digits_only_cons.
  intros Hd. apply andb_prop in Hd as [Hc _].
  cbn [Py.lstrip]. rewrite (digit_not_space c Hc). reflexivity.
Qed.

Lemma rstrip_digits s : digits_only s = true -> Py.rstrip s = s.
Proof.
  induction s as [|c s IH]; [reflexivity |]. rewrite digits_only_cons.
  intros Hd. apply andb_prop in Hd as [Hc Hs].
  cbn [Py.rstrip]. rewrite (IH Hs), (digit_not_space c Hc).
  destruct s; reflexivity.
Qed.

Lemma strip_digits s : digits_only s = true -> Py.strip s = s.
Proof.
  intros Hd. unfold Py.strip. rewrite (lstrip_digits s Hd). apply rstrip_digits, Hd.
Qed.

Lemma upper_digits s : digits_only s = true -> Py.upper s = s.
Proof.
  induction s as [|c s IH]; [reflexivity |]. rewrite digits_only_cons.
  intros Hd. apply andb_prop in Hd as [Hc Hs].
  cbn [Py.upper]. rewrite (digit_upper c Hc), (IH Hs). reflexivity.
Qed.

Lemma sub_nondigits_digits s : digits_only s = true -> Py.sub_nondigits s = s.
Proof.
  induction s as [|c s IH]; [reflexivity |]. rewrite digits_only_cons.
  intros Hd. apply andb_prop in Hd as [Hc Hs].
  cbn [Py.sub_nondigits]. rewrite Hc, (IH Hs). reflexivity.
Qed.

Lemma digits_only_zeros k s :
  digits_only s = true -> digits_only (Py.zeros k ++ s) = true.
Proof. intros Hs. induction k as [|k IH]; [exact Hs | exact IH]. Qed.

(** Padding a code of digits puts zeros in front of it. *)
Lemma zfill_digits w s :
  digits_only s = true -> s <> "" -> exists k, Py.zfill w s = Py.zeros k ++ s.
Proof.
  intros Hd Hne. unfold Py.zfill.
  destruct (w <=? String.length s)%nat; [exists O; reflexivity |].
  destruct s as [|c s]; [congruence |].
  rewrite digits_only_cons in Hd. apply andb_prop in Hd as [Hc _].
  destruct (digit_not_sign c Hc) as [-> ->]. cbn [orb]. eexists; reflexivity.
Qed.

Lemma digits_tail_digits (l : list ascii) :
  forallb Py.is_digit l = true -> Py.digits_tail l = (map Py.digit_val l, []).
Proof.
  induction l as [|c l IH]; [reflexivity |].
  cbn [forallb]. intros Hd. apply andb_prop in Hd as [Hc Hl].
  cbn [Py.digits_tail]. rewrite Hc, (IH Hl). reflexivity.
Qed.

(** [int] reads a code of digits as its decimal value. *)
Lemma int_of_digits s :
  digits_only s = true -> s <> "" ->
  Py.int_of_string s = Some (Py.digits_value (map Py.digit_val (Py.to_list s))).
Proof.
  intros Hd Hne. unfold Py.int_of_string. rewrite (strip_digits s Hd).
  destruct s as [|c s]; [congruence |].
  pose proof Hd as Hd'. rewrite digits_only_cons in Hd'.
  apply andb_prop in Hd' as [Hc Hs].
  cbn [Py.to_list Py.opt_sign]. destruct (digit_not_sign c Hc) as [-> ->].
  cbn [Py.digitpart]. rewrite Hc, (digits_tail_digits _ Hs). reflexivity.
Qed.

Lemma digits_value_zeros k s :
  Py.digits_value (map Py.digit_val (Py.to_list (Py.zeros k ++ s)))
  = Py.digits_value (map Py.digit_val (Py.to_list s)).
Proof. induction k as [|k IH]; [reflexivity | exact IH]. Qed.

Lemma digits_not_corsica s :
  digits_only s = true -> (String.eqb s "2A" || String.eqb s "2B")%bool = false.
Proof.
  intros Hd. apply orb_false_iff.
  split; apply String.eqb_neq; intros ->; vm_compute in Hd; discriminate.
Qed.

(** What the map makes of a code of digits: its value, written with two
    digits, or with three from 970 to 989. *)
Lemma norm_digits s :
  digits_only s = true -> s <> "" ->
  MapSection.norm s
  = let n := Py.digits_value (map Py.digit_val (Py.to_list s)) in
    if (970 <=? n) && (n <=? 989) then Py.format_0d 3 (Z.to_N n)
    else Py.format_0d 2 (Z.to_N n).
Proof.
  intros Hd Hne. unfold MapSection.norm.
  rewrite (strip_digits s Hd), (upper_digits s Hd), (digits_not_corsica s Hd).
  rewrite (sub_nondigits_digits s Hd).
  destruct (String.eqb_spec s "") as [E|_]; [congruence |].
  rewrite (int_of_digits s Hd Hne). reflexivity.
Qed.

(** For a code of digits, the three-digit padding of the coercions does
    not change what the map makes of it. *)
Theorem norm_after_padding (s : string) :
  digits_only s = true -> s <> "" ->
  MapSection.norm (Py.zfill 3 s) = MapSection.norm s.
Proof.
  intros Hd Hne. destruct (zfill_digits 3 s Hd Hne) as [k ->].
  rewrite (norm_digits s Hd Hne).
  rewrite (norm_digits (Py.zeros k ++ s)).
  - rewrite digits_value_zeros. reflexivity.
  - apply digits_only_zeros, Hd.
  - destruct k; [exact Hne | discriminate].
Qed.

Lemma norm_after_padding_witness :
  MapSection.norm (Py.zfill 3 "5") = MapSection.norm "5".
Proof.
  apply (norm_after_padding "5"); [reflexivity | discriminate].
Defined.

(** ** When the population union raises *)

Lemma traverse_raise {X Y} (f : X -> Py.result Y) (e0 : Py.exn) l e :
  (forall x e', f x = Py.Raise e' -> e' = e0) ->
  (Py.traverse f l = Py.Raise e
   <-> e = e0 /\ exists x, In x l /\ f x = Py.Raise e0).
Proof.
  intros Hf. induction l as [|a l IH].
  - split; [discriminate | intros [_ [x [[] _]]]].
  - cbn [Py.traverse]. destruct (f a) as [y|e'] eqn:Ea; cbn [Py.bind].
    + destruct (Py.traverse f l) as [ys|e''] eqn:El; cbn [Py.bind].
      * split; [discriminate |].
        intros [He [x [[<-|Hx] Ex]]]; [congruence |].
        destruct IH as [_ IH]. discriminate IH. split; [exact He | eauto].
      * destruct IH as [IH1 IH2]. split.
        -- intros E. destruct (IH1 E) as [He [x [Hx Ex]]].
           split; [exact He |]. exists x. split; [right; exact Hx | exact Ex].
        -- intros [He [x [[<-|Hx] Ex]]]; [congruence |].
           apply IH2. split; [exact He | eauto].
    + pose proof (Hf a e' Ea) as ->. split.
      * intros [= <-]. split; [reflexivity |].
        exists a. split; [left; reflexivity | exact Ea].
      * intros [-> _]. reflexivity.
Qed.

Section union_raises.
Context `{Pd.Runtime}.

Lemma yearfix_raise r e :
  yearfix r = Py.Raise e
  <-> e = Py.TypeError /\ Spec.fractional (Pd.cell r "annee") = true.
Proof.
  unfold yearfix, Prep._ensure_year_cell, Spec.fractional.
  destruct (Pd.to_numeric (Pd.cell r "annee")) as [| |q];
    cbn [mbind result_bind Py.bind mret result_ret];
    try (split; [discriminate | intros [_ E]; discriminate]).
  destruct (Z.pos (Qden (Qred q)) =? 1)%Z;
    cbn [mbind result_bind Py.bind mret result_ret negb].
  - split; [discriminate | intros [_ E]; discriminate].
  - split; [intros [= <-]; split; reflexivity | intros [-> _]; reflexivity].
Qed.

Lemma scope_rows_raise (df : Pd.DataFrame) e :
  Py.traverse yearfix (Pd.rows df) = Py.Raise e
  <-> e = Py.TypeError
      /\ exists r, In r (Pd.rows df) /\ Spec.fractional (Pd.cell r "annee") = true.
Proof.
  rewrite (traverse_raise yearfix Py.TypeError).
  - split; intros [He [r [Hr Er]]]; (split; [exact He |]); exists r;
      (split; [exact Hr |]).
    + apply yearfix_raise in Er. apply Er.
    + apply yearfix_raise. split; [reflexivity | exact Er].
  - intros x e' Ex. apply yearfix_raise in Ex. apply Ex.
Qed.


End union_raises.

(** ** The shape of the by-year series *)

Lemma insert_sorted_map {A B} (g : A -> B) (lebA : A -> A -> bool)
  (lebB : B -> B -> bool) x l :
  (forall a b, lebB (g a) (g b) = lebA a b) ->
  Pd.insert_sorted lebB (g x) (map g l) = map g (Pd.insert_sorted lebA x l).
Proof.
  intros Hg. induction l as [|y l IH]; [reflexivity |].
  cbn [map Pd.insert_sorted]. rewrite Hg. destruct (lebA x y); [reflexivity |].
  cbn [map]. rewrite IH. reflexivity.
Qed.

Lemma isort_map {A B} (g : A -> B) (lebA : A -> A -> bool)
  (lebB : B -> B -> bool) l :
  (forall a b, lebB (g a) (g b) = lebA a b) ->
  Pd.isort lebB (map g l) = map g (Pd.isort lebA l).
Proof.
  intros Hg. induction l as [|x l IH]; [reflexivity |].
  cbn [map Pd.isort]. rewrite IH. apply insert_sorted_map, Hg.
Qed.

Lemma insert_sorted_Z x l :
  StronglySorted Z.le l -> StronglySorted Z.le (Pd.insert_sorted Z.leb x l).
Proof.
  induction 1 as [|y l Hs IH Hall]; cbn [Pd.insert_sorted].
  - repeat constructor.
  - destruct (Z.leb_spec x y) as [Hle|Hlt].
    + constructor; [constructor; assumption |].
      constructor; [exact Hle |].
      apply Forall_forall. intros z Hz.
      rewrite Forall_forall in Hall. specialize (Hall z Hz). cbn beta in Hall. lia.
    + constructor; [exact IH |].
      apply Forall_forall. intros z Hz.
      apply list_elem_of_In in Hz.
      apply (Permutation_in _ (insert_sorted_perm Z.leb x l)) in Hz.
      destruct Hz as [<-|Hz]; [lia |].
      rewrite Forall_forall in Hall. apply Hall, list_elem_of_In, Hz.
Qed.

Lemma isort_Z_sorted l : StronglySorted Z.le (Pd.isort Z.leb l).
Proof.
  induction l as [|x l IH]; [constructor |]. apply insert_sorted_Z, IH.
Qed.

Lemma sorted_distinct l :
  StronglySorted Z.le l -> NoDup l -> StronglySorted Z.lt l.
Proof.
  induction 1 as [|x l Hs IH Hall]; intros Hn; [constructor |].
  apply NoDup_cons in Hn as [Hx Hn].
  constructor; [apply IH, Hn |].
  apply Forall_forall. intros z Hz.
  rewrite Forall_forall in Hall. specialize (Hall z Hz). cbn beta in Hall.
  assert (z <> x) by (intros ->; contradiction). lia.
Qed.

Lemma year_keys (K : list (list Pd.value)) :
  NoDup K -> (forall k, In k K -> exists z, k = [Pd.Num (inject_Z z)]) ->
  exists zs, K = map (fun z => [Pd.Num (inject_Z z)]) zs /\ NoDup zs.
Proof.
  induction 1 as [|k K Hk Hn IH]; intros Hs.
  - exists []. split; [reflexivity | constructor].
  - destruct (Hs k (or_introl eq_refl)) as [z ->].
    destruct IH as [zs [-> Hzs]]; [intros; apply Hs; right; assumption |].
    exists (z :: zs). split; [reflexivity |].
    constructor; [| exact Hzs].
    intros Hz. apply Hk, list_elem_of_In, in_map_iff.
    exists z. split; [reflexivity | apply list_elem_of_In, Hz].
Qed.

Section series_shape.
Context `{Pd.Runtime}.

(** The by-year union returns one row for each year, in ascending order
    of the year, each with a number as its total. *)
Theorem by_year_series (df : Pd.DataFrame) (m : Prep.method) (res : Pd.DataFrame) :
  Prep.population_union_by_year df m = Py.Ok res ->
  exists ys : list Z,
    map (fun r => Pd.cell r "annee") (Pd.rows res)
    = map (fun y => Pd.Num (inject_Z y)) ys
    /\ StronglySorted Z.lt ys
    /\ forall r, In r (Pd.rows res) -> exists q, Pd.cell r "npop_union" = Pd.Num q.
Proof.
  intros Hres.
  assert (Hnone : res = Prep.no_union ->
            exists ys : list Z,
              map (fun r => Pd.cell r "annee") (Pd.rows res)
              = map (fun y => Pd.Num (inject_Z y)) ys
              /\ StronglySorted Z.lt ys
              /\ forall r, In r (Pd.rows res) ->
                   exists q, Pd.cell r "npop_union" = Pd.Num q).
  { intros ->. exists []. split; [reflexivity |]. split; [constructor |].
    intros r []. }
  destruct (Pd.issubset Prep.required df) eqn:Hreq.
  2: { unfold Prep.population_union_by_year in Hres. rewrite Hreq in Hres.
       injection Hres as <-. apply Hnone. reflexivity. }
  destruct (Py.traverse yearfix (Pd.rows df)) as [rs|e] eqn:Hrs.
  2: { rewrite (by_year_raises df m e Hreq Hrs) in Hres. discriminate. }
  rewrite (by_year_unfold df m rs Hreq Hrs) in Hres.
  destruct (Pd.empty (yframe df rs)).
  { injection Hres as <-. apply Hnone. reflexivity. }
  clear Hnone.
  pose proof (yframe_plain_year df rs) as Hplain.
  pose proof (fun r Hr => proj2 (yframe_key df _ _ r Hrs Hr)) as Hint.
  set (tmp := yframe df rs) in *.
  set (KS' := slice_cols df) in *.
  set (f := Prep.reducer m) in *.
  destruct (year_keys (Pd.group_keys (Pd.groupby_agg ("annee" :: KS') "npop" "npop" f tmp)
                         ["annee"]))
    as [zs [EK Hzs]].
  { apply NoDup_group_keys. }
  { apply (K2_shape tmp KS' f Hplain Hint). }
  set (g := fun z => mk2 tmp KS' f [Pd.Num (inject_Z z)]).
  assert (Erows : Pd.rows (Pd.groupby_agg ["annee"] "npop" "npop_union"
                             (fun l => Some (Pd.sum l))
                             (Pd.groupby_agg ("annee" :: KS') "npop" "npop" f tmp))
                  = map g zs).
  { rewrite res0_rows, EK, map_map. reflexivity. }
  assert (Hg : forall z, Pd.cell (g z) "annee" = Pd.Num (inject_Z z))
    by (intros z; apply mk2_year).
  unfold Pd.sort_values in Hres. rewrite Erows in Hres.
  destruct (_ && _); [discriminate |].
  injection Hres as <-. cbn [Pd.rows].
  assert (Epres : List.filter (fun r => negb (Pd.isna (Pd.cell r "annee"))) (map g zs)
                  = map g zs).
  { apply filter_all_true. intros r Hr. apply in_map_iff in Hr as [z [<- _]].
    rewrite Hg. reflexivity. }
  assert (Enull : List.filter (fun r => Pd.isna (Pd.cell r "annee")) (map g zs) = []).
  { clear -Hg. induction zs as [|z zs IH]; [reflexivity |].
    cbn [map List.filter]. rewrite Hg. exact IH. }
  rewrite Epres, Enull, app_nil_r.
  rewrite (isort_map g Z.leb).
  2: { intros a b. rewrite !Hg. cbn [Pd.value_leb].
       apply eq_true_iff_eq. rewrite Qle_bool_iff, <- Zle_Qle, Z.leb_le. reflexivity. }
  exists (Pd.isort Z.leb zs). split; [| split].
  - rewrite map_map. apply map_ext. intros z. apply Hg.
  - apply sorted_distinct; [apply isort_Z_sorted |].
    apply NoDup_ListNoDup. eapply Permutation_NoDup.
    + symmetry. apply isort_perm.
    + apply NoDup_ListNoDup, Hzs.
  - intros r Hr. apply in_map_iff in Hr as [z [<- _]].
    unfold g, mk2. rewrite cell_insert_eq. eauto.
Qed.

End series_shape.

(** Two years, the later one first. *)
Definition two_years : Pd.DataFrame :=
  {| Pd.columns := ["annee"; "dept"; "npop"]; Pd.categories := ∅;
     Pd.rows := [Ex.row_of [("annee", Pd.Num 2023); ("dept", Pd.Str "001");
                            ("npop", Pd.Num 700)];
                 Ex.row_of [("annee", Pd.Num 2021); ("dept", Pd.Str "001");
                            ("npop", Pd.Num 500)]] |}.

Lemma by_year_series_witness :
  exists res ys,
    Prep.population_union_by_year (H := example_runtime) two_years Prep.Median = Py.Ok res
    /\ map (fun r => Pd.cell r "annee") (Pd.rows res)
       = map (fun y => Pd.Num (inject_Z y)) ys
    /\ StronglySorted Z.lt ys.
Proof.
  exists (returned Prep.no_union
            (Prep.population_union_by_year (H := example_runtime) two_years Prep.Median)).
  assert (E : Prep.population_union_by_year (H := example_runtime) two_years Prep.Median
              = Py.Ok (returned Prep.no_union
                         (Prep.population_union_by_year (H := example_runtime)
                            two_years Prep.Median))).
  { apply returned_ok. vm_compute. reflexivity. }
  destruct (by_year_series (H := example_runtime) two_years Prep.Median _ E)
    as [ys [H1 [H2 _]]].
  exists ys. split; [exact E |]. split; assumption.
Defined.

(** ** The scope filter applied twice *)




Section scope_twice.
Context `{Pd.Runtime}.






End scope_twice.


(** ** The union on a frame and on its converted copy *)

Lemma Forall2_filter_rel {X} (R : X -> X -> Prop) (p : X -> bool) l l' :
  (forall x x', R x x' -> p x = p x') ->
  Forall2 R l l' -> Forall2 R (List.filter p l) (List.filter p l').
Proof.
  intros Hp. induction 1 as [|x x' l l' Hx _ IH]; [constructor |].
  simpl. rewrite <- (Hp x x' Hx). destruct (p x); [constructor; assumption | exact IH].
Qed.

Lemma Forall2_map_rel {X} (R R' : X -> X -> Prop) (f : X -> X) l l' :
  (forall x x', R x x' -> R' (f x) (f x')) ->
  Forall2 R l l' -> Forall2 R' (map f l) (map f l').
Proof.
  intros Hf. induction 1 as [|x x' l l' Hx _ IH]; [constructor |].
  simpl. constructor; [apply Hf, Hx | exact IH].
Qed.

Lemma Forall2_omap_rel {X Y} (R : X -> X -> Prop) (g : X -> option Y) l l' :
  (forall x x', R x x' -> g x = g x') ->
  Forall2 R l l' -> omap g l = omap g l'.
Proof.
  intros Hg. induction 1 as [|x x' l l' Hx _ IH]; [reflexivity |].
  simpl. rewrite <- (Hg x x' Hx). destruct (g x); [f_equal |]; exact IH.
Qed.

Lemma Forall2_nil_iff {X} (R : X -> X -> Prop) l l' :
  Forall2 R l l' -> (l = [] <-> l' = []).
Proof. destruct 1; split; congruence. Qed.

Section converted.
Context `{Pd.Runtime}.

(** Two rows the population union cannot tell apart: the same year,
    department and age class, and the same number read as population. *)
Definition same_scope (r r' : gmap string Pd.value) : Prop :=
  Pd.cell r "annee" = Pd.cell r' "annee"
  /\ Pd.cell r "dept" = Pd.cell r' "dept"
  /\ Pd.cell r "cla_age_5" = Pd.cell r' "cla_age_5"
  /\ Pd.to_numeric (Pd.cell r "npop") = Pd.to_numeric (Pd.cell r' "npop").

Definition same_number (r r' : gmap string Pd.value) : Prop :=
  same_scope r r' /\ Pd.cell r "npop" = Pd.cell r' "npop".

Lemma yearfix_related r r' :
  same_scope r r' ->
  match yearfix r, yearfix r' with
  | Py.Ok y, Py.Ok y' => same_scope y y'
  | Py.Raise e, Py.Raise e' => e = e'
  | _, _ => False
  end.
Proof.
  intros [Ha [Hd [Hg Hn]]]. unfold yearfix. rewrite <- Ha.
  destruct (Prep._ensure_year_cell (Pd.cell r "annee")) as [v|e];
    cbn [mbind result_bind Py.bind mret result_ret]; [| reflexivity].
  unfold same_scope. rewrite !cell_insert_eq, !cell_insert_ne by discriminate.
  auto.
Qed.

Lemma traverse_related l l' :
  Forall2 same_scope l l' ->
  match Py.traverse yearfix l, Py.traverse yearfix l' with
  | Py.Ok a, Py.Ok b => Forall2 same_scope a b
  | Py.Raise e, Py.Raise e' => e = e'
  | _, _ => False
  end.
Proof.
  induction 1 as [|x x' l l' Hx _ IH]; [constructor |].
  cbn [Py.traverse]. pose proof (yearfix_related x x' Hx) as Hy.
  destruct (yearfix x) as [y|e], (yearfix x') as [y'|e']; cbn [Py.bind];
    try contradiction; [| exact Hy].
  destruct (Py.traverse yearfix l) as [a|e], (Py.traverse yearfix l') as [b|e'];
    cbn [Py.bind]; try contradiction; [| exact IH].
  constructor; assumption.
Qed.

Lemma deptfix_related r r' : same_scope r r' -> same_scope (deptfix r) (deptfix r').
Proof.
  intros [Ha [Hd [Hg Hn]]]. unfold same_scope, deptfix.
  rewrite !cell_insert_eq, !cell_insert_ne by discriminate. rewrite Hd. auto.
Qed.

Lemma numfix_related r r' : same_scope r r' -> same_number (numfix r) (numfix r').
Proof.
  intros [Ha [Hd [Hg Hn]]]. unfold same_number, same_scope, numfix.
  rewrite !cell_insert_eq, !cell_insert_ne by discriminate. rewrite Hn. auto.
Qed.

Lemma scoped_related (df df' : Pd.DataFrame) rs rs' :
  Pd.has_col df' "cla_age_5" = Pd.has_col df "cla_age_5" ->
  Forall2 same_scope rs rs' ->
  Forall2 same_scope (Pd.rows (scoped df rs)) (Pd.rows (scoped df' rs')).
Proof.
  intros Hc Hrs. cbn [scoped Pd.rows]. rewrite Hc.
  assert (Hd : Forall2 same_scope (List.filter dept_ok (map deptfix rs))
                 (List.filter dept_ok (map deptfix rs'))).
  { apply Forall2_filter_rel.
    - intros x x' [_ [Hx _]]. unfold dept_ok. rewrite Hx. reflexivity.
    - eapply Forall2_map_rel; [| exact Hrs]. apply deptfix_related. }
  unfold age_filter. destruct (Pd.has_col df "cla_age_5"); [| exact Hd].
  apply Forall2_filter_rel;
    [intros x x' [_ [_ [Hx _]]]; unfold age_pat; rewrite Hx; reflexivity |].
  apply Forall2_filter_rel;
    [intros x x' [_ [_ [Hx _]]]; unfold age_len; rewrite Hx; reflexivity |].
  exact Hd.
Qed.

Lemma sframe_related (df df' : Pd.DataFrame) year rs rs' :
  Pd.has_col df' "cla_age_5" = Pd.has_col df "cla_age_5" ->
  Forall2 same_scope rs rs' ->
  Forall2 same_number (Pd.rows (sframe df year rs)) (Pd.rows (sframe df' year rs')).
Proof.
  intros Hc Hrs. rewrite !sframe_rows.
  apply Forall2_filter_rel.
  - intros x x' [_ Hx]. cbn [forallb]. rewrite Hx. reflexivity.
  - eapply Forall2_map_rel; [apply numfix_related |].
    apply Forall2_filter_rel; [| apply scoped_related; assumption].
    intros x x' [Hx _]. rewrite Hx. reflexivity.
Qed.

Lemma row_key_related cs r r' :
  same_number r r' -> (forall c, In c cs -> c = "dept" \/ c = "cla_age_5") ->
  Pd.row_key cs r = Pd.row_key cs r'.
Proof.
  intros [[_ [Hd [Hg _]]] _] Hcs. induction cs as [|c cs IH]; [reflexivity |].
  rewrite !row_key_cons.
  rewrite IH by (intros; apply Hcs; right; assumption).
  destruct (Hcs c (or_introl eq_refl)) as [->| ->]; [rewrite Hd | rewrite Hg]; reflexivity.
Qed.

Lemma group_keys_related (t t' : Pd.DataFrame) cs :
  (forall c, In c cs -> c = "dept" \/ c = "cla_age_5") ->
  (forall c, In c cs -> Pd.categories t' !! c = Pd.categories t !! c) ->
  Forall2 same_number (Pd.rows t) (Pd.rows t') ->
  Pd.group_keys t cs = Pd.group_keys t' cs.
Proof.
  intros Hcs Hcat Hrows. unfold Pd.group_keys.
  assert (Ee : existsb (fun c => bool_decide (is_Some (Pd.categories t !! c))) cs
               = existsb (fun c => bool_decide (is_Some (Pd.categories t' !! c))) cs).
  { clear -Hcat. induction cs as [|c cs IH]; [reflexivity |].
    cbn [existsb]. rewrite (Hcat c) by (left; reflexivity).
    rewrite IH by (intros; apply Hcat; right; assumption). reflexivity. }
  rewrite Ee. clear Ee. destruct (existsb _ cs).
  - f_equal. apply map_ext_in. intros c Hc. unfold Pd.levels.
    rewrite (Hcat c Hc).
    assert (Eo : omap (fun r => Pd.key_of (Pd.cell r c)) (Pd.rows t)
                 = omap (fun r => Pd.key_of (Pd.cell r c)) (Pd.rows t')).
    { eapply Forall2_omap_rel; [| exact Hrows].
      intros x x' [[_ [Hd [Hg _]]] _].
      destruct (Hcs c Hc) as [->| ->]; [rewrite Hd | rewrite Hg]; reflexivity. }
    rewrite Eo. reflexivity.
  - do 2 f_equal. eapply Forall2_omap_rel; [| exact Hrows].
    intros x x' Hx. apply row_key_related; assumption.
Qed.

Lemma group_numbers_related (t t' : Pd.DataFrame) cs k :
  (forall c, In c cs -> c = "dept" \/ c = "cla_age_5") ->
  Forall2 same_number (Pd.rows t) (Pd.rows t') ->
  Pd.numbers "npop" (Pd.group cs k t) = Pd.numbers "npop" (Pd.group cs k t').
Proof.
  intros Hcs Hrows. unfold Pd.numbers, Pd.group.
  eapply Forall2_omap_rel with (R := same_number).
  - intros x x' [_ Hx]. rewrite Hx. reflexivity.
  - apply Forall2_filter_rel; [| exact Hrows].
    intros x x' Hx. rewrite (row_key_related cs x x' Hx Hcs). reflexivity.
Qed.

Lemma slice_cols_cases (df : Pd.DataFrame) c :
  In c (slice_cols df) -> c = "dept" \/ c = "cla_age_5".
Proof.
  unfold slice_cols. destruct (Pd.has_col df "cla_age_5").
  - intros [<-|[<-|[]]]; auto.
  - intros [<-|[]]; auto.
Qed.

Lemma sframe_categories (df : Pd.DataFrame) year rs c :
  c = "dept" \/ c = "cla_age_5" ->
  Pd.categories (sframe df year rs) !! c
  = if String.eqb c "dept" then None else Pd.categories df !! "cla_age_5".
Proof.
  unfold sframe. cbn [Pd.dropna Pd.select Pd.assign scoped Pd.categories].
  intros [-> | ->]; cbn [String.eqb Ascii.eqb Bool.eqb].
  - rewrite lookup_delete_ne by discriminate. apply lookup_delete_eq.
  - rewrite !lookup_delete_ne by discriminate. reflexivity.
Qed.

(** The single-year union reads a frame only through its columns, the
    categories of its age-class column and, row by row, the year, the
    department, the age class and the number read as population. *)
Lemma for_year_related (df df' : Pd.DataFrame) (year : Z) (m : Prep.method) :
  Pd.columns df' = Pd.columns df ->
  Pd.categories df' !! "cla_age_5" = Pd.categories df !! "cla_age_5" ->
  Forall2 same_scope (Pd.rows df) (Pd.rows df') ->
  Prep.population_union_for_year df' year m = Prep.population_union_for_year df year m.
Proof.
  intros Hcols Hcat Hrows.
  assert (Hhas : forall c, Pd.has_col df' c = Pd.has_col df c)
    by (intros c; unfold Pd.has_col; rewrite Hcols; reflexivity).
  assert (Hsub : Pd.issubset Prep.required df' = Pd.issubset Prep.required df).
  { unfold Pd.issubset, Prep.required. cbn [forallb]. rewrite !Hhas. reflexivity. }
  destruct (Pd.issubset Prep.required df) eqn:Hreq.
  2: { unfold Prep.population_union_for_year. rewrite Hsub, Hreq. reflexivity. }
  pose proof (traverse_related _ _ Hrows) as Htr.
  destruct (Py.traverse yearfix (Pd.rows df)) as [rs|e] eqn:Hrs,
           (Py.traverse yearfix (Pd.rows df')) as [rs'|e'] eqn:Hrs';
    try contradiction.
  2: { subst e'. rewrite (for_year_raises df year m e Hreq Hrs).
       apply for_year_raises; [exact Hsub | exact Hrs']. }
  rewrite (for_year_unfold df year m rs Hreq Hrs).
  rewrite (for_year_unfold df' year m rs' Hsub Hrs').
  assert (Hsc : slice_cols df' = slice_cols df) by (unfold slice_cols; rewrite Hhas; reflexivity).
  rewrite Hsc.
  pose proof (sframe_related df df' year rs rs' (Hhas _) Htr) as Hsf.
  assert (Hemp : Pd.empty (Pd.select (fun r => Prep.year_is year (Pd.cell r "annee"))
                             (scoped df' rs'))
                 = Pd.empty (Pd.select (fun r => Prep.year_is year (Pd.cell r "annee"))
                               (scoped df rs))).
  { unfold Pd.empty. cbn [Pd.select Pd.rows].
    assert (Hf : Forall2 same_scope
                   (List.filter (fun r => Prep.year_is year (Pd.cell r "annee"))
                      (Pd.rows (scoped df rs)))
                   (List.filter (fun r => Prep.year_is year (Pd.cell r "annee"))
                      (Pd.rows (scoped df' rs')))).
    { apply Forall2_filter_rel; [| apply scoped_related; [apply Hhas | exact Htr]].
      intros x x' [Hx _]. rewrite Hx. reflexivity. }
    destruct Hf; reflexivity. }
  rewrite Hemp. clear Hemp. destruct (Pd.empty _); [reflexivity |].
  do 3 f_equal.
  rewrite (group_keys_related (sframe df year rs) (sframe df' year rs') (slice_cols df)).
  - apply omap_ext_in. intros k _. f_equal. symmetry.
    apply group_numbers_related; [apply slice_cols_cases | exact Hsf].
  - apply slice_cols_cases.
  - intros c Hc. rewrite !sframe_categories by (apply (slice_cols_cases df), Hc).
    rewrite Hcat. reflexivity.
  - exact Hsf.
Qed.

Lemma to_numeric_idem v : Pd.to_numeric (Pd.to_numeric v) = Pd.to_numeric v.
Proof. apply to_numeric_fixes, to_numeric_numeric. Qed.

Lemma for_year_convert c (df : Pd.DataFrame) (year : Z) (m : Prep.method) :
  In c ["ntop"; "npop"; "prev"] ->
  Prep.population_union_for_year (convert c df) year m
  = Prep.population_union_for_year df year m.
Proof.
  intros Hc. unfold convert. destruct (Pd.has_col df c); [| reflexivity].
  assert (Hne : c <> "annee" /\ c <> "dept" /\ c <> "cla_age_5")
    by (destruct Hc as [<-|[<-|[<-|[]]]]; repeat split; discriminate).
  destruct Hne as [Ha [Hd Hg]].
  apply for_year_related.
  - reflexivity.
  - cbn [Pd.assign Pd.categories]. apply lookup_delete_ne. congruence.
  - cbn [Pd.assign Pd.rows]. induction (Pd.rows df) as [|r l IH]; [constructor |].
    cbn [map]. constructor; [| exact IH].
    unfold same_scope. rewrite !cell_insert_ne by congruence.
    repeat split; try reflexivity.
    destruct (decide (c = "npop")) as [->|Hn].
    + rewrite cell_insert_eq, to_numeric_idem. reflexivity.
    + rewrite cell_insert_ne by exact Hn. reflexivity.
Qed.

(** The population figure of the summary. Whenever the table builder
    returns, both population entries of its summary hold the single-year
    union of the caller's table for 2023 under the median, and NaN when
    that union raises: converting the measures first changes nothing for
    the union, and its exception does not leave the builder. *)
Theorem summary_population_union (df : Pd.DataFrame) (out : gmap string Prep.derived)
  (dq : Prep.quality) :
  snd (Prep.make_tables df) = Py.Ok out ->
  out !! "dq" = Some (Prep.Quality dq) ->
  Prep.dq_population_union_npop dq
  = Py.try_except (Prep.population_union_for_year df 2023 Prep.Median) None
  /\ Prep.dq_population_union_npop_2023 dq = Prep.dq_population_union_npop dq.
Proof.
  cbn [Prep.make_tables snd]. unfold Prep.build.
  destruct (Prep.add_timeseries _ _) as [o1|]; cbn [mbind result_bind Py.bind];
    [| discriminate].
  destruct (Prep.add_by_region _ o1) as [o2|]; cbn [mbind result_bind Py.bind];
    [| discriminate].
  destruct (Prep.summary (Prep.numeric_step df)) as [dq'|] eqn:Es;
    cbn [mbind result_bind Py.bind mret result_ret]; [| discriminate].
  intros [= <-]. rewrite lookup_insert_eq. intros [= <-].
  unfold Prep.summary in Es.
  destruct (if Pd.has_col (Prep.numeric_step df) "annee" then _ else _) as [annees|];
    cbn [mbind result_bind Py.bind mret result_ret] in Es; [| discriminate].
  injection Es as <-. cbn [Prep.dq_population_union_npop Prep.dq_population_union_npop_2023].
  split; [| reflexivity].
  rewrite numeric_step_convert.
  rewrite !for_year_convert by in_list. reflexivity.
Qed.

End converted.

Lemma summary_population_union_witness :
  exists out dq,
    snd (Prep.make_tables (H := example_runtime) reported_twice) = Py.Ok out
    /\ out !! "dq" = Some (Prep.Quality dq)
    /\ Prep.dq_population_union_npop dq
       = Py.try_except
           (Prep.population_union_for_year (H := example_runtime) reported_twice 2023
              Prep.Median) None.
Proof.
  exists (returned ∅ (snd (Prep.make_tables (H := example_runtime) reported_twice))).
  assert (E : snd (Prep.make_tables (H := example_runtime) reported_twice)
              = Py.Ok (returned ∅
                         (snd (Prep.make_tables (H := example_runtime) reported_twice)))).
  { apply returned_ok. vm_compute. reflexivity. }
  destruct (build_dq (H := example_runtime) _ _ E) as [dq [Hdq _]].
  exists dq. split; [exact E |]. split; [exact Hdq |].
  apply (summary_population_union (H := example_runtime) reported_twice _ dq E Hdq).
Defined.

(** ** The order of the rows *)

Lemma Qle_bool_false p q : Qle_bool p q = false -> (q < p)%Q.
Proof.
  intros E. apply Qnot_le_lt. intros Hle. apply Qle_bool_iff in Hle. congruence.
Qed.

Lemma insert_sorted_Qeq x x' s s' :
  (x == x')%Q -> Forall2 Qeq s s' ->
  Forall2 Qeq (Pd.insert_sorted Qle_bool x s) (Pd.insert_sorted Qle_bool x' s').
Proof.
  intros Hx. induction 1 as [|y y' s s' Hy Hs IH]; cbn [Pd.insert_sorted].
  - repeat constructor. exact Hx.
  - assert (E : Qle_bool x y = Qle_bool x' y').
    { apply eq_true_iff_eq. rewrite !Qle_bool_iff, Hx, Hy. reflexivity. }
    rewrite E. destruct (Qle_bool x' y'); repeat constructor; assumption.
Qed.

Lemma Forall2_Qeq_refl s : Forall2 Qeq s s.
Proof. induction s; constructor; [reflexivity | assumption]. Qed.

Lemma Forall2_Qeq_trans s1 s2 s3 :
  Forall2 Qeq s1 s2 -> Forall2 Qeq s2 s3 -> Forall2 Qeq s1 s3.
Proof.
  intros H12. revert s3. induction H12 as [|x y s1 s2 Hxy _ IH]; intros s3 H23.
  - inversion H23. constructor.
  - inversion H23 as [|? z ? s3' Hyz H23']; subst.
    constructor; [rewrite Hxy; exact Hyz | apply IH, H23'].
Qed.

(** Inserting two numbers in either order gives the same sorted list, up
    to the equality of numbers. *)
Lemma insert_sorted_swap x y s :
  Forall2 Qeq (Pd.insert_sorted Qle_bool x (Pd.insert_sorted Qle_bool y s))
              (Pd.insert_sorted Qle_bool y (Pd.insert_sorted Qle_bool x s)).
Proof.
  induction s as [|z s IH]; cbn [Pd.insert_sorted].
  - destruct (Qle_bool x y) eqn:Exy, (Qle_bool y x) eqn:Eyx; cbn [Pd.insert_sorted];
      rewrite ?Exy, ?Eyx; try apply Forall2_Qeq_refl.
    + apply Qle_bool_iff in Exy, Eyx.
      repeat constructor; apply Qle_antisym; assumption.
    + apply Qle_bool_false in Exy, Eyx. exfalso.
      apply (Qlt_irrefl x). eapply Qlt_trans; eassumption.
  - destruct (Qle_bool y z) eqn:Eyz, (Qle_bool x z) eqn:Exz; cbn [Pd.insert_sorted].
    + destruct (Qle_bool x y) eqn:Exy, (Qle_bool y x) eqn:Eyx; cbn [Pd.insert_sorted];
        rewrite ?Exy, ?Eyx, ?Exz, ?Eyz; try apply Forall2_Qeq_refl.
      * apply Qle_bool_iff in Exy, Eyx.
        constructor; [apply Qle_antisym; assumption |].
        constructor; [apply Qle_antisym; assumption | apply Forall2_Qeq_refl].
      * apply Qle_bool_false in Exy, Eyx. exfalso.
        apply (Qlt_irrefl x). eapply Qlt_trans; eassumption.
    + assert (Exy : Qle_bool x y = false).
      { apply not_true_is_false. intros Exy. apply Qle_bool_iff in Exy, Eyz.
        apply Qle_bool_false in Exz. apply (Qlt_irrefl z).
        eapply Qlt_le_trans; [exact Exz |]. eapply Qle_trans; eassumption. }
      rewrite Exy. cbn [Pd.insert_sorted]. rewrite Exz, Eyz. apply Forall2_Qeq_refl.
    + assert (Eyx : Qle_bool y x = false).
      { apply not_true_is_false. intros Eyx. apply Qle_bool_iff in Eyx, Exz.
        apply Qle_bool_false in Eyz. apply (Qlt_irrefl z).
        eapply Qlt_le_trans; [exact Eyz |]. eapply Qle_trans; eassumption. }
      rewrite Exz, Eyx. cbn [Pd.insert_sorted]. rewrite Eyz. apply Forall2_Qeq_refl.
    + rewrite Exz, Eyz. constructor; [reflexivity | exact IH].
Qed.

Lemma isort_perm_Qeq l l' :
  Permutation l l' -> Forall2 Qeq (Pd.isort Qle_bool l) (Pd.isort Qle_bool l').
Proof.
  induction 1 as [|x l l' _ IH|x y l|l l' l'' _ IH1 _ IH2]; cbn [Pd.isort].
  - constructor.
  - apply insert_sorted_Qeq; [reflexivity | exact IH].
  - apply insert_sorted_swap.
  - eapply Forall2_Qeq_trans; eassumption.
Qed.

Lemma nth_Qeq s s' i :
  Forall2 Qeq s s' -> (nth i s 0 == nth i s' 0)%Q.
Proof.
  intros Hs. revert i. induction Hs as [|x y s s' Hxy _ IH]; intros i.
  - destruct i; reflexivity.
  - destruct i; [exact Hxy | apply IH].
Qed.

Lemma median_perm l l' :
  Permutation l l' -> Spec.same_figure (Pd.median l) (Pd.median l').
Proof.
  intros Hp. pose proof (isort_perm_Qeq l l' Hp) as Hs.
  unfold Pd.median.
  rewrite <- (Forall2_length _ _ _ Hs).
  destruct (length (Pd.isort Qle_bool l)) as [|n]; [exact I |].
  destruct (Nat.even (S n)); cbn [Spec.same_figure].
  - rewrite (nth_Qeq _ _ (S n / 2 - 1) Hs), (nth_Qeq _ _ (S n / 2) Hs). reflexivity.
  - apply nth_Qeq, Hs.
Qed.

(** What the fold of [min] and of [max] returns. *)
Lemma fold_min_spec l a :
  let r := fold_left (fun a b => if Qle_bool a b then a else b) l a in
  In r (a :: l) /\ forall x, In x (a :: l) -> (r <= x)%Q.
Proof.
  revert a. induction l as [|b l IH]; intros a; cbn [fold_left].
  - split; [left; reflexivity |]. intros x [<-|[]]. apply Qle_refl.
  - destruct (IH (if Qle_bool a b then a else b)) as [Hin Hmin]. split.
    + destruct Hin as [E|Hin]; [| right; right; exact Hin].
      rewrite <- E. destruct (Qle_bool a b); [left | right; left]; reflexivity.
    + intros x Hx.
      assert (Hab : ((if Qle_bool a b then a else b) <= a
                     /\ (if Qle_bool a b then a else b) <= b)%Q).
      { destruct (Qle_bool a b) eqn:E.
        - split; [apply Qle_refl | apply Qle_bool_iff, E].
        - split; [apply Qlt_le_weak, Qle_bool_false, E | apply Qle_refl]. }
      destruct Hx as [<-|[<-|Hx]].
      * eapply Qle_trans; [apply Hmin; left; reflexivity | apply Hab].
      * eapply Qle_trans; [apply Hmin; left; reflexivity | apply Hab].
      * apply Hmin. right. exact Hx.
Qed.

Lemma fold_max_spec l a :
  let r := fold_left (fun a b => if Qle_bool a b then b else a) l a in
  In r (a :: l) /\ forall x, In x (a :: l) -> (x <= r)%Q.
Proof.
  revert a. induction l as [|b l IH]; intros a; cbn [fold_left].
  - split; [left; reflexivity |]. intros x [<-|[]]. apply Qle_refl.
  - destruct (IH (if Qle_bool a b then b else a)) as [Hin Hmax]. split.
    + destruct Hin as [E|Hin]; [| right; right; exact Hin].
      rewrite <- E. destruct (Qle_bool a b); [right; left | left]; reflexivity.
    + intros x Hx.
      assert (Hab : (a <= (if Qle_bool a b then b else a)
                     /\ b <= (if Qle_bool a b then b else a))%Q).
      { destruct (Qle_bool a b) eqn:E.
        - split; [apply Qle_bool_iff, E | apply Qle_refl].
        - split; [apply Qle_refl | apply Qlt_le_weak, Qle_bool_false, E]. }
      destruct Hx as [<-|[<-|Hx]].
      * eapply Qle_trans; [apply Hab | apply Hmax; left; reflexivity].
      * eapply Qle_trans; [apply Hab | apply Hmax; left; reflexivity].
      * apply Hmax. right. exact Hx.
Qed.

(** Every reducer but [first] gives the same figure on the same numbers
    in another order. *)
Lemma reducer_perm (m : Prep.method) l l' :
  m <> Prep.First -> Permutation l l' ->
  Spec.same_figure (Prep.reducer m l) (Prep.reducer m l').
Proof.
  intros Hm Hp. destruct m; cbn [Prep.reducer]; [apply median_perm, Hp | | | congruence].
  - destruct l as [|a l], l' as [|a' l'];
      [exact I | apply Permutation_nil in Hp; discriminate
      | symmetry in Hp; apply Permutation_nil in Hp; discriminate |].
    cbn [Pd.Qmin_list Spec.same_figure].
    destruct (fold_min_spec l a) as [Hin Hmin], (fold_min_spec l' a') as [Hin' Hmin'].
    apply Qle_antisym.
    + apply Hmin. eapply Permutation_in; [symmetry; exact Hp | exact Hin'].
    + apply Hmin'. eapply Permutation_in; [exact Hp | exact Hin].
  - destruct l as [|a l], l' as [|a' l'];
      [exact I | apply Permutation_nil in Hp; discriminate
      | symmetry in Hp; apply Permutation_nil in Hp; discriminate |].
    cbn [Pd.Qmax_list Spec.same_figure].
    destruct (fold_max_spec l a) as [Hin Hmax], (fold_max_spec l' a') as [Hin' Hmax'].
    apply Qle_antisym.
    + apply Hmax'. eapply Permutation_in; [exact Hp | exact Hin].
    + apply Hmax. eapply Permutation_in; [symmetry; exact Hp | exact Hin'].
Qed.

Lemma traverse_perm_ok {X Y} (f : X -> Py.result Y) l l' a :
  Permutation l l' -> Py.traverse f l = Py.Ok a ->
  exists b, Py.traverse f l' = Py.Ok b /\ Permutation a b.
Proof.
  intros Hp. revert a.
  induction Hp as [|x l l' _ IH|x y l|l l' l'' _ IH1 _ IH2]; intros a Ha.
  - exists a. split; [exact Ha | reflexivity].
  - cbn [Py.traverse] in *. destruct (f x) as [u|]; cbn [Py.bind] in *; [| discriminate].
    destruct (Py.traverse f l) as [us|]; cbn [Py.bind] in *; [| discriminate].
    injection Ha as <-. destruct (IH us eq_refl) as [b [-> Hb]].
    exists (u :: b). split; [reflexivity | constructor; exact Hb].
  - cbn [Py.traverse] in *.
    destruct (f y) as [v|]; cbn [Py.bind] in *; [| discriminate].
    destruct (f x) as [u|]; cbn [Py.bind] in *; [| discriminate].
    destruct (Py.traverse f l) as [us|]; cbn [Py.bind] in *; [| discriminate].
    injection Ha as <-. exists (u :: v :: us). split; [reflexivity | apply perm_swap].
  - destruct (IH1 a Ha) as [b [Hb Hab]]. destruct (IH2 b Hb) as [c [Hc Hbc]].
    exists c. split; [exact Hc | etransitivity; eassumption].
Qed.

(** The same frame with its rows in another order. *)
Definition reordered (df : Pd.DataFrame) (rows' : list (gmap string Pd.value))
  : Pd.DataFrame :=
  {| Pd.columns := Pd.columns df; Pd.categories := Pd.categories df; Pd.rows := rows' |}.

Section row_order.
Context `{Pd.Runtime}.

Lemma scoped_perm (df df' : Pd.DataFrame) rs rs' :
  Pd.has_col df' "cla_age_5" = Pd.has_col df "cla_age_5" ->
  Permutation rs rs' ->
  Permutation (Pd.rows (scoped df rs)) (Pd.rows (scoped df' rs')).
Proof.
  intros Hc Hp. cbn [scoped Pd.rows]. rewrite Hc. unfold age_filter.
  assert (Hd : Permutation (List.filter dept_ok (map deptfix rs))
                 (List.filter dept_ok (map deptfix rs')))
    by (apply filter_perm, Permutation_map, Hp).
  destruct (Pd.has_col df "cla_age_5"); [| exact Hd].
  apply filter_perm, filter_perm, Hd.
Qed.

Lemma sframe_perm (df df' : Pd.DataFrame) year rs rs' :
  Pd.has_col df' "cla_age_5" = Pd.has_col df "cla_age_5" ->
  Permutation rs rs' ->
  Permutation (Pd.rows (sframe df year rs)) (Pd.rows (sframe df' year rs')).
Proof.
  intros Hc Hp. rewrite !sframe_rows.
  apply filter_perm, Permutation_map, filter_perm, scoped_perm; assumption.
Qed.

(** The order of the rows does not matter to the single-year union,
    unless the reducer is [first]: on the same rows in another order it
    raises the same exception or returns the same figure. *)
Theorem for_year_row_order (df : Pd.DataFrame) (rows' : list (gmap string Pd.value))
  (year : Z) (m : Prep.method) :
  Permutation (Pd.rows df) rows' -> m <> Prep.First ->
  match Prep.population_union_for_year df year m,
        Prep.population_union_for_year (reordered df rows') year m with
  | Py.Ok r, Py.Ok r' => Spec.same_figure r r'
  | Py.Raise e, Py.Raise e' => e = e'
  | _, _ => False
  end.
Proof.
  intros Hp Hm. set (df' := reordered df rows').
  assert (Hsub : Pd.issubset Prep.required df' = Pd.issubset Prep.required df)
    by reflexivity.
  destruct (Pd.issubset Prep.required df) eqn:Hreq.
  2: { unfold Prep.population_union_for_year. rewrite Hsub, Hreq. exact I. }
  destruct (Py.traverse yearfix (Pd.rows df)) as [rs|e] eqn:Hrs.
  2: { rewrite (for_year_raises df year m e Hreq Hrs).
       destruct (Py.traverse yearfix (Pd.rows df')) as [rs'|e'] eqn:Hrs'.
       - destruct (traverse_perm_ok yearfix _ (Pd.rows df) rs' (Permutation_sym Hp) Hrs')
           as [b [Hb _]]. congruence.
       - rewrite (for_year_raises df' year m e' Hsub Hrs').
         apply scope_rows_raise in Hrs as [-> _].
         apply scope_rows_raise in Hrs' as [-> _]. reflexivity. }
  destruct (traverse_perm_ok yearfix _ (Pd.rows df') rs Hp Hrs) as [rs' [Hrs' Hprs]].
  rewrite (for_year_unfold df year m rs Hreq Hrs).
  rewrite (for_year_unfold df' year m rs' Hsub Hrs').
  change (slice_cols df') with (slice_cols df).
  set (SC := slice_cols df).
  set (yr := fun r : gmap string Pd.value => Prep.year_is year (Pd.cell r "annee")).
  pose proof (filter_perm yr _ _ (scoped_perm df df' rs rs' eq_refl Hprs)) as Hsel.
  pose proof (sframe_perm df df' year rs rs' eq_refl Hprs) as Hsf.
  set (sA := sframe df year rs) in *. set (sB := sframe df' year rs') in *.
  unfold Pd.empty. cbn [Pd.select Pd.rows]. fold yr.
  destruct (List.filter yr (Pd.rows (scoped df rs))) as [|r0 l0] eqn:E0.
  { apply Permutation_nil in Hsel. rewrite Hsel. exact I. }
  destruct (List.filter yr (Pd.rows (scoped df' rs'))) as [|r1 l1] eqn:E1.
  { symmetry in Hsel. apply Permutation_nil in Hsel. discriminate. }
  cbn [Spec.same_figure].
  set (gA := fun k => Prep.reducer m (Pd.numbers "npop" (Pd.group SC k sA))).
  set (gB := fun k => Prep.reducer m (Pd.numbers "npop" (Pd.group SC k sB))).
  assert (Hnum : forall k, Permutation (Pd.numbers "npop" (Pd.group SC k sA))
                             (Pd.numbers "npop" (Pd.group SC k sB))).
  { intros k. unfold Pd.numbers, Pd.group. apply omap_perm, filter_perm, Hsf. }
  transitivity (Pd.sum (omap gA (Pd.group_keys sB SC))).
  - apply sum_support; try apply NoDup_group_keys.
    intros k Hs. split; [eapply reducer_support; exact Hs |].
    eapply reducer_support with (m := m).
    destruct Hs as [q Hq]. unfold gA in Hq.
    pose proof (reducer_perm m _ _ Hm (Hnum k)) as Hsame. rewrite Hq in Hsame.
    destruct (Prep.reducer m (Pd.numbers "npop" (Pd.group SC k sB)));
      [eauto | destruct Hsame].
  - apply sum_omap_same. intros k _. apply reducer_perm; [exact Hm | apply Hnum].
Qed.

End row_order.

Lemma for_year_row_order_witness :
  match Prep.population_union_for_year (H := example_runtime) reported_twice 2023
          Prep.Median,
        Prep.population_union_for_year (H := example_runtime)
          (reordered reported_twice (rev (Pd.rows reported_twice))) 2023 Prep.Median with
  | Py.Ok r, Py.Ok r' => Spec.same_figure r r'
  | Py.Raise e, Py.Raise e' => e = e'
  | _, _ => False
  end.
Proof.
  apply (for_year_row_order (H := example_runtime) reported_twice
           (rev (Pd.rows reported_twice)) 2023 Prep.Median).
  - apply Permutation_rev.
  - discriminate.
Defined.
